(** * laboRARE engine: request mediation layer

    A shallow embedding of the backend of the repository
    (backend/utils/file_validator.py, backend/utils/response_formatter.py,
    backend/services/mistral_service.py and backend/main.py) together with
    the properties its specification states about it.

    Conventions of the embedding.
    - A Python [str] is a [string]; each character stands for one code point
      below 256.  The text of a streamed answer, which may be in any script,
      is a [PyText.t]: the list of its code points.  [bytes] is a
      [list byte]; [int] is [Z].
    - An attribute that a provider object may lack is an [option] field;
      reading it directly raises [AttributeError], reading it through
      [getattr(obj, name, default)] never does.
    - Handlers run in a small state-and-exception monad [M]; the state
      records the provider operations invoked so far and the files of the
      local file system. *)

From Stdlib Require Import ZArith NArith Ascii String List Lia Bool.
From Stdlib.Strings Require Import Byte.
From stdpp Require Import base option list strings pretty gmap.

Local Open Scope string_scope.
Local Open Scope Z_scope.

(** ** Python strings *)

Module PyStr.

(** Truth value of a [str]: only the empty string is falsy. *)
Definition truthy (s : string) : bool :=
  match s with
  | EmptyString => false
  | String _ _ => true
  end.

(** [str.lower()] on one code point below 256: the letters A-Z and the
    Latin-1 capitals (0xC0-0xDE, without the multiplication sign 0xD7)
    move up by 32, everything else is unchanged. *)
Definition lower_char (c : ascii) : ascii :=
  let n := N_of_ascii c in
  if ((65 <=? n) && (n <=? 90))%N then ascii_of_N (n + 32)
  else if ((192 <=? n) && (n <=? 222) && negb (n =? 215))%N
       then ascii_of_N (n + 32)
  else c.

Fixpoint lower (s : string) : string :=
  match s with
  | EmptyString => EmptyString
  | String c s' => String (lower_char c) (lower s')
  end.

Definition len (s : string) : nat := String.length s.

(** [s.endswith(suffix)]: the last [len suffix] characters of [s] are
    [suffix]. *)
Definition endswith (s suffix : string) : bool :=
  let n := len s in
  let m := len suffix in
  (m <=? n)%nat && String.eqb (substring (n - m) m s) suffix.

End PyStr.

(** A [str] given by its code points, each below 0x110000 ([valid]). *)
Module PyText.

Definition t := list N.

(** Truth value: only the empty text is falsy. *)
Definition truthy (s : t) : bool :=
  match s with
  | [] => false
  | _ :: _ => true
  end.

(** The range of [ord]: 0 to 0x10FFFF. *)
Definition valid (s : t) : bool := forallb (λ n, (n <? 1114112)%N) s.

(** The text of a [string] of the embedding. *)
Definition of_str (s : string) : t := List.map N_of_ascii (list_ascii_of_string s).

End PyText.

(** ** backend/utils/file_validator.py *)

(** The object FastAPI hands to the upload handler.  [filename] is
    [Optional[str]]; [read()] returns the body or fails. *)
Module UploadFile.
Record t := {
  filename : option string;
  body : list byte;
}.
End UploadFile.

(** Truth value of an [Optional[str]]. *)
Definition opt_str_truthy (o : option string) : bool :=
  match o with
  | None => false
  | Some s => PyStr.truthy s
  end.

(** Truth value of an [Optional[int]]. *)
Definition opt_int_truthy (o : option Z) : bool :=
  match o with
  | None => false
  | Some n => negb (n =? 0)
  end.

(** Truth value of an optional list or dictionary. *)
Definition opt_list_truthy {A} (o : option (list A)) : bool :=
  match o with
  | None | Some [] => false
  | Some (_ :: _) => true
  end.

(** Python's [len] on [bytes], as an [int]. *)
Definition bytes_len (content : list byte) : Z := Z.of_nat (length content).

Module FileValidator.

Definition validate_pdf (file : UploadFile.t) (max_size_mb : Z)
  : bool * string :=
  match UploadFile.filename file with
  | None => (false, "filename is required")
  | Some name =>
      if negb (PyStr.truthy name) then (false, "filename is required")
      else if negb (PyStr.endswith (PyStr.lower name) ".pdf")
      then (false, "only pdf files are supported")
      else (true, "")
  end.

Definition validate_file_size (content : list byte) (max_size_mb : Z)
  : bool * string :=
  let max_size_bytes := max_size_mb * 1024 * 1024 in
  if bytes_len content >? max_size_bytes
  then (false, "file size exceeds " +:+ pretty max_size_mb +:+ "mb limit")
  else if bytes_len content =? 0
  then (false, "file is empty")
  else (true, "").

Definition validate_file_id (file_id : string) : bool * string :=
  if negb (PyStr.truthy file_id) then (false, "file_id is required")
  else if (PyStr.len file_id <? 10)%nat then (false, "invalid file_id format")
  else (true, "").

End FileValidator.

(** The failure names the specification uses for the validator, and the
    message the code reports for each. *)
Inductive ValidationFailure :=
| MissingFilename
| UnsupportedType
| EmptyFile
| FileTooLarge (max_size_mb : Z)
| InvalidIdentifier.

Definition failure_message (f : ValidationFailure) : string :=
  match f with
  | MissingFilename => "filename is required"
  | UnsupportedType => "only pdf files are supported"
  | EmptyFile => "file is empty"
  | FileTooLarge mb => "file size exceeds " +:+ pretty mb +:+ "mb limit"
  | InvalidIdentifier => "invalid file_id format"
  end.

Definition rejected (f : ValidationFailure) : bool * string :=
  (false, failure_message f).

Definition accepted : bool * string := (true, "").

(** ** Python values, dictionaries and [json.dumps] *)

(** Dictionaries keep insertion order, so a dictionary is an association
    list; the literals of the source have distinct keys. *)
#[warnings="-register-all"] Inductive PyVal :=
| VNone
| VBool (b : bool)
| VInt (n : Z)
| VStr (s : string)
| VText (text : PyText.t)
| VList (items : list PyVal)
| VDict (entries : list (string * PyVal)).

Module PyDict.

Fixpoint get (d : list (string * PyVal)) (key : string) : option PyVal :=
  match d with
  | [] => None
  | (k, v) :: rest => if String.eqb k key then Some v else get rest key
  end.

(** [key in d] *)
Definition mem (d : list (string * PyVal)) (key : string) : bool :=
  match get d key with
  | Some _ => true
  | None => false
  end.

(** [d[key] = v]: replaces the value in place, or appends a new entry. *)
Fixpoint set (d : list (string * PyVal)) (key : string) (v : PyVal)
  : list (string * PyVal) :=
  match d with
  | [] => [(key, v)]
  | (k, v0) :: rest =>
      if String.eqb k key then (k, v) :: rest else (k, v0) :: set rest key v
  end.

End PyDict.

Module Json.

Definition dquote : ascii := ascii_of_N 34.

Definition hex_digit (n : N) : ascii :=
  if (n <? 10)%N then ascii_of_N (48 + n) else ascii_of_N (87 + n).

(** ['{0:04x}'.format(n)] for [n] below 0x10000, the values it is applied
    to. *)
Definition hex4 (n : N) : string :=
  String (hex_digit (n / 4096)) (String (hex_digit (n / 256 mod 16))
    (String (hex_digit (n / 16 mod 16)) (String (hex_digit (n mod 16)) ""))).

(** ['\\u{0:04x}'.format(n)] *)
Definition u_escape (n : N) : string := String "\" (String "u" (hex4 n)).

(** One code point of [py_encode_basestring_ascii] (the default
    [ensure_ascii=True]): the backslash, the quote and everything outside
    the printable range space..tilde are escaped, a code point from 0x10000
    on as the two escapes of its surrogate pair. *)
Definition escape_point (n : N) : string :=
  if (n =? 34)%N then String "\" (String dquote "")
  else if (n =? 92)%N then String "\" (String "\" "")
  else if (n =? 8)%N then String "\" (String "b" "")
  else if (n =? 12)%N then String "\" (String "f" "")
  else if (n =? 10)%N then String "\" (String "n" "")
  else if (n =? 13)%N then String "\" (String "r" "")
  else if (n =? 9)%N then String "\" (String "t" "")
  else if ((32 <=? n) && (n <=? 126))%N then String (ascii_of_N n) ""
  else if (n <? 65536)%N then u_escape n
  else
    let n' := (n - 65536)%N in
    let s1 := N.lor 55296 (N.land (N.shiftr n' 10) 1023) in
    let s2 := N.lor 56320 (N.land n' 1023) in
    u_escape s1 +:+ u_escape s2.

Definition escape_char (c : ascii) : string := escape_point (N_of_ascii c).

Fixpoint escape (s : string) : string :=
  match s with
  | EmptyString => EmptyString
  | String c s' => escape_char c +:+ escape s'
  end.

Fixpoint escape_text (text : PyText.t) : string :=
  match text with
  | [] => EmptyString
  | n :: text' => escape_point n +:+ escape_text text'
  end.

Definition quote : string := String dquote "".

Definition dumps_str (s : string) : string := quote +:+ escape s +:+ quote.

Definition dumps_text (text : PyText.t) : string :=
  quote +:+ escape_text text +:+ quote.

(** [", ".join(parts)] *)
Fixpoint join (parts : list string) : string :=
  match parts with
  | [] => ""
  | [p] => p
  | p :: rest => p +:+ ", " +:+ join rest
  end.

(** [json.dumps(v)] with the default separators. *)
Fixpoint dumps (v : PyVal) : string :=
  match v with
  | VNone => "null"
  | VBool true => "true"
  | VBool false => "false"
  | VInt n => pretty n
  | VStr s => dumps_str s
  | VText text => dumps_text text
  | VList items => "[" +:+ join (List.map dumps items) +:+ "]"
  | VDict entries =>
      "{" +:+ join (List.map (fun kv => dumps_str (fst kv) +:+ ": " +:+ dumps (snd kv))
                             entries) +:+ "}"
  end.

End Json.

(** ** Exceptions and the handler monad *)

Inductive exn :=
| HTTPException (status_code : Z) (detail : string)
| AttributeError (attr : string)
| IndexError
| ValueError (msg : string)
| OSError (msg : string)
| SDKError (msg : string).

Definition is_HTTPException (e : exn) : bool :=
  match e with
  | HTTPException _ _ => true
  | _ => false
  end.

Inductive Res (A : Type) :=
| Ok (a : A)
| Raise (e : exn).
Arguments Ok {A} a.
Arguments Raise {A} e.

Module Res.

Definition bind {A B} (r : Res A) (k : A -> Res B) : Res B :=
  match r with
  | Ok a => k a
  | Raise e => Raise e
  end.

(** [obj.name]: the attribute, or [AttributeError] when the object has
    none of that name. *)
Definition attr {A} (name : string) (field : option A) : Res A :=
  match field with
  | Some a => Ok a
  | None => Raise (AttributeError name)
  end.

(** [seq[0]] *)
Definition first {A} (l : list A) : Res A :=
  match l with
  | a :: _ => Ok a
  | [] => Raise IndexError
  end.

End Res.

(** [getattr(obj, name, default)] *)
Definition getattr {A} (field : option A) (default : A) : A :=
  match field with
  | Some a => a
  | None => default
  end.

#[global] Instance Res_ret : MRet Res := @Ok.
#[global] Instance Res_bind : MBind Res := λ A B k r, Res.bind r k.

(** ** Objects returned by the provider SDK *)

(** A file object.  Every attribute may be missing on the object the SDK
    returns. *)
Module FileObj.
Record t := {
  id : option string;
  object : option string;
  bytes : option Z;
  created_at : option Z;
  filename : option string;
  purpose : option string;
  sample_type : option string;
  num_lines : option Z;
  mimetype : option string;
  source : option string;
  signature : option string;
  deleted : option bool;
}.
End FileObj.

Module FileList.
Record t := { data : option (list FileObj.t) }.
End FileList.

Module SignedUrl.
Record t := { url : string }.
End SignedUrl.

(** An OCR page; [image_base64] is [None] when the attribute is missing or
    holds Python's [None]. *)
Module Page.
Record t := {
  index : Z;
  markdown : string;
  image_base64 : option string;
}.
End Page.

Module OcrResponse.
Record t := { pages : list Page.t }.
End OcrResponse.

Module Usage.
Record t := {
  prompt_tokens : Z;
  completion_tokens : Z;
  total_tokens : Z;
}.
End Usage.

(** A chat completion; [usage] is [None] when the response carries no usage
    object. *)
Module ChatResponse.
Record message := { content : string }.
Record choice := { message_of : message }.
Record t := {
  choices : list choice;
  model : string;
  usage : option Usage.t;
}.
End ChatResponse.

(** One increment of a streamed completion: [chunk.data.choices[i].delta];
    [content] is [None] when the delta has no such attribute or it holds
    [None], and the text of the increment otherwise. *)
Module Chunk.
Record delta_t := { content : option PyText.t }.
Record choice := { delta : delta_t }.
Record data_t := { choices : list choice }.
Record t := { data : data_t }.
End Chunk.

(** An upstream stream: the increments it delivers and, when iteration ends
    with an exception instead of exhaustion, that exception. *)
Module Stream.
Record t := {
  chunks : list Chunk.t;
  failure : option exn;
}.
End Stream.

(** ** backend/utils/response_formatter.py *)

Module ResponseFormatter.

Definition format_error (error : string) (detail : option string)
    (status_code : Z) : PyVal :=
  let response := [("error", VStr error); ("status_code", VInt status_code)] in
  if opt_str_truthy detail
  then VDict (PyDict.set response "detail" (VStr (getattr detail "")))
  else VDict response.

(** [if data:] holds for a dictionary that is given and not empty. *)
Definition format_success (message : string)
    (data : option (list (string * PyVal))) : PyVal :=
  let response := [("success", VBool true); ("message", VStr message)] in
  if opt_list_truthy data
  then VDict (PyDict.set response "data" (VDict (getattr data [])))
  else VDict response.

(** Only [deleted] is read through [getattr]; the other attributes are
    read directly, in the order of the dictionary literal. *)
Definition format_file_metadata (file_obj : FileObj.t) : Res PyVal :=
  (id ← Res.attr "id" (FileObj.id file_obj);
   object ← Res.attr "object" (FileObj.object file_obj);
   bytes ← Res.attr "bytes" (FileObj.bytes file_obj);
   created_at ← Res.attr "created_at" (FileObj.created_at file_obj);
   filename ← Res.attr "filename" (FileObj.filename file_obj);
   purpose ← Res.attr "purpose" (FileObj.purpose file_obj);
   sample_type ← Res.attr "sample_type" (FileObj.sample_type file_obj);
   num_lines ← Res.attr "num_lines" (FileObj.num_lines file_obj);
   mimetype ← Res.attr "mimetype" (FileObj.mimetype file_obj);
   source ← Res.attr "source" (FileObj.source file_obj);
   signature ← Res.attr "signature" (FileObj.signature file_obj);
   Ok (VDict [
     ("id", VStr id);
     ("object", VStr object);
     ("bytes", VInt bytes);
     ("created_at", VInt created_at);
     ("filename", VStr filename);
     ("purpose", VStr purpose);
     ("sample_type", VStr sample_type);
     ("num_lines", VInt num_lines);
     ("mimetype", VStr mimetype);
     ("source", VStr source);
     ("signature", VStr signature);
     ("deleted", VBool (getattr (FileObj.deleted file_obj) false))
   ])).

(** The body of the loop over [pages]. *)
Definition format_page (page : Page.t) : PyVal :=
  let formatted_page :=
    [("index", VInt (Page.index page)); ("markdown", VStr (Page.markdown page))] in
  match Page.image_base64 page with
  | Some image =>
      if PyStr.truthy image
      then VDict (PyDict.set formatted_page "image_base64" (VStr image))
      else VDict formatted_page
  | None => VDict formatted_page
  end.

Fixpoint format_ocr_pages_loop (pages : list Page.t)
    (formatted_pages : list PyVal) : list PyVal :=
  match pages with
  | [] => formatted_pages
  | page :: rest =>
      format_ocr_pages_loop rest (formatted_pages ++ [format_page page])%list
  end.

Definition format_ocr_pages (pages : list Page.t) : list PyVal :=
  format_ocr_pages_loop pages [].

Definition format_qa_response (chat_response : ChatResponse.t)
    (file_id question : string) : Res PyVal :=
  (choice0 ← Res.first (ChatResponse.choices chat_response);
   let answer := ChatResponse.content (ChatResponse.message_of choice0) in
   let model := ChatResponse.model chat_response in
   usage1 ← Res.attr "prompt_tokens" (ChatResponse.usage chat_response);
   usage2 ← Res.attr "completion_tokens" (ChatResponse.usage chat_response);
   usage3 ← Res.attr "total_tokens" (ChatResponse.usage chat_response);
   Ok (VDict [
     ("answer", VStr answer);
     ("model", VStr model);
     ("usage", VDict [
        ("prompt_tokens", VInt (Usage.prompt_tokens usage1));
        ("completion_tokens", VInt (Usage.completion_tokens usage2));
        ("total_tokens", VInt (Usage.total_tokens usage3))
      ]);
     ("file_id", VStr file_id);
     ("question", VStr question)
   ])).

End ResponseFormatter.

(** ** backend/schemas.py *)

Module FileUploadResponse.
Record t := {
  id : string;
  object : string;
  bytes : Z;
  created_at : Z;
  filename : string;
  purpose : string;
  sample_type : string;
  num_lines : Z;
  mimetype : string;
  source : string;
  signature : string;
}.
End FileUploadResponse.

Module FileRetrieveResponse.
Record t := {
  id : string;
  object : string;
  bytes : Z;
  created_at : Z;
  filename : string;
  purpose : string;
  sample_type : string;
  num_lines : Z;
  mimetype : string;
  source : string;
  signature : string;
  deleted : bool;
}.
End FileRetrieveResponse.

Module SignedUrlResponse.
Record t := { url : string }.
End SignedUrlResponse.

Module OCRPage.
Record t := {
  index : Z;
  markdown : string;
  image_base64 : option string;
}.
End OCRPage.

Module OCRProcessResponse.
Record t := { pages : list OCRPage.t }.
End OCRProcessResponse.

Module OCRQueryRequest.
Record t := {
  file_id : string;
  include_image_base64 : bool;
}.
End OCRQueryRequest.

Module FileListResponse.
Record t := {
  files : list FileRetrieveResponse.t;
  total : Z;
}.
End FileListResponse.

Module DeleteFileResponse.
Record t := {
  id : string;
  deleted : bool;
  message : string;
}.
End DeleteFileResponse.

Module DocumentQARequest.
Record t := {
  file_id : string;
  question : string;
  model : string;
  conversation_history : option (list PyVal);
}.
End DocumentQARequest.

Module DocumentQAResponse.
Record t := {
  answer : string;
  model : string;
  usage : list (string * Z);
  file_id : string;
  question : string;
}.
End DocumentQAResponse.

Module ConversationMessage.
Record t := {
  role : string;
  content : string;
}.
End ConversationMessage.

Module DocumentConversationRequest.
Record t := {
  file_id : string;
  messages : list ConversationMessage.t;
  model : string;
}.
End DocumentConversationRequest.

Module DocumentConversationResponse.
Record t := {
  answer : string;
  model : string;
  usage : list (string * Z);
  file_id : string;
  conversation_length : Z;
}.
End DocumentConversationResponse.

(** ** The provider, the host and the handler monad *)

(** The operations of the provider SDK, with the arguments they are invoked
    with.  [FilesGetSignedUrl _ None] is an invocation without the [expiry]
    argument. *)
Inductive ProviderCall :=
| FilesUpload (file_name : option string) (content : list byte) (purpose : string)
| FilesRetrieve (file_id : string)
| FilesGetSignedUrl (file_id : string) (expiry : option Z)
| FilesList
| FilesDelete (file_id : string)
| OcrProcess (model : string) (document : PyVal) (include_image_base64 : bool)
| ChatComplete (model : string) (messages : list PyVal)
| ChatStream (model : string) (messages : list PyVal).

(** The SDK client.  What the provider answers is opaque; an answer may
    depend on the arguments and on every operation invoked before. *)
Module Mistral.
Record t := {
  files_upload :
    list ProviderCall → option string → list byte → string → Res FileObj.t;
  files_retrieve : list ProviderCall → string → Res FileObj.t;
  files_get_signed_url :
    list ProviderCall → string → option Z → Res SignedUrl.t;
  files_list : list ProviderCall → Res FileList.t;
  files_delete : list ProviderCall → string → Res unit;
  ocr_process : list ProviderCall → string → PyVal → bool → Res OcrResponse.t;
  chat_complete : list ProviderCall → string → list PyVal → Res ChatResponse.t;
  chat_stream : list ProviderCall → string → list PyVal → Res Stream.t;
}.
End Mistral.

(** What a handler can change: the provider operations invoked so far
    (oldest first) and the files on the local disk. *)
Record World := {
  calls : list ProviderCall;
  fs : gmap string (list byte);
}.

Definition M (A : Type) : Type := World → Res A * World.

#[global] Instance M_ret : MRet M := λ A a w, (Ok a, w).
#[global] Instance M_bind : MBind M := λ A B k m w,
  match m w with
  | (Ok a, w') => k a w'
  | (Raise e, w') => (Raise e, w')
  end.
#[global] Instance M_fmap : FMap M := λ A B f m w,
  match m w with
  | (Ok a, w') => (Ok (f a), w')
  | (Raise e, w') => (Raise e, w')
  end.

Definition raise {A} (e : exn) : M A := λ w, (Raise e, w).

Definition lift {A} (r : Res A) : M A := λ w, (r, w).

(** [try: body  except Exception as e: handler(e)] *)
Definition try_except {A} (body : M A) (handler : exn → M A) : M A :=
  λ w, match body w with
       | (Ok a, w') => (Ok a, w')
       | (Raise e, w') => handler e w'
       end.

(** [try: body  finally: final] *)
Definition try_finally {A} (body : M A) (final : M unit) : M A :=
  λ w, match body w with
       | (r, w') =>
           match final w' with
           | (Ok _, w'') => (r, w'')
           | (Raise e, w'') => (Raise e, w'')
           end
       end.

(** Invoke one provider operation: the answer is the client's, and the
    operation is appended to the record of invocations. *)
Definition invoke {A} (c : ProviderCall) (answer : list ProviderCall → Res A)
  : M A :=
  λ w, (answer (calls w), {| calls := (calls w ++ [c])%list; fs := fs w |}).

(** The host's side of one upload: whether reading the request body,
    creating the temporary file, writing it and reopening it succeed, and
    the name the temporary file gets. *)
Module Host.
Record t := {
  read_error : option exn;
  tmp_path : string;
  create_error : option exn;
  write_error : option exn;
  open_error : option exn;
}.
End Host.

Module HostIO.

(** [await file.read()] *)
Definition read (host : Host.t) (file : UploadFile.t) : M (list byte) :=
  match Host.read_error host with
  | Some e => raise e
  | None => mret (UploadFile.body file)
  end.

Definition set_fs (w : World) (fs' : gmap string (list byte)) : World :=
  {| calls := calls w; fs := fs' |}.

(** The block
    [with tempfile.NamedTemporaryFile(mode='wb', delete=False, suffix='.pdf') as tmp_file]:
    a new empty file is created under a name not in use, [content] is
    written, and the file is closed and kept ([delete=False]) however the
    block is left.  The result is [tmp_file.name]. *)
Definition stage (host : Host.t) (content : list byte) : M string :=
  λ w,
    match Host.create_error host with
    | Some e => (Raise e, w)
    | None =>
        let path := Host.tmp_path host in
        if decide (is_Some (fs w !! path))
        then (Raise (OSError "file exists"), w)
        else
          match Host.write_error host with
          | Some e => (Raise e, set_fs w (<[path := []]> (fs w)))
          | None => (Ok path, set_fs w (<[path := content]> (fs w)))
          end
    end.

(** [open(path, 'rb')]: the handle, positioned at offset zero, stands for
    the bytes of the file. *)
Definition open_rb (host : Host.t) (path : string) : M (list byte) :=
  λ w,
    match Host.open_error host with
    | Some e => (Raise e, w)
    | None =>
        match fs w !! path with
        | Some content => (Ok content, w)
        | None => (Raise (OSError "no such file"), w)
        end
    end.

(** [os.path.exists(path)] *)
Definition exists_ (path : string) : M bool :=
  λ w, (Ok (bool_decide (is_Some (fs w !! path))), w).

(** [os.unlink(path)] *)
Definition unlink (path : string) : M unit :=
  λ w, (Ok tt, set_fs w (delete path (fs w))).

End HostIO.

(** ** backend/services/mistral_service.py *)

Module MistralService.

Record t := {
  api_key : string;
  client : Mistral.t;
}.

(** [__init__(api_key)]: [environ_key] is the value of the environment
    variable MISTRAL_API_KEY and [connect] the SDK's constructor. *)
Definition init (connect : string → Mistral.t) (environ_key : option string)
    (api_key : option string) : Res t :=
  let key := if opt_str_truthy api_key then api_key else environ_key in
  match key with
  | Some k =>
      if PyStr.truthy k
      then Ok {| api_key := k; client := connect k |}
      else Raise (ValueError "mistral_api_key not found in environment variables")
  | None => Raise (ValueError "mistral_api_key not found in environment variables")
  end.

Definition upload_file (self : t) (file_content : list byte)
    (filename : option string) : M FileObj.t :=
  invoke (FilesUpload filename file_content "ocr")
         (λ h, Mistral.files_upload (client self) h filename file_content "ocr").

Definition retrieve_file (self : t) (file_id : string) : M FileObj.t :=
  invoke (FilesRetrieve file_id)
         (λ h, Mistral.files_retrieve (client self) h file_id).

Definition get_signed_url (self : t) (file_id : string)
    (expiry_hours : option Z) : M SignedUrl.t :=
  if opt_int_truthy expiry_hours
  then invoke (FilesGetSignedUrl file_id expiry_hours)
              (λ h, Mistral.files_get_signed_url (client self) h file_id expiry_hours)
  else invoke (FilesGetSignedUrl file_id None)
              (λ h, Mistral.files_get_signed_url (client self) h file_id None).

Definition list_files (self : t) : M FileList.t :=
  invoke FilesList (λ h, Mistral.files_list (client self) h).

Definition delete_file (self : t) (file_id : string) : M unit :=
  invoke (FilesDelete file_id)
         (λ h, Mistral.files_delete (client self) h file_id).

Definition process_ocr (self : t) (document_url : string)
    (include_image_base64 : bool) : M OcrResponse.t :=
  let document :=
    VDict [("type", VStr "document_url"); ("document_url", VStr document_url)] in
  invoke (OcrProcess "mistral-ocr-latest" document include_image_base64)
         (λ h, Mistral.ocr_process (client self) h "mistral-ocr-latest"
                 document include_image_base64).

(** The message list both chat methods build: the history, if any, then
    the new user turn with the question and the document reference. *)
Definition build_messages (conversation_history : option (list PyVal))
    (question url : string) : list PyVal :=
  let messages :=
    if opt_list_truthy conversation_history
    then ([] ++ getattr conversation_history [])%list
    else [] in
  (messages ++ [VDict [
    ("role", VStr "user");
    ("content", VList [
       VDict [("type", VStr "text"); ("text", VStr question)];
       VDict [("type", VStr "document_url"); ("document_url", VStr url)]
     ])
  ]])%list.

Definition query_document (self : t) (file_id question model : string)
    (conversation_history : option (list PyVal)) : M ChatResponse.t :=
  signed_url ← get_signed_url self file_id None;
  let messages :=
    build_messages conversation_history question (SignedUrl.url signed_url) in
  invoke (ChatComplete model messages)
         (λ h, Mistral.chat_complete (client self) h model messages).

Definition query_document_streaming (self : t) (file_id question model : string)
    (conversation_history : option (list PyVal)) : M Stream.t :=
  signed_url ← get_signed_url self file_id None;
  let messages :=
    build_messages conversation_history question (SignedUrl.url signed_url) in
  invoke (ChatStream model messages)
         (λ h, Mistral.chat_stream (client self) h model messages).

End MistralService.

(** ** backend/config.py *)

Module Settings.
Record t := {
  max_file_size_mb : Z;
  max_pages : Z;
  default_qa_model : string;
  ocr_model : string;
}.

Definition default : t := {|
  max_file_size_mb := 50;
  max_pages := 1000;
  default_qa_model := "mistral-small-latest";
  ocr_model := "mistral-ocr-latest";
|}.
End Settings.

(** ** backend/main.py *)

(** What the streaming handlers return: the frames the generator yields, in
    order, and the exception that ends the generator when the upstream
    stream fails. *)
Module StreamingResponse.
Record t := {
  body : list string;
  error : option exn;
  media_type : string;
}.
End StreamingResponse.

Module Main.

(** Module initialisation: [mistral_service] is the service, or [None]
    when its construction raised [ValueError]. *)
Definition startup (connect : string → Mistral.t) (environ_key : option string)
  : option MistralService.t :=
  match MistralService.init connect environ_key None with
  | Ok service => Some service
  | Raise _ => None
  end.

Definition not_initialized : exn :=
  HTTPException 500 "mistral service not initialized".

(** The [FileUploadResponse(...)] expression of [upload_document]; the
    keyword arguments are evaluated in the order written. *)
Definition upload_response (uploaded : FileObj.t) (content : list byte)
  : Res FileUploadResponse.t :=
  id ← Res.attr "id" (FileObj.id uploaded);
  object ← Res.attr "object" (FileObj.object uploaded);
  let bytes := getattr (FileObj.bytes uploaded) (bytes_len content) in
  created_at ← Res.attr "created_at" (FileObj.created_at uploaded);
  filename ← Res.attr "filename" (FileObj.filename uploaded);
  purpose ← Res.attr "purpose" (FileObj.purpose uploaded);
  mret {|
    FileUploadResponse.id := id;
    FileUploadResponse.object := object;
    FileUploadResponse.bytes := bytes;
    FileUploadResponse.created_at := created_at;
    FileUploadResponse.filename := filename;
    FileUploadResponse.purpose := purpose;
    FileUploadResponse.sample_type := getattr (FileObj.sample_type uploaded) "ocr_input";
    FileUploadResponse.num_lines := getattr (FileObj.num_lines uploaded) 0;
    FileUploadResponse.mimetype := getattr (FileObj.mimetype uploaded) "application/pdf";
    FileUploadResponse.source := getattr (FileObj.source uploaded) "upload";
    FileUploadResponse.signature := getattr (FileObj.signature uploaded) "";
  |}.

(** The [FileRetrieveResponse(...)] expression shared by [list_documents]
    and [retrieve_document]. *)
Definition retrieve_response (f : FileObj.t) : Res FileRetrieveResponse.t :=
  id ← Res.attr "id" (FileObj.id f);
  object ← Res.attr "object" (FileObj.object f);
  let bytes := getattr (FileObj.bytes f) 0 in
  created_at ← Res.attr "created_at" (FileObj.created_at f);
  filename ← Res.attr "filename" (FileObj.filename f);
  purpose ← Res.attr "purpose" (FileObj.purpose f);
  mret {|
    FileRetrieveResponse.id := id;
    FileRetrieveResponse.object := object;
    FileRetrieveResponse.bytes := bytes;
    FileRetrieveResponse.created_at := created_at;
    FileRetrieveResponse.filename := filename;
    FileRetrieveResponse.purpose := purpose;
    FileRetrieveResponse.sample_type := getattr (FileObj.sample_type f) "ocr_input";
    FileRetrieveResponse.num_lines := getattr (FileObj.num_lines f) 0;
    FileRetrieveResponse.mimetype := getattr (FileObj.mimetype f) "application/pdf";
    FileRetrieveResponse.source := getattr (FileObj.source f) "upload";
    FileRetrieveResponse.signature := getattr (FileObj.signature f) "";
    FileRetrieveResponse.deleted := getattr (FileObj.deleted f) false;
  |}.

(** The loop of [list_documents] over [files.data]. *)
Fixpoint list_loop (data : list FileObj.t) (file_list : list FileRetrieveResponse.t)
  : Res (list FileRetrieveResponse.t) :=
  match data with
  | [] => Ok file_list
  | f :: rest =>
      r ← retrieve_response f;
      list_loop rest (file_list ++ [r])%list
  end.

(** The loop of [query_ocr] over [ocr_response.pages]. *)
Definition ocr_page (page : Page.t) : OCRPage.t := {|
  OCRPage.index := Page.index page;
  OCRPage.markdown := Page.markdown page;
  OCRPage.image_base64 := Page.image_base64 page;
|}.

Fixpoint ocr_loop (source : list Page.t) (pages : list OCRPage.t)
  : list OCRPage.t :=
  match source with
  | [] => pages
  | page :: rest => ocr_loop rest (pages ++ [ocr_page page])%list
  end.

(** The [usage={...}] dictionary of the two Q&A responses. *)
Definition usage_dict (chat_response : ChatResponse.t) : Res (list (string * Z)) :=
  u1 ← Res.attr "prompt_tokens" (ChatResponse.usage chat_response);
  u2 ← Res.attr "completion_tokens" (ChatResponse.usage chat_response);
  u3 ← Res.attr "total_tokens" (ChatResponse.usage chat_response);
  mret [("prompt_tokens", Usage.prompt_tokens u1);
        ("completion_tokens", Usage.completion_tokens u2);
        ("total_tokens", Usage.total_tokens u3)].

(** [chat_response.choices[0].message.content] *)
Definition first_answer (chat_response : ChatResponse.t) : Res string :=
  choice0 ← Res.first (ChatResponse.choices chat_response);
  mret (ChatResponse.content (ChatResponse.message_of choice0)).

(** The loop of the conversation handlers over [request.messages[:-1]]. *)
Definition turn (role content : string) : PyVal :=
  VDict [("role", VStr role); ("content", VStr content)].

Fixpoint history_loop (msgs : list ConversationMessage.t)
    (conversation_history : list PyVal) : list PyVal :=
  match msgs with
  | [] => conversation_history
  | msg :: rest =>
      if String.eqb (ConversationMessage.role msg) "user"
      then history_loop rest
             (conversation_history ++ [turn "user" (ConversationMessage.content msg)])%list
      else if String.eqb (ConversationMessage.role msg) "assistant"
      then history_loop rest
             (conversation_history ++ [turn "assistant" (ConversationMessage.content msg)])%list
      else history_loop rest conversation_history
  end.

(** The part of the conversation handlers before the provider is asked:
    the history and the current question, or the [HTTPException] raised. *)
Definition derive_conversation (messages : list ConversationMessage.t)
  : Res (list PyVal * string) :=
  let conversation_history := history_loop (removelast messages) [] in
  last_user_message ←
    match last messages with
    | Some last_msg =>
        if String.eqb (ConversationMessage.role last_msg) "user"
        then Ok (Some (ConversationMessage.content last_msg))
        else Raise (HTTPException 400 "last message must be from user")
    | None => Ok None
    end;
  if negb (opt_str_truthy last_user_message)
  then Raise (HTTPException 400 "no user message found")
  else Ok (conversation_history, getattr last_user_message "").

(** One server-sent event: [f"data: {json.dumps(payload)}\n\n"]. *)
Definition newline : string := String (ascii_of_N 10) "".

Definition sse (payload : PyVal) : string :=
  "data: " +:+ Json.dumps payload +:+ newline +:+ newline.

(** The loop of [generate] over the chunks of the stream. *)
Fixpoint generate_loop (chunks : list Chunk.t) : list string :=
  match chunks with
  | [] => []
  | chunk :: rest =>
      match Chunk.choices (Chunk.data chunk) with
      | [] => generate_loop rest
      | choice0 :: _ =>
          match Chunk.content (Chunk.delta choice0) with
          | Some text =>
              if PyText.truthy text
              then sse (VDict [("content", VText text)]) :: generate_loop rest
              else generate_loop rest
          | None => generate_loop rest
          end
      end
  end.

(** The generator [generate()], run to its end: the content frames, then
    the completion frame when the stream is exhausted; when the stream
    fails instead, the generator ends with that exception. *)
Definition generate (stream : Stream.t) : StreamingResponse.t :=
  match Stream.failure stream with
  | None => {|
      StreamingResponse.body :=
        (generate_loop (Stream.chunks stream) ++ [sse (VDict [("done", VBool true)])])%list;
      StreamingResponse.error := None;
      StreamingResponse.media_type := "text/event-stream" |}
  | Some e => {|
      StreamingResponse.body := generate_loop (Stream.chunks stream);
      StreamingResponse.error := Some e;
      StreamingResponse.media_type := "text/event-stream" |}
  end.

(** The same generator step by step.  A generator object is suspended
    either in the loop, with the rest of the stream before it, or at the
    completion frame, or it is finished; [next] resumes it up to the next
    [yield], the end ([StopIteration]) or the exception of the stream. *)
Inductive Generator :=
| Streaming (upstream : list Chunk.t) (failure : option exn)
| AtDone
| Finished.

Inductive Step :=
| Yield (frame : string)
| StopIteration
| Throw (e : exn).

Fixpoint resume (upstream : list Chunk.t) (failure : option exn)
  : Step * Generator :=
  match upstream with
  | [] =>
      match failure with
      | None => (Yield (sse (VDict [("done", VBool true)])), AtDone)
      | Some e => (Throw e, Finished)
      end
  | chunk :: rest =>
      match Chunk.choices (Chunk.data chunk) with
      | [] => resume rest failure
      | choice0 :: _ =>
          match Chunk.content (Chunk.delta choice0) with
          | Some text =>
              if PyText.truthy text
              then (Yield (sse (VDict [("content", VText text)])), Streaming rest failure)
              else resume rest failure
          | None => resume rest failure
          end
      end
  end.

Definition next (g : Generator) : Step * Generator :=
  match g with
  | Streaming upstream failure => resume upstream failure
  | AtDone => (StopIteration, Finished)
  | Finished => (StopIteration, Finished)
  end.

(** The server iterating the generator: the frames sent, and the exception
    that ended the iteration, if any.  [fuel] bounds the number of calls of
    [next]. *)
Fixpoint drain (fuel : nat) (g : Generator) : option (list string * option exn) :=
  match fuel with
  | O => None
  | S fuel' =>
      match next g with
      | (Yield frame, g') =>
          match drain fuel' g' with
          | Some (frames, error) => Some (frame :: frames, error)
          | None => None
          end
      | (StopIteration, _) => Some ([], None)
      | (Throw e, _) => Some ([], Some e)
      end
  end.

(** The values a handler can return. *)
Inductive Response :=
| RJson (payload : PyVal)
| RFileUpload (r : FileUploadResponse.t)
| RFileList (r : FileListResponse.t)
| RFileRetrieve (r : FileRetrieveResponse.t)
| RDeleteFile (r : DeleteFileResponse.t)
| RSignedUrl (r : SignedUrlResponse.t)
| ROCRProcess (r : OCRProcessResponse.t)
| RDocumentQA (r : DocumentQAResponse.t)
| RDocumentConversation (r : DocumentConversationResponse.t)
| RStreaming (r : StreamingResponse.t).

(** The calls the application accepts, one per route. *)
Inductive Request :=
| GetRoot
| PostDocumentsUpload (file : UploadFile.t)
| GetDocuments
| GetDocument (file_id : string)
| DeleteDocument (file_id : string)
| GetSignedUrl (file_id : string) (expiry_hours : option Z)
| PostOcrQuery (request : OCRQueryRequest.t)
| PostQaQuery (request : DocumentQARequest.t)
| PostQaConversation (request : DocumentConversationRequest.t)
| PostQaStream (request : DocumentQARequest.t)
| PostQaConversationStream (request : DocumentConversationRequest.t)
| GetHealth.

Section Handlers.

(** The module globals [settings] and [mistral_service]; no handler
    rebinds them.  [str_of_exn] is Python's [str(e)], and [host] the
    behaviour of the host during an upload. *)
Variable settings : Settings.t.
Variable mistral_service : option MistralService.t.
Variable str_of_exn : exn → string.
Variable host : Host.t.

(** [except Exception as e: raise HTTPException(status, prefix + str(e))] *)
Definition wrap (status : Z) (prefix : string) (e : exn) : exn :=
  HTTPException status (prefix +:+ str_of_exn e).

Definition root : M PyVal :=
  mret (VDict [
    ("message", VStr "mistral ocr and q&a rag engine api");
    ("version", VStr "1.0.0");
    ("endpoints", VDict [
       ("documents", VDict [
          ("upload", VStr "/documents/upload");
          ("list", VStr "/documents/");
          ("retrieve", VStr "/documents/{file_id}");
          ("delete", VStr "/documents/{file_id}");
          ("signed_url", VStr "/documents/{file_id}/signed-url")
        ]);
       ("ocr", VDict [("process", VStr "/ocr/query")]);
       ("qa", VDict [
          ("query", VStr "/qa/query");
          ("conversation", VStr "/qa/conversation");
          ("stream", VStr "/qa/stream")
        ])
     ])
  ]).

Definition upload_document (file : UploadFile.t) : M FileUploadResponse.t :=
  match mistral_service with
  | None => raise not_initialized
  | Some service =>
      let '(is_valid, error_msg) :=
        FileValidator.validate_pdf file (Settings.max_file_size_mb settings) in
      if negb is_valid then raise (HTTPException 400 error_msg)
      else
        try_except
          (content ← HostIO.read host file;
           let '(is_valid, error_msg) :=
             FileValidator.validate_file_size content
               (Settings.max_file_size_mb settings) in
           if negb is_valid then raise (HTTPException 400 error_msg)
           else
             tmp_file_path ← HostIO.stage host content;
             uploaded ←
               try_finally
                 (f ← HostIO.open_rb host tmp_file_path;
                  MistralService.upload_file service f (UploadFile.filename file))
                 (present ← HostIO.exists_ tmp_file_path;
                  if (present : bool) then HostIO.unlink tmp_file_path else mret tt);
             lift (upload_response uploaded content))
          (λ e, if is_HTTPException e then raise e
                else raise (wrap 500 "failed to upload file: " e))
  end.

Definition list_documents : M FileListResponse.t :=
  match mistral_service with
  | None => raise not_initialized
  | Some service =>
      try_except
        (files ← MistralService.list_files service;
         file_list ←
           match FileList.data files with
           | Some data => lift (list_loop data [])
           | None => mret []
           end;
         mret {| FileListResponse.files := file_list;
                 FileListResponse.total := Z.of_nat (length file_list) |})
        (λ e, raise (wrap 500 "failed to list files: " e))
  end.

Definition retrieve_document (file_id : string) : M FileRetrieveResponse.t :=
  match mistral_service with
  | None => raise not_initialized
  | Some service =>
      try_except
        (retrieved ← MistralService.retrieve_file service file_id;
         lift (retrieve_response retrieved))
        (λ e, raise (wrap 404 "file not found: " e))
  end.

Definition delete_document (file_id : string) : M DeleteFileResponse.t :=
  match mistral_service with
  | None => raise not_initialized
  | Some service =>
      try_except
        (response ← MistralService.delete_file service file_id;
         mret {| DeleteFileResponse.id := file_id;
                 DeleteFileResponse.deleted := true;
                 DeleteFileResponse.message :=
                   "file " +:+ file_id +:+ " deleted successfully" |})
        (λ e, raise (wrap 500 "failed to delete file: " e))
  end.

Definition get_signed_url (file_id : string) (expiry_hours : option Z)
  : M SignedUrlResponse.t :=
  match mistral_service with
  | None => raise not_initialized
  | Some service =>
      try_except
        (signed_url ← MistralService.get_signed_url service file_id expiry_hours;
         mret {| SignedUrlResponse.url := SignedUrl.url signed_url |})
        (λ e, raise (wrap 500 "failed to get signed url: " e))
  end.

Definition query_ocr (request : OCRQueryRequest.t) : M OCRProcessResponse.t :=
  match mistral_service with
  | None => raise not_initialized
  | Some service =>
      try_except
        (signed_url ←
           MistralService.get_signed_url service (OCRQueryRequest.file_id request) None;
         ocr_response ←
           MistralService.process_ocr service (SignedUrl.url signed_url)
             (OCRQueryRequest.include_image_base64 request);
         mret {| OCRProcessResponse.pages :=
                   ocr_loop (OcrResponse.pages ocr_response) [] |})
        (λ e, raise (wrap 500 "failed to process ocr: " e))
  end.

Definition query_document (request : DocumentQARequest.t) : M DocumentQAResponse.t :=
  match mistral_service with
  | None => raise not_initialized
  | Some service =>
      try_except
        (chat_response ←
           MistralService.query_document service
             (DocumentQARequest.file_id request)
             (DocumentQARequest.question request)
             (DocumentQARequest.model request)
             (DocumentQARequest.conversation_history request);
         answer ← lift (first_answer chat_response);
         usage ← lift (usage_dict chat_response);
         mret {| DocumentQAResponse.answer := answer;
                 DocumentQAResponse.model := ChatResponse.model chat_response;
                 DocumentQAResponse.usage := usage;
                 DocumentQAResponse.file_id := DocumentQARequest.file_id request;
                 DocumentQAResponse.question := DocumentQARequest.question request |})
        (λ e, raise (wrap 500 "failed to query document: " e))
  end.

Definition query_document_conversation (request : DocumentConversationRequest.t)
  : M DocumentConversationResponse.t :=
  match mistral_service with
  | None => raise not_initialized
  | Some service =>
      try_except
        ('(conversation_history, last_user_message) ←
           lift (derive_conversation (DocumentConversationRequest.messages request));
         chat_response ←
           MistralService.query_document service
             (DocumentConversationRequest.file_id request)
             last_user_message
             (DocumentConversationRequest.model request)
             (if opt_list_truthy (Some conversation_history)
              then Some conversation_history else None);
         answer ← lift (first_answer chat_response);
         usage ← lift (usage_dict chat_response);
         mret {| DocumentConversationResponse.answer := answer;
                 DocumentConversationResponse.model := ChatResponse.model chat_response;
                 DocumentConversationResponse.usage := usage;
                 DocumentConversationResponse.file_id :=
                   DocumentConversationRequest.file_id request;
                 DocumentConversationResponse.conversation_length :=
                   Z.of_nat (length (DocumentConversationRequest.messages request)) |})
        (λ e, if is_HTTPException e then raise e
              else raise (wrap 500 "failed to query document: " e))
  end.

Definition query_document_stream (request : DocumentQARequest.t)
  : M StreamingResponse.t :=
  match mistral_service with
  | None => raise not_initialized
  | Some service =>
      try_except
        (stream ←
           MistralService.query_document_streaming service
             (DocumentQARequest.file_id request)
             (DocumentQARequest.question request)
             (DocumentQARequest.model request)
             (DocumentQARequest.conversation_history request);
         mret (generate stream))
        (λ e, raise (wrap 500 "failed to stream query: " e))
  end.

Definition query_document_conversation_stream
    (request : DocumentConversationRequest.t) : M StreamingResponse.t :=
  match mistral_service with
  | None => raise not_initialized
  | Some service =>
      try_except
        ('(conversation_history, last_user_message) ←
           lift (derive_conversation (DocumentConversationRequest.messages request));
         stream ←
           MistralService.query_document_streaming service
             (DocumentConversationRequest.file_id request)
             last_user_message
             (DocumentConversationRequest.model request)
             (Some conversation_history);
         mret (generate stream))
        (λ e, raise (wrap 500 "failed to stream query: " e))
  end.

Definition health_check : M PyVal :=
  mret (VDict [
    ("status", VStr "healthy");
    ("mistral_service_initialized",
     VBool (match mistral_service with Some _ => true | None => false end))
  ]).

(** The routing table. *)
Definition handle (req : Request) : M Response :=
  match req with
  | GetRoot => RJson <$> root
  | PostDocumentsUpload file => RFileUpload <$> upload_document file
  | GetDocuments => RFileList <$> list_documents
  | GetDocument file_id => RFileRetrieve <$> retrieve_document file_id
  | DeleteDocument file_id => RDeleteFile <$> delete_document file_id
  | GetSignedUrl file_id expiry_hours =>
      RSignedUrl <$> get_signed_url file_id expiry_hours
  | PostOcrQuery request => ROCRProcess <$> query_ocr request
  | PostQaQuery request => RDocumentQA <$> query_document request
  | PostQaConversation request =>
      RDocumentConversation <$> query_document_conversation request
  | PostQaStream request => RStreaming <$> query_document_stream request
  | PostQaConversationStream request =>
      RStreaming <$> query_document_conversation_stream request
  | GetHealth => RJson <$> health_check
  end.

(** The process serving a sequence of calls: each outcome, in order. *)
Fixpoint serve (reqs : list Request) (w : World)
  : list (Res Response) * World :=
  match reqs with
  | [] => ([], w)
  | req :: rest =>
      let '(r, w1) := handle req w in
      let '(rs, w2) := serve rest w1 in
      (r :: rs, w2)
  end.

End Handlers.

End Main.

(** * Vocabulary of the specification *)

(** A name ends in the PDF extension, compared without regard to case: its
    last four characters are a dot and the letters p, d, f, each in either
    case. *)
Definition is_pdf_extension (ext : string) : Prop :=
  ∃ p d f : ascii,
    ext = String "." (String p (String d (String f EmptyString)))
    ∧ (p = "p"%char ∨ p = "P"%char)
    ∧ (d = "d"%char ∨ d = "D"%char)
    ∧ (f = "f"%char ∨ f = "F"%char).

Definition ends_with_pdf_extension (name : string) : Prop :=
  ∃ stem ext : string, name = stem +:+ ext ∧ is_pdf_extension ext.

(** The filename is missing: there is none, or it is the empty string. *)
Definition filename_missing (file : UploadFile.t) : Prop :=
  UploadFile.filename file = None ∨ UploadFile.filename file = Some "".

(** The expiry argument of the operation that [get_signed_url] invokes. *)
Definition forwarded_expiry (expiry_hours : option Z) : option Z :=
  match expiry_hours with
  | Some 0 | None => None
  | Some n => Some n
  end.

(** The source page provided a non-empty image value. *)
Definition has_image (page : Page.t) : Prop :=
  ∃ image, Page.image_base64 page = Some image ∧ image ≠ "".

(** The non-empty text an increment of the stream carries, if any: the
    content of the delta of its first choice. *)
Definition increment_text (chunk : Chunk.t) : option PyText.t :=
  match Chunk.choices (Chunk.data chunk) with
  | [] => None
  | choice0 :: _ =>
      match Chunk.content (Chunk.delta choice0) with
      | Some text => if PyText.truthy text then Some text else None
      | None => None
      end
  end.

(** An increment that carries the text [text] in a single choice. *)
Definition text_increment (text : PyText.t) : Chunk.t :=
  {| Chunk.data :=
       {| Chunk.choices :=
            [ {| Chunk.delta := {| Chunk.content := Some text |} |} ] |} |}.

(** The two kinds of frame the relay sends. *)
Definition content_event (text : PyText.t) : string :=
  Main.sse (VDict [("content", VText text)]).

Definition done_event : string :=
  Main.sse (VDict [("done", VBool true)]).

(** The quotation mark and the line feed, as strings. *)
Definition quote_mark : string := String (ascii_of_N 34) "".

Definition line_feed : string := String (ascii_of_N 10) "".

(** The completion frame as the specification gives it, character for
    character: the line [data: {"done": true}] and an empty line. *)
Definition completion_frame : string :=
  "data: {" +:+ quote_mark +:+ "done" +:+ quote_mark +:+ ": true}"
  +:+ line_feed +:+ line_feed.

(** ** The client's side of the stream

    What a client of the stream does with the characters it receives is
    written here from the formats themselves (server-sent events, JSON and
    UTF-16), not from the code that produces them. *)

(** UTF-16.  A JSON string denotes a sequence of 16-bit code units; a code
    point from 0x10000 on is the pair of a high and a low surrogate. *)
Module Utf16.

Definition units_of_point (n : N) : list N :=
  if (n <? 65536)%N then [n]
  else [(55296 + (n - 65536) / 1024)%N; (56320 + (n - 65536) mod 1024)%N].

Fixpoint encode (text : PyText.t) : list N :=
  match text with
  | [] => []
  | n :: text' => (units_of_point n ++ encode text')%list
  end.

Definition is_high (u : N) : bool := ((55296 <=? u) && (u <? 56320))%N.

Definition is_low (u : N) : bool := ((56320 <=? u) && (u <? 57344))%N.

(** Code units back to code points: a high surrogate followed by a low one
    is one code point, any other unit stands for itself. *)
Fixpoint decode (units : list N) : PyText.t :=
  match units with
  | [] => []
  | u1 :: rest =>
      match rest with
      | u2 :: rest' =>
          if is_high u1 && is_low u2
          then (65536 + (u1 - 55296) * 1024 + (u2 - 56320))%N :: decode rest'
          else u1 :: decode rest
      | [] => [u1]
      end
  end.

(** A text of Unicode scalar values: no code point is a surrogate. *)
Definition scalar (text : PyText.t) : bool :=
  forallb (λ n, ((n <? 55296) || ((57344 <=? n) && (n <? 1114112)))%N) text.

End Utf16.

(** Reading JSON text (RFC 8259) that is written in ASCII. *)
Module JsonText.

Definition hex_value (c : ascii) : option N :=
  let n := N_of_ascii c in
  if ((48 <=? n) && (n <=? 57))%N then Some (n - 48)%N
  else if ((97 <=? n) && (n <=? 102))%N then Some (n - 87)%N
  else if ((65 <=? n) && (n <=? 70))%N then Some (n - 55)%N
  else None.

(** The character after a backslash, other than [u]. *)
Definition escaped (c : ascii) : option N :=
  let n := N_of_ascii c in
  if (n =? 34)%N then Some 34%N
  else if (n =? 92)%N then Some 92%N
  else if (n =? 47)%N then Some 47%N
  else if (n =? 98)%N then Some 8%N
  else if (n =? 102)%N then Some 12%N
  else if (n =? 110)%N then Some 10%N
  else if (n =? 114)%N then Some 13%N
  else if (n =? 116)%N then Some 9%N
  else None.

Definition more (us : list N) (r : option (list N * string))
  : option (list N * string) :=
  match r with
  | Some (units, rest) => Some ((us ++ units)%list, rest)
  | None => None
  end.

(** The characters of a string after its opening quote: the code units up
    to the closing quote, and what follows it.  The string ends at the first
    quote that is not escaped; a character below U+0020 or outside ASCII is
    refused, and so is an escape that JSON does not have. *)
Fixpoint chars (s : string) : option (list N * string) :=
  match s with
  | EmptyString => None
  | String c rest =>
      let n := N_of_ascii c in
      if (n =? 34)%N then Some ([], rest)
      else if (n =? 92)%N then
        match rest with
        | EmptyString => None
        | String e rest1 =>
            if (N_of_ascii e =? 117)%N then
              match rest1 with
              | String h1 (String h2 (String h3 (String h4 rest2))) =>
                  match hex_value h1, hex_value h2, hex_value h3, hex_value h4 with
                  | Some a, Some b, Some c, Some d =>
                      more [(4096 * a + 256 * b + 16 * c + d)%N] (chars rest2)
                  | _, _, _, _ => None
                  end
              | _ => None
              end
            else
              match escaped e with
              | Some u => more [u] (chars rest1)
              | None => None
              end
        end
      else if ((n <? 32) || (127 <? n))%N then None
      else more [n] (chars rest)
  end.

Definition is_ws (c : ascii) : bool :=
  let n := N_of_ascii c in
  ((n =? 32) || (n =? 9) || (n =? 10) || (n =? 13))%N.

Fixpoint skip_ws (s : string) : string :=
  match s with
  | EmptyString => EmptyString
  | String c rest => if is_ws c then skip_ws rest else s
  end.

Definition expect (n : N) (s : string) : option string :=
  match s with
  | EmptyString => None
  | String c rest => if (N_of_ascii c =? n)%N then Some rest else None
  end.

(** The values of the members of an event: a string or [true]. *)
Inductive Value :=
| JString (units : list N)
| JTrue.

Definition value (s : string) : option (Value * string) :=
  match s with
  | String c rest =>
      if (N_of_ascii c =? 34)%N
      then match chars rest with
           | Some (units, r) => Some (JString units, r)
           | None => None
           end
      else match s with
           | String "t" (String "r" (String "u" (String "e" r))) => Some (JTrue, r)
           | _ => None
           end
  | EmptyString => None
  end.

(** An object with a single member, and nothing after it: the name of the
    member and its value. *)
Definition member (s : string) : option (list N * Value) :=
  r ← expect 123 (skip_ws s);
  r ← expect 34 (skip_ws r);
  '(key, r) ← chars r;
  r ← expect 58 (skip_ws r);
  '(v, r) ← value (skip_ws r);
  r ← expect 125 (skip_ws r);
  match skip_ws r with
  | EmptyString => Some (key, v)
  | String _ _ => None
  end.

End JsonText.

(** The events of the relay as a client reads them: a content event with
    the code units of its text, or the completion event. *)
Inductive Event :=
| Content (units : list N)
| Done.

Definition read_payload (payload : string) : option Event :=
  match JsonText.member payload with
  | Some (key, JsonText.JString units) =>
      if decide (key = PyText.of_str "content") then Some (Content units) else None
  | Some (key, JsonText.JTrue) =>
      if decide (key = PyText.of_str "done") then Some Done else None
  | None => None
  end.

(** Server-sent events: the stream is cut into lines at LF, CR and CRLF;
    a line [data: value] adds [value] to the data of the event under way,
    any other field and a comment line are passed over, and an empty line
    dispatches the event, unless it has no data.  What follows the last
    empty line is dropped. *)
Module Sse.

Definition is_lf (c : ascii) : bool := (N_of_ascii c =? 10)%N.

Definition is_cr (c : ascii) : bool := (N_of_ascii c =? 13)%N.

Fixpoint field_name (line : string) : string :=
  match line with
  | EmptyString => EmptyString
  | String c rest =>
      if (N_of_ascii c =? 58)%N then EmptyString else String c (field_name rest)
  end.

Fixpoint field_value (line : string) : string :=
  match line with
  | EmptyString => EmptyString
  | String c rest =>
      if (N_of_ascii c =? 58)%N
      then match rest with
           | String sp rest' => if (N_of_ascii sp =? 32)%N then rest' else rest
           | EmptyString => EmptyString
           end
      else field_value rest
  end.

Definition add_line (line : string) (data : list string) : list string :=
  if String.eqb (field_name line) "data"
  then (data ++ [field_value line])%list
  else data.

Fixpoint join_lines (data : list string) : string :=
  match data with
  | [] => EmptyString
  | [l] => l
  | l :: rest => l +:+ String (ascii_of_N 10) (join_lines rest)
  end.

Definition dispatch (data : list string) : list string :=
  match data with
  | [] => []
  | _ :: _ => [join_lines data]
  end.

(** [line] is the line under way, [data] the data lines of the event under
    way, and [after_cr] tells that the last character was a CR. *)
Fixpoint events_from (s line : string) (data : list string) (after_cr : bool)
  : list string :=
  match s with
  | EmptyString => []
  | String c rest =>
      if is_lf c && after_cr then events_from rest line data false
      else if is_lf c || is_cr c then
        match line with
        | EmptyString => (dispatch data ++ events_from rest "" [] (is_cr c))%list
        | String _ _ => events_from rest "" (add_line line data) (is_cr c)
        end
      else events_from rest (line +:+ String c "") data false
  end.

(** The data of the events of a stream, in order. *)
Definition events (s : string) : list string := events_from s "" [] false.

End Sse.

(** The frames of a response as they follow each other on the wire. *)
Fixpoint wire (frames : list string) : string :=
  match frames with
  | [] => EmptyString
  | frame :: rest => frame +:+ wire rest
  end.

(** A frame that holds exactly one event, read. *)
Definition read_frame (frame : string) : option Event :=
  match Sse.events frame with
  | [payload] => read_payload payload
  | _ => None
  end.




(** The user turn the adapter appends: the question and the document. *)
Definition question_turn (question url : string) : PyVal :=
  VDict [
    ("role", VStr "user");
    ("content", VList [
       VDict [("type", VStr "text"); ("text", VStr question)];
       VDict [("type", VStr "document_url"); ("document_url", VStr url)]
     ])
  ].

(** The calls that are answered without the provider. *)
Definition needs_provider (req : Main.Request) : bool :=
  match req with
  | Main.GetRoot | Main.GetHealth => false
  | _ => true
  end.

(** What a call yields while the service is not initialised. *)
Definition uninitialized_outcome (req : Main.Request) : Res Main.Response :=
  match req with
  | Main.GetRoot =>
      Ok (Main.RJson (VDict [
        ("message", VStr "mistral ocr and q&a rag engine api");
        ("version", VStr "1.0.0");
        ("endpoints", VDict [
           ("documents", VDict [
              ("upload", VStr "/documents/upload");
              ("list", VStr "/documents/");
              ("retrieve", VStr "/documents/{file_id}");
              ("delete", VStr "/documents/{file_id}");
              ("signed_url", VStr "/documents/{file_id}/signed-url")
            ]);
           ("ocr", VDict [("process", VStr "/ocr/query")]);
           ("qa", VDict [
              ("query", VStr "/qa/query");
              ("conversation", VStr "/qa/conversation");
              ("stream", VStr "/qa/stream")
            ])
         ])
      ]))
  | Main.GetHealth =>
      Ok (Main.RJson (VDict [
        ("status", VStr "healthy");
        ("mistral_service_initialized", VBool false)
      ]))
  | _ => Raise (HTTPException 500 "mistral service not initialized")
  end.

(** A provider, a rendering of exceptions, a host and a world for the
    examples: the provider answers every operation with plain values, except
    the upload, which it refuses. *)
Definition sample_file : FileObj.t := {|
  FileObj.id := Some "file-0123456789";
  FileObj.object := Some "file";
  FileObj.bytes := Some 4;
  FileObj.created_at := Some 1234567890;
  FileObj.filename := Some "report.pdf";
  FileObj.purpose := Some "ocr";
  FileObj.sample_type := Some "ocr_input";
  FileObj.num_lines := Some 0;
  FileObj.mimetype := Some "application/pdf";
  FileObj.source := Some "upload";
  FileObj.signature := Some "abc123";
  FileObj.deleted := None;
|}.

Definition sample_client : Mistral.t := {|
  Mistral.files_upload := λ _ _ _ _, Raise (SDKError "upload refused");
  Mistral.files_retrieve := λ _ _, Ok sample_file;
  Mistral.files_get_signed_url := λ _ _ _, Ok {| SignedUrl.url := "https://example.com/doc.pdf" |};
  Mistral.files_list := λ _, Ok {| FileList.data := Some [sample_file] |};
  Mistral.files_delete := λ _ _, Ok tt;
  Mistral.ocr_process := λ _ _ _ _, Ok {| OcrResponse.pages := [] |};
  Mistral.chat_complete := λ _ _ _,
    Ok {| ChatResponse.choices :=
            [ {| ChatResponse.message_of := {| ChatResponse.content := "an answer" |} |} ];
          ChatResponse.model := "mistral-small-latest";
          ChatResponse.usage := None |};
  Mistral.chat_stream := λ _ _ _,
    Ok {| Stream.chunks :=
            List.map text_increment [PyText.of_str "Hi"; []; PyText.of_str " there"];
          Stream.failure := None |};
|}.

Definition sample_service : MistralService.t :=
  {| MistralService.api_key := "test_key"; MistralService.client := sample_client |}.

(** [str(e)] for the examples: an [HTTPException] shows its status code and
    its detail, the other exceptions their message. *)
Definition sample_str (e : exn) : string :=
  match e with
  | HTTPException status_code detail => pretty status_code +:+ ": " +:+ detail
  | AttributeError attr => "no attribute " +:+ attr
  | IndexError => "list index out of range"
  | ValueError msg | OSError msg | SDKError msg => msg
  end.

Definition sample_host : Host.t := {|
  Host.read_error := None;
  Host.tmp_path := "/tmp/tmpab12cd34.pdf";
  Host.create_error := None;
  Host.write_error := None;
  Host.open_error := None;
|}.

Definition empty_world : World := {| calls := []; fs := ∅ |}.

Definition sample_upload : UploadFile.t :=
  {| UploadFile.filename := Some "report.pdf";
     UploadFile.body := [x25; x50; x44; x46] |}.

Definition message (role content : string) : ConversationMessage.t :=
  {| ConversationMessage.role := role; ConversationMessage.content := content |}.

Definition conversation (messages : list ConversationMessage.t)
  : DocumentConversationRequest.t :=
  {| DocumentConversationRequest.file_id := "file-0123456789";
     DocumentConversationRequest.messages := messages;
     DocumentConversationRequest.model := "mistral-small-latest" |}.

(** A string of printable ASCII characters only (space to tilde). *)
Fixpoint printable (s : string) : bool :=
  match s with
  | EmptyString => true
  | String c s' =>
      ((32 <=? N_of_ascii c) && (N_of_ascii c <=? 126))%N && printable s'
  end.


(** [m] only appends to the record of provider operations, by at most [n]
    operations. *)
Definition invokes_at_most {A} (n : nat) (m : M A) : Prop :=
  ∀ w, ∃ cs, calls (m w).2 = (calls w ++ cs)%list ∧ (length cs ≤ n)%nat.

(** [m] leaves the files of the host as they are. *)
Definition keeps_files {A} (m : M A) : Prop :=
  ∀ w, fs (m w).2 = fs w.

(** The provider operations a route may invoke. *)
Definition provider_budget (req : Main.Request) : nat :=
  match req with
  | Main.GetRoot | Main.GetHealth => 0
  | Main.PostDocumentsUpload _ | Main.GetDocuments | Main.GetDocument _
  | Main.DeleteDocument _ | Main.GetSignedUrl _ _ => 1
  | Main.PostOcrQuery _ | Main.PostQaQuery _ | Main.PostQaConversation _
  | Main.PostQaStream _ | Main.PostQaConversationStream _ => 2
  end.

Definition is_upload (req : Main.Request) : bool :=
  match req with
  | Main.PostDocumentsUpload _ => true
  | _ => false
  end.


(** More providers and hosts for the examples. *)
Definition sample_page : Page.t :=
  {| Page.index := 0; Page.markdown := "# title"; Page.image_base64 := None |}.

Definition sample_answer : ChatResponse.t :=
  {| ChatResponse.choices :=
       [ {| ChatResponse.message_of := {| ChatResponse.content := "an answer" |} |} ];
     ChatResponse.model := "mistral-small-latest";
     ChatResponse.usage :=
       Some {| Usage.prompt_tokens := 100; Usage.completion_tokens := 50;
               Usage.total_tokens := 150 |} |}.

(** A provider that accepts every operation. *)
Definition accepting_client : Mistral.t := {|
  Mistral.files_upload := λ _ _ _ _, Ok sample_file;
  Mistral.files_retrieve := λ _ _, Ok sample_file;
  Mistral.files_get_signed_url := λ _ _ _, Ok {| SignedUrl.url := "https://example.com/doc.pdf" |};
  Mistral.files_list := λ _, Ok {| FileList.data := Some [sample_file; sample_file] |};
  Mistral.files_delete := λ _ _, Ok tt;
  Mistral.ocr_process := λ _ _ _ _, Ok {| OcrResponse.pages := [sample_page] |};
  Mistral.chat_complete := λ _ _ _, Ok sample_answer;
  Mistral.chat_stream := λ _ _ _,
    Ok {| Stream.chunks :=
            List.map text_increment [PyText.of_str "Hi"; []; PyText.of_str " there"];
          Stream.failure := None |};
|}.

Definition accepting_service : MistralService.t :=
  {| MistralService.api_key := "test_key"; MistralService.client := accepting_client |}.

(** A provider that cannot be reached: every operation fails. *)
Definition unreachable_client : Mistral.t := {|
  Mistral.files_upload := λ _ _ _ _, Raise (SDKError "connection refused");
  Mistral.files_retrieve := λ _ _, Raise (SDKError "connection refused");
  Mistral.files_get_signed_url := λ _ _ _, Raise (SDKError "connection refused");
  Mistral.files_list := λ _, Raise (SDKError "connection refused");
  Mistral.files_delete := λ _ _, Raise (SDKError "connection refused");
  Mistral.ocr_process := λ _ _ _ _, Raise (SDKError "connection refused");
  Mistral.chat_complete := λ _ _ _, Raise (SDKError "connection refused");
  Mistral.chat_stream := λ _ _ _, Raise (SDKError "connection refused");
|}.

Definition unreachable_service : MistralService.t :=
  {| MistralService.api_key := "test_key"; MistralService.client := unreachable_client |}.

Definition full_disk_host : Host.t := {|
  Host.read_error := None;
  Host.tmp_path := "/tmp/tmpab12cd34.pdf";
  Host.create_error := None;
  Host.write_error := Some (OSError "[Errno 28] No space left on device");
  Host.open_error := None;
|}.


(** Case analysis on the 256 characters. *)
Ltac by_cases_on_char c :=
  destruct c as [[] [] [] [] [] [] [] []]; vm_compute; intros; try discriminate; auto.

(** * Properties *)

(** ** Strings *)

Lemma app_String (c : ascii) (a b : string) :
  String c a +:+ b = String c (a +:+ b).
Proof. reflexivity. Qed.

Lemma app_empty (b : string) : EmptyString +:+ b = b.
Proof. reflexivity. Qed.

Lemma substring_all (s : string) : substring 0 (String.length s) s = s.
Proof. induction s as [|c s IH]; simpl; [done | by rewrite IH]. Qed.

Lemma substring_skip (pre s : string) (m : nat) :
  substring (String.length pre) m (pre +:+ s) = substring 0 m s.
Proof.
  induction pre as [|c pre IH]; [done |].
  rewrite app_String. simpl. apply IH.
Qed.

Lemma substring_split (s : string) (k : nat) :
  (k ≤ String.length s)%nat →
  s = substring 0 k s +:+ substring k (String.length s - k) s.
Proof.
  revert k. induction s as [|c s IH]; intros k Hk; simpl in *.
  - by destruct k.
  - destruct k as [|k]; simpl.
    + by rewrite app_empty, substring_all.
    + rewrite app_String. f_equal. apply IH. lia.
Qed.

Lemma length_substring_prefix (s : string) (k : nat) :
  (k ≤ String.length s)%nat → String.length (substring 0 k s) = k.
Proof.
  revert k. induction s as [|c s IH]; intros k Hk; simpl in *.
  - destruct k; [done | lia].
  - destruct k as [|k]; simpl; [done |]. f_equal. apply IH. lia.
Qed.

Lemma string_length_app (a b : string) :
  String.length (a +:+ b) = (String.length a + String.length b)%nat.
Proof.
  induction a as [|c a IH]; [done |].
  rewrite app_String. simpl. by rewrite IH.
Qed.

Lemma string_app_assoc (a b c : string) : (a +:+ b) +:+ c = a +:+ (b +:+ c).
Proof.
  induction a as [|x a IH]; [done |].
  by rewrite !app_String, IH.
Qed.

(** [endswith] holds exactly when the string is some prefix followed by the
    suffix. *)
Lemma endswith_spec (s suffix : string) :
  PyStr.endswith s suffix = true ↔ ∃ pre, s = pre +:+ suffix.
Proof.
  unfold PyStr.endswith, PyStr.len. split.
  - intros H. apply andb_prop in H as [Hle Heq].
    apply Nat.leb_le in Hle. apply String.eqb_eq in Heq.
    exists (substring 0 (String.length s - String.length suffix) s).
    pose proof (substring_split s (String.length s - String.length suffix)) as Hs.
    replace (String.length s - (String.length s - String.length suffix))%nat
      with (String.length suffix) in Hs by lia.
    rewrite Heq in Hs. apply Hs. lia.
  - intros [pre ->]. rewrite string_length_app.
    apply andb_true_intro. split; [apply Nat.leb_le; lia |].
    replace (String.length pre + String.length suffix - String.length suffix)%nat
      with (String.length pre) by lia.
    rewrite substring_skip, substring_all. apply String.eqb_refl.
Qed.

Lemma lower_app (a b : string) :
  PyStr.lower (a +:+ b) = PyStr.lower a +:+ PyStr.lower b.
Proof.
  induction a as [|c a IH]; [done |].
  rewrite app_String. simpl. by rewrite IH, app_String.
Qed.

(** A split of the lowered string comes from a split of the string. *)
Lemma lower_split (s a b : string) :
  PyStr.lower s = a +:+ b →
  ∃ s1 s2, s = s1 +:+ s2 ∧ PyStr.lower s1 = a ∧ PyStr.lower s2 = b.
Proof.
  revert s. induction a as [|c a IH]; intros s H.
  - by exists EmptyString, s.
  - rewrite app_String in H.
    destruct s as [|c' s]; simpl in H; [discriminate |].
    injection H as Hc Hs. destruct (IH _ Hs) as (s1 & s2 & -> & H1 & H2).
    exists (String c' s1), s2. simpl. by rewrite Hc, H1.
Qed.

Lemma lower_char_dot (c : ascii) : PyStr.lower_char c = "."%char → c = "."%char.
Proof. by_cases_on_char c. Qed.

Lemma lower_char_p (c : ascii) :
  PyStr.lower_char c = "p"%char → c = "p"%char ∨ c = "P"%char.
Proof. by_cases_on_char c. Qed.

Lemma lower_char_d (c : ascii) :
  PyStr.lower_char c = "d"%char → c = "d"%char ∨ c = "D"%char.
Proof. by_cases_on_char c. Qed.

Lemma lower_char_f (c : ascii) :
  PyStr.lower_char c = "f"%char → c = "f"%char ∨ c = "F"%char.
Proof. by_cases_on_char c. Qed.

Lemma lower_pdf_extension (ext : string) :
  PyStr.lower ext = ".pdf" ↔ is_pdf_extension ext.
Proof.
  split.
  - destruct ext as [|c0 [|c1 [|c2 [|c3 [|c4 ext]]]]]; simpl; try discriminate.
    intros H. injection H as H0 H1 H2 H3.
    apply lower_char_dot in H0 as ->.
    exists c1, c2, c3. split; [done |].
    auto using lower_char_p, lower_char_d, lower_char_f.
  - intros (p & d & f & -> & Hp & Hd & Hf).
    destruct Hp as [-> | ->], Hd as [-> | ->], Hf as [-> | ->]; reflexivity.
Qed.

(** The test of [validate_pdf] is the specification's notion of ending in
    the PDF extension. *)
Lemma endswith_lower_pdf (name : string) :
  PyStr.endswith (PyStr.lower name) ".pdf" = true ↔ ends_with_pdf_extension name.
Proof.
  rewrite endswith_spec. split.
  - intros [pre H]. apply lower_split in H as (stem & ext & -> & _ & Hext).
    exists stem, ext. split; [done |]. by apply lower_pdf_extension.
  - intros (stem & ext & -> & Hext). apply lower_pdf_extension in Hext.
    exists (PyStr.lower stem). by rewrite lower_app, Hext.
Qed.

(** ** Input validator *)

(** C7.  Extension validation.  A missing filename (none, or the empty
    string) is rejected as MissingFilename, whatever else holds; a filename
    that is present and does not end in the PDF extension, compared without
    regard to case, is rejected as UnsupportedType; a filename that ends in
    it passes the check. *)
Theorem validate_pdf_extension_check (file : UploadFile.t) (max_size_mb : Z) :
  (filename_missing file →
   FileValidator.validate_pdf file max_size_mb = rejected MissingFilename)
  ∧ (∀ name, UploadFile.filename file = Some name → name ≠ "" →
       ¬ ends_with_pdf_extension name →
       FileValidator.validate_pdf file max_size_mb = rejected UnsupportedType)
  ∧ (∀ name, UploadFile.filename file = Some name →
       ends_with_pdf_extension name →
       FileValidator.validate_pdf file max_size_mb = accepted).
Proof.
  unfold FileValidator.validate_pdf. repeat split.
  - intros [-> | ->]; reflexivity.
  - intros name -> Hne Hext.
    destruct name as [|c name]; [done |]. cbn [PyStr.truthy negb].
    destruct (PyStr.endswith _ _) eqn:E; [|reflexivity].
    exfalso. apply Hext. by apply endswith_lower_pdf.
  - intros name -> Hext.
    assert (PyStr.endswith (PyStr.lower name) ".pdf" = true) as E
      by by apply endswith_lower_pdf.
    destruct name as [|c name]; [discriminate E |].
    cbn [PyStr.truthy negb]. by rewrite E.
Qed.

Lemma validate_pdf_extension_check_witness :
  FileValidator.validate_pdf
    {| UploadFile.filename := None; UploadFile.body := [] |} 50
  = rejected MissingFilename
  ∧ FileValidator.validate_pdf
      {| UploadFile.filename := Some "notes.txt"; UploadFile.body := [] |} 50
    = rejected UnsupportedType
  ∧ FileValidator.validate_pdf
      {| UploadFile.filename := Some "Report.PdF"; UploadFile.body := [] |} 50
    = accepted.
Proof.
  split; [|split].
  - apply (validate_pdf_extension_check
             {| UploadFile.filename := None; UploadFile.body := [] |} 50).
    left. reflexivity.
  - apply (proj1 (proj2 (validate_pdf_extension_check
             {| UploadFile.filename := Some "notes.txt"; UploadFile.body := [] |} 50))
             "notes.txt").
    + reflexivity.
    + discriminate.
    + rewrite <- endswith_lower_pdf. vm_compute. discriminate.
  - apply (proj2 (proj2 (validate_pdf_extension_check
             {| UploadFile.filename := Some "Report.PdF"; UploadFile.body := [] |} 50))
             "Report.PdF").
    + reflexivity.
    + apply endswith_lower_pdf. reflexivity.
Defined.

(** The empty filename is the one name without the extension that is not
    reported as UnsupportedType: the presence test comes first. *)
Example validate_pdf_empty_name :
  FileValidator.validate_pdf
    {| UploadFile.filename := Some ""; UploadFile.body := [] |} 50
  = rejected MissingFilename.
Proof. reflexivity. Qed.

(** C6.  File-size boundaries, for a positive ceiling of [max_size_mb]
    megabytes: content of length 0 is rejected as EmptyFile, content of
    exactly [max_size_mb * 1048576] bytes passes, and content one byte
    longer is rejected as FileTooLarge. *)
Theorem validate_file_size_boundaries (max_size_mb : Z) :
  0 < max_size_mb →
  (∀ content, bytes_len content = 0 →
     FileValidator.validate_file_size content max_size_mb = rejected EmptyFile)
  ∧ (∀ content, bytes_len content = max_size_mb * 1048576 →
       FileValidator.validate_file_size content max_size_mb = accepted)
  ∧ (∀ content, bytes_len content = max_size_mb * 1048576 + 1 →
       FileValidator.validate_file_size content max_size_mb
       = rejected (FileTooLarge max_size_mb)).
Proof.
  intros Hpos. unfold FileValidator.validate_file_size. repeat split.
  - intros content ->.
    destruct (0 >? _) eqn:E; [apply Z.gtb_lt in E; lia | reflexivity].
  - intros content ->.
    destruct (_ >? _) eqn:E; [apply Z.gtb_lt in E; lia |].
    destruct (_ =? 0) eqn:E0; [apply Z.eqb_eq in E0; lia | reflexivity].
  - intros content ->.
    destruct (_ >? _) eqn:E; [reflexivity |].
    assert (¬ (max_size_mb * 1024 * 1024 < max_size_mb * 1048576 + 1)) as H
      by (rewrite <- Z.gtb_lt, E; discriminate).
    lia.
Qed.

Lemma bytes_len_repeat (b : byte) (n : Z) :
  0 ≤ n → bytes_len (repeat b (Z.to_nat n)) = n.
Proof. intros Hn. unfold bytes_len. rewrite repeat_length. lia. Qed.

Lemma validate_file_size_boundaries_witness :
  FileValidator.validate_file_size [] 50 = rejected EmptyFile
  ∧ FileValidator.validate_file_size (repeat x00 (Z.to_nat (50 * 1048576))) 50
    = accepted
  ∧ FileValidator.validate_file_size (repeat x00 (Z.to_nat (50 * 1048576 + 1))) 50
    = rejected (FileTooLarge 50).
Proof.
  assert (0 < 50) as Hpos by lia.
  destruct (validate_file_size_boundaries 50 Hpos) as (Hempty & Hceil & Hover).
  split; [|split].
  - apply Hempty. reflexivity.
  - apply Hceil. apply bytes_len_repeat. lia.
  - apply Hover. apply bytes_len_repeat. lia.
Defined.

(** Outside the positive ceilings the three boundary points are no longer
    distinct, and the size test, which comes first, decides. *)
Example validate_file_size_zero_ceiling :
  FileValidator.validate_file_size [] 0 = rejected EmptyFile.
Proof. reflexivity. Qed.

Example validate_file_size_negative_ceiling :
  FileValidator.validate_file_size [] (-1) = rejected (FileTooLarge (-1)).
Proof. reflexivity. Qed.

(** ** Provider client adapter *)

(** C10.  Signed-URL retrieval treats an expiry hint of 0 hours exactly as
    an absent hint: in both cases the provider operation is invoked without
    an expiry; a hint other than 0 is forwarded as given. *)
Theorem get_signed_url_zero_is_absent (self : MistralService.t) (file_id : string) :
  MistralService.get_signed_url self file_id (Some 0)
  = MistralService.get_signed_url self file_id None
  ∧ (∀ w,
       MistralService.get_signed_url self file_id None w
       = (Mistral.files_get_signed_url (MistralService.client self) (calls w) file_id None,
          {| calls := calls w ++ [FilesGetSignedUrl file_id None]; fs := fs w |}))
  ∧ (∀ n w, n ≠ 0 →
       MistralService.get_signed_url self file_id (Some n) w
       = (Mistral.files_get_signed_url (MistralService.client self) (calls w) file_id (Some n),
          {| calls := calls w ++ [FilesGetSignedUrl file_id (Some n)]; fs := fs w |})).
Proof.
  split; [reflexivity | split; [reflexivity |]].
  intros n w Hn. unfold MistralService.get_signed_url, opt_int_truthy.
  destruct (Z.eqb_spec n 0) as [-> | _]; [done | reflexivity].
Qed.

Lemma get_signed_url_calls (self : MistralService.t) (file_id : string)
    (expiry_hours : option Z) (w : World) :
  calls (snd (MistralService.get_signed_url self file_id expiry_hours w))
  = (calls w ++ [FilesGetSignedUrl file_id (forwarded_expiry expiry_hours)])%list.
Proof. destruct expiry_hours as [[| |]|]; reflexivity. Qed.

(** ** Running the adapter *)

Lemma query_document_run (service : MistralService.t)
    (file_id question model : string) (history : option (list PyVal))
    (signed_url : SignedUrl.t) (w : World) :
  Mistral.files_get_signed_url (MistralService.client service) (calls w) file_id None
  = Ok signed_url →
  MistralService.query_document service file_id question model history w
  = (Mistral.chat_complete (MistralService.client service)
       (calls w ++ [FilesGetSignedUrl file_id None]) model
       (MistralService.build_messages history question (SignedUrl.url signed_url)),
     {| calls := calls w ++ [
          FilesGetSignedUrl file_id None;
          ChatComplete model
            (MistralService.build_messages history question (SignedUrl.url signed_url))];
        fs := fs w |}).
Proof.
  intros Hurl.
  unfold MistralService.query_document, MistralService.get_signed_url, invoke, mbind, M_bind.
  cbn [opt_int_truthy]. cbv beta iota. rewrite Hurl. cbn [calls fs].
  rewrite <- app_assoc. reflexivity.
Qed.

Lemma build_messages_history (history : list PyVal) (question url : string) :
  MistralService.build_messages
    (if opt_list_truthy (Some history) then Some history else None) question url
  = (history ++ [question_turn question url])%list.
Proof. by destruct history. Qed.

(** The blocking Q&A handler on the answer of the provider. *)
Lemma query_document_outcome (service : MistralService.t)
    (str_of_exn : exn → string) (request : DocumentQARequest.t)
    (signed_url : SignedUrl.t) (chat_response : ChatResponse.t) (w : World) :
  Mistral.files_get_signed_url (MistralService.client service) (calls w)
    (DocumentQARequest.file_id request) None = Ok signed_url →
  Mistral.chat_complete (MistralService.client service)
    (calls w ++ [FilesGetSignedUrl (DocumentQARequest.file_id request) None])
    (DocumentQARequest.model request)
    (MistralService.build_messages (DocumentQARequest.conversation_history request)
       (DocumentQARequest.question request) (SignedUrl.url signed_url))
  = Ok chat_response →
  fst (Main.query_document (Some service) str_of_exn request w)
  = match Main.first_answer chat_response, Main.usage_dict chat_response with
    | Ok answer, Ok usage =>
        Ok {| DocumentQAResponse.answer := answer;
              DocumentQAResponse.model := ChatResponse.model chat_response;
              DocumentQAResponse.usage := usage;
              DocumentQAResponse.file_id := DocumentQARequest.file_id request;
              DocumentQAResponse.question := DocumentQARequest.question request |}
    | Raise e, _ | Ok _, Raise e =>
        Raise (HTTPException 500 ("failed to query document: " +:+ str_of_exn e))
    end.
Proof.
  intros Hurl Hchat.
  unfold Main.query_document, try_except.
  unfold mbind at 1, M_bind at 1.
  rewrite (query_document_run _ _ _ _ _ signed_url w Hurl), Hchat.
  unfold mbind, M_bind, lift, mret, M_ret.
  destruct (Main.first_answer chat_response); [|reflexivity].
  by destruct (Main.usage_dict chat_response).
Qed.

Lemma query_document_streaming_run (service : MistralService.t)
    (file_id question model : string) (history : option (list PyVal))
    (signed_url : SignedUrl.t) (w : World) :
  Mistral.files_get_signed_url (MistralService.client service) (calls w) file_id None
  = Ok signed_url →
  MistralService.query_document_streaming service file_id question model history w
  = (Mistral.chat_stream (MistralService.client service)
       (calls w ++ [FilesGetSignedUrl file_id None]) model
       (MistralService.build_messages history question (SignedUrl.url signed_url)),
     {| calls := calls w ++ [
          FilesGetSignedUrl file_id None;
          ChatStream model
            (MistralService.build_messages history question (SignedUrl.url signed_url))];
        fs := fs w |}).
Proof.
  intros Hurl.
  unfold MistralService.query_document_streaming, MistralService.get_signed_url,
    invoke, mbind, M_bind.
  cbn [opt_int_truthy]. cbv beta iota. rewrite Hurl. cbn [calls fs].
  rewrite <- app_assoc. reflexivity.
Qed.

(** The streaming handler answers with the relay of the stream the provider
    opened. *)
Lemma query_document_stream_relays (service : MistralService.t)
    (str_of_exn : exn → string) (request : DocumentQARequest.t)
    (signed_url : SignedUrl.t) (stream : Stream.t) (w : World) :
  Mistral.files_get_signed_url (MistralService.client service) (calls w)
    (DocumentQARequest.file_id request) None = Ok signed_url →
  Mistral.chat_stream (MistralService.client service)
    (calls w ++ [FilesGetSignedUrl (DocumentQARequest.file_id request) None])
    (DocumentQARequest.model request)
    (MistralService.build_messages (DocumentQARequest.conversation_history request)
       (DocumentQARequest.question request) (SignedUrl.url signed_url))
  = Ok stream →
  (Main.query_document_stream (Some service) str_of_exn request w).1
  = Ok (Main.generate stream).
Proof.
  intros Hurl Hstream.
  unfold Main.query_document_stream, try_except.
  unfold mbind at 1, M_bind at 1.
  by rewrite (query_document_streaming_run _ _ _ _ _ signed_url w Hurl), Hstream.
Qed.

(** ** Response mapper *)

Lemma format_ocr_pages_loop_map (pages : list Page.t) (acc : list PyVal) :
  ResponseFormatter.format_ocr_pages_loop pages acc
  = (acc ++ List.map ResponseFormatter.format_page pages)%list.
Proof.
  revert acc. induction pages as [|page pages IH]; intros acc; simpl.
  - by rewrite app_nil_r.
  - by rewrite IH, <- app_assoc.
Qed.

Lemma ocr_loop_map (source : list Page.t) (acc : list OCRPage.t) :
  Main.ocr_loop source acc = (acc ++ List.map Main.ocr_page source)%list.
Proof.
  revert acc. induction source as [|page source IH]; intros acc; simpl.
  - by rewrite app_nil_r.
  - by rewrite IH, <- app_assoc.
Qed.

(** What one formatted page holds. *)
Lemma format_page_entries (page : Page.t) :
  ∃ d, ResponseFormatter.format_page page = VDict d
       ∧ PyDict.get d "index" = Some (VInt (Page.index page))
       ∧ PyDict.get d "markdown" = Some (VStr (Page.markdown page))
       ∧ (PyDict.mem d "image_base64" = true ↔ has_image page)
       ∧ (∀ image, PyDict.get d "image_base64" = Some image →
            Page.image_base64 page = Some (getattr (Page.image_base64 page) "")
            ∧ image = VStr (getattr (Page.image_base64 page) "")).
Proof.
  unfold ResponseFormatter.format_page, has_image.
  destruct (Page.image_base64 page) as [[|c image]|]; simpl;
    eexists; (split; [reflexivity |]);
    (split; [reflexivity |]); (split; [reflexivity |]); split.
  - split; [discriminate |]. by intros (image & [= <-] & Hne).
  - discriminate.
  - split; [|done]. intros _. by eexists.
  - by intros ? [= <-].
  - split; [discriminate |]. by intros (image & [=] & _).
  - discriminate.
Qed.

(** C5, as the code has it.  [format_ocr_pages] yields one record per
    page, in the order of the input; each record holds the page's index and
    markdown unchanged, and has the image field exactly when the source page
    provided a non-empty image value, then with that value.  The loop of the
    [/ocr/query] handler likewise yields one typed record per page in input
    order with index and markdown unchanged; its record always has the image
    attribute, which holds the image value of the source page as it is, so
    that it holds a non-empty image exactly when the source page provided
    one. *)
Theorem format_ocr_pages_order_and_image (pages : list Page.t) :
  ResponseFormatter.format_ocr_pages pages
  = List.map ResponseFormatter.format_page pages
  ∧ (∀ (i : nat) page, pages !! i = Some page →
       ∃ d, ResponseFormatter.format_ocr_pages pages !! i = Some (VDict d)
            ∧ PyDict.get d "index" = Some (VInt (Page.index page))
            ∧ PyDict.get d "markdown" = Some (VStr (Page.markdown page))
            ∧ (PyDict.mem d "image_base64" = true ↔ has_image page)
            ∧ (∀ image, Page.image_base64 page = Some image → image ≠ "" →
                 PyDict.get d "image_base64" = Some (VStr image)))
  ∧ length (Main.ocr_loop pages []) = length pages
  ∧ (∀ (i : nat) page, pages !! i = Some page →
       ∃ out, Main.ocr_loop pages [] !! i = Some out
              ∧ OCRPage.index out = Page.index page
              ∧ OCRPage.markdown out = Page.markdown page
              ∧ OCRPage.image_base64 out = Page.image_base64 page
              ∧ (opt_str_truthy (OCRPage.image_base64 out) = true ↔ has_image page)).
Proof.
  assert (ResponseFormatter.format_ocr_pages pages
          = List.map ResponseFormatter.format_page pages) as Hmap
    by (unfold ResponseFormatter.format_ocr_pages;
        by rewrite format_ocr_pages_loop_map).
  split; [exact Hmap |]. split; [|split].
  - intros i page Hi. rewrite Hmap.
    destruct (format_page_entries page) as (d & Hd & Hidx & Hmd & Hmem & Hval).
    exists d. rewrite list_lookup_fmap, Hi. simpl. rewrite Hd.
    repeat split; try done; try apply Hmem.
    intros image Himg Hne.
    assert (PyDict.mem d "image_base64" = true) as Hin
      by (apply Hmem; by exists image).
    unfold PyDict.mem in Hin.
    destruct (PyDict.get d "image_base64") as [v|] eqn:Hget; [|discriminate].
    destruct (Hval v eq_refl) as [_ ->]. by rewrite Himg.
  - rewrite ocr_loop_map. simpl. by rewrite length_map.
  - intros i page Hi. rewrite ocr_loop_map. simpl.
    exists (Main.ocr_page page). rewrite list_lookup_fmap, Hi. simpl.
    do 4 (split; [reflexivity |]). unfold has_image.
    destruct (Page.image_base64 page) as [[|c image]|]; simpl.
    + split; [discriminate |]. by intros (img & [= <-] & Hne).
    + split; [|done]. intros _. by eexists.
    + split; [discriminate |]. by intros (img & [=] & _).
Qed.

Lemma format_ocr_pages_order_and_image_witness :
  ResponseFormatter.format_ocr_pages
    [ {| Page.index := 0; Page.markdown := "# one"; Page.image_base64 := Some "aGk=" |};
      {| Page.index := 1; Page.markdown := "two"; Page.image_base64 := Some "" |};
      {| Page.index := 2; Page.markdown := "three"; Page.image_base64 := None |} ]
  = [ VDict [("index", VInt 0); ("markdown", VStr "# one"); ("image_base64", VStr "aGk=")];
      VDict [("index", VInt 1); ("markdown", VStr "two")];
      VDict [("index", VInt 2); ("markdown", VStr "three")] ].
Proof.
  rewrite (proj1 (format_ocr_pages_order_and_image _)). reflexivity.
Defined.

(** C5 as stated fails in the [/ocr/query] handler on a page whose image
    value is the empty string: the record has the image attribute, set to
    that empty value, though the source page provided no non-empty image;
    [format_ocr_pages] leaves the field out for the same page. *)
Lemma ocr_page_empty_image_counterexample :
  Main.ocr_loop
    [ {| Page.index := 0; Page.markdown := "text"; Page.image_base64 := Some "" |} ] []
  = [ {| OCRPage.index := 0; OCRPage.markdown := "text";
         OCRPage.image_base64 := Some "" |} ]
  ∧ ¬ has_image
        {| Page.index := 0; Page.markdown := "text"; Page.image_base64 := Some "" |}
  ∧ ResponseFormatter.format_ocr_pages
      [ {| Page.index := 0; Page.markdown := "text"; Page.image_base64 := Some "" |} ]
    = [ VDict [("index", VInt 0); ("markdown", VStr "text")] ].
Proof.
  split; [reflexivity |]. split; [|reflexivity].
  intros (image & [= <-] & Hne). done.
Qed.


(** The three usage counters of a mapped Q&A record are exactly those of
    [u], under their three names. *)
Lemma usage_dict_verbatim (chat_response : ChatResponse.t) (u : Usage.t) :
  ChatResponse.usage chat_response = Some u →
  Main.usage_dict chat_response
  = Ok [("prompt_tokens", Usage.prompt_tokens u);
        ("completion_tokens", Usage.completion_tokens u);
        ("total_tokens", Usage.total_tokens u)].
Proof. intros H. unfold Main.usage_dict. by rewrite H. Qed.

Lemma usage_dict_absent (chat_response : ChatResponse.t) :
  ChatResponse.usage chat_response = None →
  Main.usage_dict chat_response = Raise (AttributeError "prompt_tokens").
Proof. intros H. unfold Main.usage_dict. by rewrite H. Qed.

(** [format_qa_response]: with a usage object and at least one choice the
    record holds the first choice's message text and the three counters as
    given; without a usage object the mapping raises. *)
Lemma format_qa_response_cases (chat_response : ChatResponse.t)
    (file_id question : string) :
  (∀ choice0 rest u,
     ChatResponse.choices chat_response = choice0 :: rest →
     ChatResponse.usage chat_response = Some u →
     ResponseFormatter.format_qa_response chat_response file_id question
     = Ok (VDict [
         ("answer", VStr (ChatResponse.content (ChatResponse.message_of choice0)));
         ("model", VStr (ChatResponse.model chat_response));
         ("usage", VDict [
            ("prompt_tokens", VInt (Usage.prompt_tokens u));
            ("completion_tokens", VInt (Usage.completion_tokens u));
            ("total_tokens", VInt (Usage.total_tokens u))
          ]);
         ("file_id", VStr file_id);
         ("question", VStr question)
       ]))
  ∧ (ChatResponse.usage chat_response = None →
     ∃ e, ResponseFormatter.format_qa_response chat_response file_id question
          = Raise e
          ∧ (ChatResponse.choices chat_response ≠ [] →
             e = AttributeError "prompt_tokens")).
Proof.
  unfold ResponseFormatter.format_qa_response. split.
  - intros choice0 rest u -> ->. reflexivity.
  - intros ->. destruct (ChatResponse.choices chat_response) as [|c cs]; simpl.
    + by exists IndexError.
    + by exists (AttributeError "prompt_tokens").
Qed.

(** C4.  Q&A mapping.  With a usage object and at least one choice, the
    mapped record, of [format_qa_response] and of the [/qa/query] handler
    alike, holds the first choice's message text as the answer and the three
    usage counters exactly as the provider gave them, whatever their sum;
    without a usage object the mapping fails with an exception, which the
    handler reports as status 500, and no record with defaults is made. *)
Theorem qa_mapping_usage (chat_response : ChatResponse.t)
    (service : MistralService.t) (str_of_exn : exn → string)
    (request : DocumentQARequest.t) (signed_url : SignedUrl.t) (w : World) :
  Mistral.files_get_signed_url (MistralService.client service) (calls w)
    (DocumentQARequest.file_id request) None = Ok signed_url →
  Mistral.chat_complete (MistralService.client service)
    (calls w ++ [FilesGetSignedUrl (DocumentQARequest.file_id request) None])
    (DocumentQARequest.model request)
    (MistralService.build_messages (DocumentQARequest.conversation_history request)
       (DocumentQARequest.question request) (SignedUrl.url signed_url))
  = Ok chat_response →
  (∀ choice0 rest u,
     ChatResponse.choices chat_response = choice0 :: rest →
     ChatResponse.usage chat_response = Some u →
     ResponseFormatter.format_qa_response chat_response
       (DocumentQARequest.file_id request) (DocumentQARequest.question request)
     = Ok (VDict [
         ("answer", VStr (ChatResponse.content (ChatResponse.message_of choice0)));
         ("model", VStr (ChatResponse.model chat_response));
         ("usage", VDict [
            ("prompt_tokens", VInt (Usage.prompt_tokens u));
            ("completion_tokens", VInt (Usage.completion_tokens u));
            ("total_tokens", VInt (Usage.total_tokens u))
          ]);
         ("file_id", VStr (DocumentQARequest.file_id request));
         ("question", VStr (DocumentQARequest.question request))
       ])
     ∧ (Main.query_document (Some service) str_of_exn request w).1
       = Ok {| DocumentQAResponse.answer :=
                 ChatResponse.content (ChatResponse.message_of choice0);
               DocumentQAResponse.model := ChatResponse.model chat_response;
               DocumentQAResponse.usage :=
                 [("prompt_tokens", Usage.prompt_tokens u);
                  ("completion_tokens", Usage.completion_tokens u);
                  ("total_tokens", Usage.total_tokens u)];
               DocumentQAResponse.file_id := DocumentQARequest.file_id request;
               DocumentQAResponse.question := DocumentQARequest.question request |})
  ∧ (ChatResponse.usage chat_response = None →
     ∃ e, ResponseFormatter.format_qa_response chat_response
            (DocumentQARequest.file_id request) (DocumentQARequest.question request)
          = Raise e
          ∧ (Main.query_document (Some service) str_of_exn request w).1
            = Raise (HTTPException 500
                       ("failed to query document: " +:+ str_of_exn e))).
Proof.
  intros Hurl Hchat.
  pose proof (query_document_outcome _ str_of_exn _ _ _ _ Hurl Hchat) as Hrun.
  pose proof (format_qa_response_cases chat_response
                (DocumentQARequest.file_id request)
                (DocumentQARequest.question request)) as [Hsome Hnone].
  split.
  - intros choice0 rest u Hchoices Husage. split; [by eapply Hsome |].
    rewrite Hrun. unfold Main.first_answer. rewrite Hchoices. simpl.
    by rewrite (usage_dict_verbatim _ _ Husage).
  - intros Husage. rewrite Hrun. unfold Main.first_answer.
    unfold ResponseFormatter.format_qa_response.
    destruct (ChatResponse.choices chat_response) as [|choice0 rest]; simpl.
    + by exists IndexError.
    + rewrite (usage_dict_absent _ Husage), Husage. simpl.
      by exists (AttributeError "prompt_tokens").
Qed.

Lemma qa_mapping_usage_witness :
  (Main.query_document (Some sample_service) sample_str
     {| DocumentQARequest.file_id := "file-0123456789";
        DocumentQARequest.question := "what is this?";
        DocumentQARequest.model := "mistral-small-latest";
        DocumentQARequest.conversation_history := None |} empty_world).1
  = Raise (HTTPException 500 "failed to query document: no attribute prompt_tokens").
Proof.
  destruct (proj2 (qa_mapping_usage
      {| ChatResponse.choices :=
           [ {| ChatResponse.message_of := {| ChatResponse.content := "an answer" |} |} ];
         ChatResponse.model := "mistral-small-latest";
         ChatResponse.usage := None |}
      sample_service sample_str
      {| DocumentQARequest.file_id := "file-0123456789";
         DocumentQARequest.question := "what is this?";
         DocumentQARequest.model := "mistral-small-latest";
         DocumentQARequest.conversation_history := None |}
      {| SignedUrl.url := "https://example.com/doc.pdf" |}
      empty_world eq_refl eq_refl) eq_refl) as (e & He & Hrun).
  rewrite Hrun. injection He as <-. reflexivity.
Defined.

(** The counters are copied, not recomputed: a total that is not the sum of
    the other two stays as given. *)
Example format_qa_response_copies_total :
  ResponseFormatter.format_qa_response
    {| ChatResponse.choices :=
         [ {| ChatResponse.message_of := {| ChatResponse.content := "this is the answer" |} |};
           {| ChatResponse.message_of := {| ChatResponse.content := "another" |} |} ];
       ChatResponse.model := "mistral-small-latest";
       ChatResponse.usage :=
         Some {| Usage.prompt_tokens := 100;
                 Usage.completion_tokens := 50;
                 Usage.total_tokens := 7 |} |}
    "file123" "what is this?"
  = Ok (VDict [
      ("answer", VStr "this is the answer");
      ("model", VStr "mistral-small-latest");
      ("usage", VDict [("prompt_tokens", VInt 100);
                       ("completion_tokens", VInt 50);
                       ("total_tokens", VInt 7)]);
      ("file_id", VStr "file123");
      ("question", VStr "what is this?")
    ]).
Proof. reflexivity. Qed.

(** The file-metadata mappings of the router.  With every attribute present
    each is reproduced unchanged. *)
Lemma upload_response_present (content : list byte)
    (id object filename purpose sample_type mimetype source signature : string)
    (bytes created_at num_lines : Z) (deleted : option bool) :
  Main.upload_response
    {| FileObj.id := Some id; FileObj.object := Some object;
       FileObj.bytes := Some bytes; FileObj.created_at := Some created_at;
       FileObj.filename := Some filename; FileObj.purpose := Some purpose;
       FileObj.sample_type := Some sample_type; FileObj.num_lines := Some num_lines;
       FileObj.mimetype := Some mimetype; FileObj.source := Some source;
       FileObj.signature := Some signature; FileObj.deleted := deleted |}
    content
  = Ok {| FileUploadResponse.id := id; FileUploadResponse.object := object;
          FileUploadResponse.bytes := bytes; FileUploadResponse.created_at := created_at;
          FileUploadResponse.filename := filename; FileUploadResponse.purpose := purpose;
          FileUploadResponse.sample_type := sample_type;
          FileUploadResponse.num_lines := num_lines;
          FileUploadResponse.mimetype := mimetype; FileUploadResponse.source := source;
          FileUploadResponse.signature := signature |}.
Proof. reflexivity. Qed.

(** With the attributes read through [getattr] all absent, each gets its
    default; the byte count is the length of the uploaded content. *)
Lemma upload_response_defaults (content : list byte)
    (id object filename purpose : string) (created_at : Z) (deleted : option bool) :
  Main.upload_response
    {| FileObj.id := Some id; FileObj.object := Some object;
       FileObj.bytes := None; FileObj.created_at := Some created_at;
       FileObj.filename := Some filename; FileObj.purpose := Some purpose;
       FileObj.sample_type := None; FileObj.num_lines := None;
       FileObj.mimetype := None; FileObj.source := None;
       FileObj.signature := None; FileObj.deleted := deleted |}
    content
  = Ok {| FileUploadResponse.id := id; FileUploadResponse.object := object;
          FileUploadResponse.bytes := bytes_len content;
          FileUploadResponse.created_at := created_at;
          FileUploadResponse.filename := filename; FileUploadResponse.purpose := purpose;
          FileUploadResponse.sample_type := "ocr_input";
          FileUploadResponse.num_lines := 0;
          FileUploadResponse.mimetype := "application/pdf";
          FileUploadResponse.source := "upload";
          FileUploadResponse.signature := "" |}.
Proof. reflexivity. Qed.

(** On retrieval and listing the byte count defaults to 0 and the deletion
    flag to false. *)
Lemma retrieve_response_defaults
    (id object filename purpose : string) (created_at : Z) :
  Main.retrieve_response
    {| FileObj.id := Some id; FileObj.object := Some object;
       FileObj.bytes := None; FileObj.created_at := Some created_at;
       FileObj.filename := Some filename; FileObj.purpose := Some purpose;
       FileObj.sample_type := None; FileObj.num_lines := None;
       FileObj.mimetype := None; FileObj.source := None;
       FileObj.signature := None; FileObj.deleted := None |}
  = Ok {| FileRetrieveResponse.id := id; FileRetrieveResponse.object := object;
          FileRetrieveResponse.bytes := 0;
          FileRetrieveResponse.created_at := created_at;
          FileRetrieveResponse.filename := filename;
          FileRetrieveResponse.purpose := purpose;
          FileRetrieveResponse.sample_type := "ocr_input";
          FileRetrieveResponse.num_lines := 0;
          FileRetrieveResponse.mimetype := "application/pdf";
          FileRetrieveResponse.source := "upload";
          FileRetrieveResponse.signature := "";
          FileRetrieveResponse.deleted := false |}.
Proof. reflexivity. Qed.

(** [format_file_metadata] reproduces every attribute when all are present
    and defaults the deletion flag alone. *)
Lemma format_file_metadata_present
    (id object filename purpose sample_type mimetype source signature : string)
    (bytes created_at num_lines : Z) (deleted : option bool) :
  ResponseFormatter.format_file_metadata
    {| FileObj.id := Some id; FileObj.object := Some object;
       FileObj.bytes := Some bytes; FileObj.created_at := Some created_at;
       FileObj.filename := Some filename; FileObj.purpose := Some purpose;
       FileObj.sample_type := Some sample_type; FileObj.num_lines := Some num_lines;
       FileObj.mimetype := Some mimetype; FileObj.source := Some source;
       FileObj.signature := Some signature; FileObj.deleted := deleted |}
  = Ok (VDict [
      ("id", VStr id); ("object", VStr object); ("bytes", VInt bytes);
      ("created_at", VInt created_at); ("filename", VStr filename);
      ("purpose", VStr purpose); ("sample_type", VStr sample_type);
      ("num_lines", VInt num_lines); ("mimetype", VStr mimetype);
      ("source", VStr source); ("signature", VStr signature);
      ("deleted", VBool (getattr deleted false))
    ]).
Proof. reflexivity. Qed.

(** It has no default for any other attribute: when one of them is absent
    the mapping raises and yields no record. *)
Lemma format_file_metadata_no_default (file_obj : FileObj.t) :
  FileObj.bytes file_obj = None ∨ FileObj.sample_type file_obj = None
  ∨ FileObj.num_lines file_obj = None ∨ FileObj.mimetype file_obj = None
  ∨ FileObj.source file_obj = None ∨ FileObj.signature file_obj = None →
  ∃ attr, ResponseFormatter.format_file_metadata file_obj
          = Raise (AttributeError attr).
Proof.
  intros H. unfold ResponseFormatter.format_file_metadata.
  destruct file_obj as [i o b c f p s n m so si d]; simpl in *.
  destruct i, o, b, c, f, p, s, n, m, so, si; simpl; eauto.
  exfalso. destruct H as [H|[H|[H|[H|[H|H]]]]]; discriminate.
Qed.

(** C1.  [format_file_metadata] on a file object that has the required
    attributes and lacks the optional ones: the mapping raises
    [AttributeError] on the first of them, where the upload mapping
    substitutes the defaults. *)
Theorem format_file_metadata_missing_attributes :
  ResponseFormatter.format_file_metadata
    {| FileObj.id := Some "file123"; FileObj.object := Some "file";
       FileObj.bytes := None; FileObj.created_at := Some 1234567890;
       FileObj.filename := Some "test.pdf"; FileObj.purpose := Some "ocr";
       FileObj.sample_type := None; FileObj.num_lines := None;
       FileObj.mimetype := None; FileObj.source := None;
       FileObj.signature := None; FileObj.deleted := None |}
  = Raise (AttributeError "bytes")
  ∧ Main.upload_response
      {| FileObj.id := Some "file123"; FileObj.object := Some "file";
         FileObj.bytes := None; FileObj.created_at := Some 1234567890;
         FileObj.filename := Some "test.pdf"; FileObj.purpose := Some "ocr";
         FileObj.sample_type := None; FileObj.num_lines := None;
         FileObj.mimetype := None; FileObj.source := None;
         FileObj.signature := None; FileObj.deleted := None |}
      [x25; x50; x44; x46]
    = Ok {| FileUploadResponse.id := "file123"; FileUploadResponse.object := "file";
            FileUploadResponse.bytes := 4;
            FileUploadResponse.created_at := 1234567890;
            FileUploadResponse.filename := "test.pdf";
            FileUploadResponse.purpose := "ocr";
            FileUploadResponse.sample_type := "ocr_input";
            FileUploadResponse.num_lines := 0;
            FileUploadResponse.mimetype := "application/pdf";
            FileUploadResponse.source := "upload";
            FileUploadResponse.signature := "" |}.
Proof. split; reflexivity. Qed.

(** ** Streaming relay *)

(** *** The loop of the relay *)

Lemma generate_loop_texts (chunks : list Chunk.t) :
  Main.generate_loop chunks
  = List.map content_event (omap increment_text chunks).
Proof.
  induction chunks as [|chunk chunks IH]; [reflexivity |].
  simpl. unfold increment_text.
  destruct (Chunk.choices (Chunk.data chunk)) as [|choice0 ?]; [exact IH |].
  destruct (Chunk.content (Chunk.delta choice0)) as [text|]; [|exact IH].
  destruct (PyText.truthy text); [|exact IH].
  simpl. by rewrite IH.
Qed.

(** For increments that are plain texts, the relayed ones are the non-empty
    ones, in order. *)
Lemma relayed_text_increments (texts : list PyText.t) :
  omap increment_text (List.map text_increment texts)
  = List.filter PyText.truthy texts.
Proof.
  induction texts as [|text texts IH]; [reflexivity |].
  cbn [List.map List.filter omap list_omap].
  rewrite IH. unfold increment_text, text_increment. simpl.
  by destruct (PyText.truthy text).
Qed.

(** The two kinds of frame differ in the name of their member. *)
Lemma content_event_not_done (text : PyText.t) : content_event text ≠ done_event.
Proof.
  intros H. apply (f_equal (String.get 8)) in H.
  change (Some "c"%char = Some "d"%char) in H. discriminate H.
Qed.

Lemma done_event_frame : done_event = completion_frame.
Proof. reflexivity. Qed.

(** *** Escapes *)

Ltac div_lia := zify; Z.to_euclidean_division_equations; lia.

Lemma below_cases (P : N → Prop) (k : nat) :
  (∀ i, (i < k)%nat → P (N.of_nat i)) → ∀ x, (x < N.of_nat k)%N → P x.
Proof. intros H x Hx. rewrite <- (N2Nat.id x). apply H. lia. Qed.

(** The surrogates are built with bit operations; on the ten bits they
    combine these are sums. *)
Lemma lor_high_surrogate (x : N) : (x < 1024)%N → N.lor 55296 x = (55296 + x)%N.
Proof.
  intros Hx.
  assert (forallb (λ i, N.lor 55296 (N.of_nat i) =? 55296 + N.of_nat i)%N (seq 0 1024)
          = true) as Hall by (vm_compute; reflexivity).
  rewrite forallb_forall in Hall.
  rewrite <- (N2Nat.id x). apply N.eqb_eq, Hall, in_seq. lia.
Qed.

Lemma lor_low_surrogate (x : N) : (x < 1024)%N → N.lor 56320 x = (56320 + x)%N.
Proof.
  intros Hx.
  assert (forallb (λ i, N.lor 56320 (N.of_nat i) =? 56320 + N.of_nat i)%N (seq 0 1024)
          = true) as Hall by (vm_compute; reflexivity).
  rewrite forallb_forall in Hall.
  rewrite <- (N2Nat.id x). apply N.eqb_eq, Hall, in_seq. lia.
Qed.

Lemma land_1023 (x : N) : N.land x 1023 = (x mod 1024)%N.
Proof. change 1023%N with (N.ones 10). by rewrite N.land_ones. Qed.

Lemma shiftr_10 (x : N) : N.shiftr x 10 = (x / 1024)%N.
Proof. by rewrite N.shiftr_div_pow2. Qed.

Lemma escape_point_astral (n : N) :
  (65536 <= n < 1114112)%N →
  Json.escape_point n
  = Json.u_escape (55296 + (n - 65536) / 1024)
    +:+ Json.u_escape (56320 + (n - 65536) mod 1024).
Proof.
  intros Hn. unfold Json.escape_point.
  repeat (rewrite (proj2 (N.eqb_neq _ _)) by lia).
  rewrite (proj2 (N.leb_gt n 126)) by lia. rewrite andb_false_r.
  rewrite (proj2 (N.ltb_ge n 65536)) by lia.
  cbv zeta. rewrite !land_1023, shiftr_10.
  rewrite (N.mod_small ((n - 65536) / 1024) 1024) by div_lia.
  rewrite lor_high_surrogate by div_lia.
  rewrite lor_low_surrogate by div_lia.
  reflexivity.
Qed.

Lemma valid_cons (n : N) (text : PyText.t) :
  PyText.valid (n :: text) = true → (n < 1114112)%N ∧ PyText.valid text = true.
Proof.
  unfold PyText.valid. cbn [forallb]. intros [Hn Ht]%andb_prop.
  split; [by apply N.ltb_lt | done].
Qed.

(** *** Reading an escaped text back *)

Lemma hex_value_digit (d : N) :
  (d < 16)%N → JsonText.hex_value (Json.hex_digit d) = Some d.
Proof.
  revert d. apply (below_cases _ 16).
  intros i Hi. do 16 (destruct i as [|i]; [reflexivity |]). lia.
Qed.

Lemma chars_u (h1 h2 h3 h4 : ascii) (a b c d : N) (s : string) :
  JsonText.hex_value h1 = Some a → JsonText.hex_value h2 = Some b →
  JsonText.hex_value h3 = Some c → JsonText.hex_value h4 = Some d →
  JsonText.chars (String "\" (String "u" (String h1 (String h2 (String h3 (String h4 s))))))
  = JsonText.more [(4096 * a + 256 * b + 16 * c + d)%N] (JsonText.chars s).
Proof. intros Ha Hb Hc Hd. cbn [JsonText.chars]. simpl. by rewrite Ha, Hb, Hc, Hd. Qed.

Lemma chars_u_escape (n : N) (s : string) :
  (n < 65536)%N →
  JsonText.chars (Json.u_escape n +:+ s) = JsonText.more [n] (JsonText.chars s).
Proof.
  intros Hn. unfold Json.u_escape, Json.hex4. rewrite !app_String, app_empty.
  rewrite (chars_u _ _ _ _ (n / 4096) (n / 256 mod 16) (n / 16 mod 16) (n mod 16))
    by (apply hex_value_digit; div_lia).
  do 2 f_equal. div_lia.
Qed.

Lemma chars_plain (n : N) (s : string) :
  n ≠ 34%N → n ≠ 92%N → (32 <= n <= 126)%N →
  JsonText.chars (String (ascii_of_N n) s) = JsonText.more [n] (JsonText.chars s).
Proof.
  intros Hq Hb Hn. cbn [JsonText.chars]. rewrite N_ascii_embedding by lia.
  cbv zeta.
  rewrite (proj2 (N.eqb_neq n 34)), (proj2 (N.eqb_neq n 92)) by done.
  rewrite (proj2 (N.ltb_ge n 32)), (proj2 (N.ltb_ge 127 n)) by lia.
  reflexivity.
Qed.

Lemma more_more (us vs : list N) (r : option (list N * string)) :
  JsonText.more us (JsonText.more vs r) = JsonText.more (us ++ vs) r.
Proof. destruct r as [[units rest]|]; [|done]. simpl. by rewrite app_assoc. Qed.

(** The escape of one code point is read as the code units of that code
    point. *)
Lemma chars_escape_point (n : N) (s : string) :
  (n < 1114112)%N →
  JsonText.chars (Json.escape_point n +:+ s)
  = JsonText.more (Utf16.units_of_point n) (JsonText.chars s).
Proof.
  intros Hn.
  destruct (N.eqb_spec n 34) as [->|H34]; [reflexivity |].
  destruct (N.eqb_spec n 92) as [->|H92]; [reflexivity |].
  destruct (N.eqb_spec n 8) as [->|H8]; [reflexivity |].
  destruct (N.eqb_spec n 12) as [->|H12]; [reflexivity |].
  destruct (N.eqb_spec n 10) as [->|H10]; [reflexivity |].
  destruct (N.eqb_spec n 13) as [->|H13]; [reflexivity |].
  destruct (N.eqb_spec n 9) as [->|H9]; [reflexivity |].
  destruct (N.ltb_spec n 65536) as [Hbmp|Hastral].
  - assert (Utf16.units_of_point n = [n]) as ->
      by (unfold Utf16.units_of_point; by rewrite (proj2 (N.ltb_lt n 65536))).
    unfold Json.escape_point.
    rewrite (proj2 (N.eqb_neq n 34)), (proj2 (N.eqb_neq n 92)), (proj2 (N.eqb_neq n 8)),
      (proj2 (N.eqb_neq n 12)), (proj2 (N.eqb_neq n 10)), (proj2 (N.eqb_neq n 13)),
      (proj2 (N.eqb_neq n 9)) by done.
    destruct (N.leb_spec 32 n) as [Hlo|Hlo]; cbn [andb].
    + destruct (N.leb_spec n 126) as [Hhi|Hhi].
      * rewrite app_String, app_empty. by apply chars_plain.
      * rewrite (proj2 (N.ltb_lt n 65536)) by done. by apply chars_u_escape.
    + rewrite (proj2 (N.ltb_lt n 65536)) by done. by apply chars_u_escape.
  - rewrite escape_point_astral by lia. rewrite string_app_assoc.
    rewrite !chars_u_escape by div_lia. rewrite more_more.
    unfold Utf16.units_of_point. by rewrite (proj2 (N.ltb_ge n 65536)).
Qed.

(** The escaped text ends at the quote that closes it, whatever the text
    holds, and is read as the code units of the text. *)
Lemma chars_escape_text (text : PyText.t) (rest : string) :
  PyText.valid text = true →
  JsonText.chars (Json.escape_text text +:+ String Json.dquote rest)
  = Some (Utf16.encode text, rest).
Proof.
  induction text as [|n text IH]; intros Hvalid; [reflexivity |].
  apply valid_cons in Hvalid as [Hn Hvalid].
  cbn [Json.escape_text Utf16.encode]. rewrite string_app_assoc.
  rewrite chars_escape_point by done. by rewrite IH.
Qed.

Lemma content_payload (text : PyText.t) :
  Json.dumps (VDict [("content", VText text)])
  = String "{" (String Json.dquote ("content" +:+ String Json.dquote (String ":"
      (String " " (String Json.dquote
         (Json.escape_text text +:+ String Json.dquote "}")))))).
Proof.
  unfold Json.dumps, Json.dumps_str, Json.dumps_text, Json.quote.
  cbn [List.map fst snd Json.join].
  change (Json.escape "content") with "content".
  rewrite !string_app_assoc. reflexivity.
Qed.

Lemma read_content_payload (text : PyText.t) :
  PyText.valid text = true →
  read_payload (Json.dumps (VDict [("content", VText text)]))
  = Some (Content (Utf16.encode text)).
Proof.
  intros Hvalid. rewrite content_payload.
  unfold read_payload, JsonText.member.
  cbn -[JsonText.chars]. cbn [JsonText.chars]. simpl.
  by rewrite chars_escape_text.
Qed.

Lemma read_done_payload :
  read_payload (Json.dumps (VDict [("done", VBool true)])) = Some Done.
Proof. reflexivity. Qed.

(** *** Frames on the wire *)

Lemma printable_app (a b : string) :
  printable (a +:+ b) = printable a && printable b.
Proof.
  induction a as [|c a IH]; [done |].
  rewrite app_String. simpl. by rewrite IH, andb_assoc.
Qed.

Lemma printable_String (c : ascii) (s : string) :
  printable (String c s) = printable (String c "") && printable s.
Proof. simpl. by rewrite andb_true_r. Qed.

Lemma printable_hex_digit (d : N) :
  (d < 16)%N → printable (String (Json.hex_digit d) "") = true.
Proof.
  revert d. apply (below_cases _ 16).
  intros i Hi. do 16 (destruct i as [|i]; [reflexivity |]). lia.
Qed.

Lemma printable_u_escape (n : N) : (n < 65536)%N → printable (Json.u_escape n) = true.
Proof.
  intros Hn. unfold Json.u_escape, Json.hex4.
  rewrite (printable_String "\"), (printable_String "u").
  rewrite (printable_String (Json.hex_digit (n / 4096))),
    (printable_String (Json.hex_digit (n / 256 mod 16))),
    (printable_String (Json.hex_digit (n / 16 mod 16))).
  by rewrite !printable_hex_digit by div_lia.
Qed.

Lemma printable_escape_point (n : N) :
  (n < 1114112)%N → printable (Json.escape_point n) = true.
Proof.
  intros Hn.
  destruct (N.ltb_spec n 65536) as [Hbmp|Hastral].
  - unfold Json.escape_point.
    repeat (case_match; [reflexivity |]).
    rewrite (proj2 (N.ltb_lt n 65536)) by done.
    case_match eqn:Hp; [|by apply printable_u_escape].
    apply andb_prop in Hp as [Hlo%N.leb_le Hhi%N.leb_le].
    simpl. rewrite N_ascii_embedding by lia.
    by rewrite (proj2 (N.leb_le 32 n)), (proj2 (N.leb_le n 126)).
  - rewrite escape_point_astral by lia.
    by rewrite printable_app, !printable_u_escape by div_lia.
Qed.

Lemma printable_escape_text (text : PyText.t) :
  PyText.valid text = true → printable (Json.escape_text text) = true.
Proof.
  induction text as [|n text IH]; intros Hvalid; [done |].
  apply valid_cons in Hvalid as [Hn Hvalid].
  cbn [Json.escape_text]. by rewrite printable_app, printable_escape_point, IH.
Qed.

(** The payload of a content frame has no line break, nor any other
    character outside space..tilde. *)
Lemma printable_content_payload (text : PyText.t) :
  PyText.valid text = true →
  printable (Json.dumps (VDict [("content", VText text)])) = true.
Proof.
  intros Hvalid. rewrite content_payload.
  change (printable (Json.escape_text text +:+ String Json.dquote "}") = true).
  by rewrite printable_app, printable_escape_text.
Qed.

(** Characters without a line break stay in the line under way. *)
Lemma events_from_line (p s line : string) (data : list string) :
  printable p = true →
  Sse.events_from (p +:+ s) line data false = Sse.events_from s (line +:+ p) data false.
Proof.
  revert line. induction p as [|c p IH]; intros line Hp.
  - rewrite app_empty. f_equal. clear. induction line as [|c line IH]; [done |].
    by rewrite app_String, <- IH.
  - cbn [printable] in Hp. apply andb_prop in Hp as [Hc Hp].
    apply andb_prop in Hc as [Hlo%N.leb_le Hhi].
    rewrite app_String. cbn [Sse.events_from].
    unfold Sse.is_lf, Sse.is_cr.
    rewrite (proj2 (N.eqb_neq (N_of_ascii c) 10)), (proj2 (N.eqb_neq (N_of_ascii c) 13))
      by lia.
    cbn [andb orb]. rewrite IH by done. f_equal.
    by rewrite string_app_assoc.
Qed.

(** A frame with a payload that has no line break is one event, and what
    follows it on the wire is read from a fresh state. *)
Lemma events_from_frame (p s : string) :
  printable p = true →
  Sse.events_from ("data: " +:+ p +:+ Main.newline +:+ Main.newline +:+ s) "" [] false
  = p :: Sse.events_from s "" [] false.
Proof.
  intros Hp.
  rewrite <- (string_app_assoc "data: " p).
  rewrite events_from_line by (rewrite !app_String, app_empty; exact Hp).
  reflexivity.
Qed.

Lemma events_sse (payload : PyVal) :
  printable (Json.dumps payload) = true →
  Sse.events (Main.sse payload) = [Json.dumps payload].
Proof. intros Hp. exact (events_from_frame (Json.dumps payload) "" Hp). Qed.

Lemma events_wire (payloads : list PyVal) :
  Forall (λ payload, printable (Json.dumps payload) = true) payloads →
  Sse.events (wire (List.map Main.sse payloads)) = List.map Json.dumps payloads.
Proof.
  unfold Sse.events.
  induction 1 as [|payload payloads Hp _ IH]; [reflexivity |].
  cbn [List.map wire]. unfold Main.sse at 1. rewrite !string_app_assoc.
  by rewrite events_from_frame, IH.
Qed.

Lemma read_content_event (text : PyText.t) :
  PyText.valid text = true →
  read_frame (content_event text) = Some (Content (Utf16.encode text)).
Proof.
  intros Hvalid. unfold read_frame, content_event.
  rewrite events_sse by (by apply printable_content_payload).
  by apply read_content_payload.
Qed.

Lemma read_done_event : read_frame done_event = Some Done.
Proof. reflexivity. Qed.

(** *** UTF-16 *)

Lemma decode_units_of_point (n : N) (units : list N) :
  ((n <? 55296) || ((57344 <=? n) && (n <? 1114112)))%N = true →
  Utf16.decode (Utf16.units_of_point n ++ units) = n :: Utf16.decode units.
Proof.
  intros Hn. unfold Utf16.units_of_point.
  destruct (N.ltb_spec n 65536) as [Hbmp|Hastral].
  - cbn [app Utf16.decode]. destruct units as [|u2 units]; [done |].
    assert (Utf16.is_high n = false) as ->; [|done].
    unfold Utf16.is_high. apply andb_false_iff.
    apply orb_prop in Hn as [Hn%N.ltb_lt|[Hn%N.leb_le _]%andb_prop].
    + left. apply N.leb_gt. lia.
    + right. apply N.ltb_ge. lia.
  - apply orb_prop in Hn as [Hn%N.ltb_lt|[_ Hn%N.ltb_lt]%andb_prop]; [lia |].
    cbn [app Utf16.decode].
    assert (Utf16.is_high (55296 + (n - 65536) / 1024) = true) as ->.
    { unfold Utf16.is_high. apply andb_true_intro.
      split; [apply N.leb_le | apply N.ltb_lt]; div_lia. }
    assert (Utf16.is_low (56320 + (n - 65536) mod 1024) = true) as ->.
    { unfold Utf16.is_low. apply andb_true_intro.
      split; [apply N.leb_le | apply N.ltb_lt]; div_lia. }
    cbn [andb]. f_equal. div_lia.
Qed.

(** The code units of a text of scalar values determine the text. *)
Lemma decode_encode (text : PyText.t) :
  Utf16.scalar text = true → Utf16.decode (Utf16.encode text) = text.
Proof.
  induction text as [|n text IH]; intros Hs; [done |].
  unfold Utf16.scalar in Hs. cbn [forallb] in Hs.
  apply andb_prop in Hs as [Hn Hs].
  cbn [Utf16.encode]. rewrite decode_units_of_point by done. by rewrite IH.
Qed.

(** The events a client reads from frames that are content frames. *)
Lemma read_content_events (texts : list PyText.t) :
  forallb PyText.valid texts = true →
  List.map read_frame (List.map content_event texts)
  = List.map (λ text, Some (Content (Utf16.encode text))) texts.
Proof.
  intros Hvalid. rewrite forallb_forall in Hvalid.
  rewrite List.map_map. apply List.map_ext_in.
  intros text Hin. by apply read_content_event, Hvalid.
Qed.

(** C3.  Streaming relay.  For a stream that delivers its increments, each
    text a [str] of Python, and is then exhausted, the relay ends without an
    error, and a client that reads its frames, each as one server-sent event
    holding one JSON object, finds one content event for each increment that
    carries non-empty text, in arrival order and with the code units of that
    text, nothing for the other increments, and after them exactly one
    completion event; the last frame is, character for character, the line
    [data: {"done": true}] and an empty line.  The code units of a text
    without surrogate code points give back the text. *)
Theorem generate_relays_increments (stream : Stream.t) :
  Stream.failure stream = None →
  forallb PyText.valid (omap increment_text (Stream.chunks stream)) = true →
  StreamingResponse.error (Main.generate stream) = None
  ∧ List.map read_frame (StreamingResponse.body (Main.generate stream))
    = (List.map (λ text, Some (Content (Utf16.encode text)))
         (omap increment_text (Stream.chunks stream))
       ++ [Some Done])%list
  ∧ last (StreamingResponse.body (Main.generate stream)) = Some completion_frame
  ∧ (∀ text, Utf16.scalar text = true → Utf16.decode (Utf16.encode text) = text).
Proof.
  intros Hend Hvalid. unfold Main.generate. rewrite Hend.
  cbn [StreamingResponse.body StreamingResponse.error].
  rewrite generate_loop_texts.
  split; [reflexivity |]. split; [|split].
  - rewrite List.map_app, read_content_events by done. reflexivity.
  - by rewrite last_snoc.
  - exact decode_encode.
Qed.

Lemma generate_relays_increments_witness :
  List.map read_frame
    (StreamingResponse.body
       (Main.generate
          {| Stream.chunks :=
               List.map text_increment [PyText.of_str "Hi"; []; PyText.of_str " there"];
             Stream.failure := None |}))
  = [ Some (Content (PyText.of_str "Hi")); Some (Content (PyText.of_str " there"));
      Some Done ].
Proof.
  exact (proj1 (proj2 (generate_relays_increments
                         {| Stream.chunks :=
                              List.map text_increment
                                [PyText.of_str "Hi"; []; PyText.of_str " there"];
                            Stream.failure := None |} eq_refl eq_refl))).
Defined.

(** The frames of that run, character for character. *)
Example generate_frames :
  StreamingResponse.body
    (Main.generate
       {| Stream.chunks :=
            List.map text_increment [PyText.of_str "Hi"; []; PyText.of_str " there"];
          Stream.failure := None |})
  = [ "data: {" +:+ quote_mark +:+ "content" +:+ quote_mark +:+ ": "
        +:+ quote_mark +:+ "Hi" +:+ quote_mark +:+ "}" +:+ line_feed +:+ line_feed;
      "data: {" +:+ quote_mark +:+ "content" +:+ quote_mark +:+ ": "
        +:+ quote_mark +:+ " there" +:+ quote_mark +:+ "}" +:+ line_feed +:+ line_feed;
      completion_frame ].
Proof. reflexivity. Qed.

(** A text with a quotation mark, a line feed, a backslash, a Latin-1
    letter (U+00E9), a letter of another script (U+4E2D) and a code point
    beyond the basic plane (U+1F600): the frame, and what a client reads. *)
Example generate_frames_escaped :
  StreamingResponse.body
    (Main.generate
       {| Stream.chunks := [text_increment [34; 10; 92; 233; 20013; 128512]%N];
          Stream.failure := None |})
  = [ "data: {" +:+ quote_mark +:+ "content" +:+ quote_mark +:+ ": "
        +:+ quote_mark +:+ "\" +:+ quote_mark +:+ "\n\\\u00e9\u4e2d\ud83d\ude00"
        +:+ quote_mark +:+ "}" +:+ line_feed +:+ line_feed;
      completion_frame ]
  ∧ List.map read_frame
      (StreamingResponse.body
         (Main.generate
            {| Stream.chunks := [text_increment [34; 10; 92; 233; 20013; 128512]%N];
               Stream.failure := None |}))
    = [ Some (Content [34; 10; 92; 233; 20013; 55357; 56832]%N); Some Done ]
  ∧ Utf16.decode [34; 10; 92; 233; 20013; 55357; 56832]%N
    = [34; 10; 92; 233; 20013; 128512]%N.
Proof. split; [|split]; reflexivity. Qed.

(** X21.  Iterating the generator step by step sends the frames of [generate]:
    one call of [next] for each frame and one more to find the end. *)
Lemma resume_drain (upstream : list Chunk.t) (failure : option exn) (fuel : nat) :
  (length upstream + 2 ≤ fuel)%nat →
  Main.drain fuel (Main.Streaming upstream failure)
  = Some (StreamingResponse.body
            (Main.generate {| Stream.chunks := upstream; Stream.failure := failure |}),
          failure).
Proof.
  revert fuel. induction upstream as [|chunk rest IH]; intros fuel Hfuel.
  - destruct fuel as [|[|fuel]]; [simpl in Hfuel; lia.. |].
    by destruct failure.
  - destruct fuel as [|fuel]; [simpl in Hfuel; lia |].
    assert (Main.drain (S fuel) (Main.Streaming rest failure)
            = Some (StreamingResponse.body
                      (Main.generate {| Stream.chunks := rest; Stream.failure := failure |}),
                    failure)) as Hskip
      by (apply IH; simpl in Hfuel; lia).
    assert (Main.drain fuel (Main.Streaming rest failure)
            = Some (StreamingResponse.body
                      (Main.generate {| Stream.chunks := rest; Stream.failure := failure |}),
                    failure)) as Hyield
      by (apply IH; simpl in Hfuel; lia).
    unfold Main.generate in *. cbn [Stream.failure Stream.chunks] in *.
    cbn [Main.drain Main.next Main.resume Main.generate_loop] in *.
    destruct (Chunk.choices (Chunk.data chunk)) as [|choice0 ?]; [exact Hskip |].
    destruct (Chunk.content (Chunk.delta choice0)) as [text|]; [|exact Hskip].
    destruct (PyText.truthy text); [|exact Hskip].
    rewrite Hyield. by destruct failure.
Qed.

(** When the stream fails instead of being exhausted, the events relayed so
    far are followed by no completion event. *)
Lemma generate_failure (chunks : list Chunk.t) (e : exn) :
  StreamingResponse.body
    (Main.generate {| Stream.chunks := chunks; Stream.failure := Some e |})
  = List.map content_event (omap increment_text chunks)
  ∧ StreamingResponse.error
      (Main.generate {| Stream.chunks := chunks; Stream.failure := Some e |})
    = Some e.
Proof. simpl. by rewrite generate_loop_texts. Qed.

(** ** Router: conversation derivation *)








(** What the handler asks the provider once the derivation succeeded: the
    signed URL of the document, then a completion for the history followed
    by the question. *)
Lemma conversation_asks_provider (service : MistralService.t)
    (str_of_exn : exn → string) (request : DocumentConversationRequest.t)
    (history : list PyVal) (question : string) (signed_url : SignedUrl.t)
    (w : World) :
  Main.derive_conversation (DocumentConversationRequest.messages request)
  = Ok (history, question) →
  Mistral.files_get_signed_url (MistralService.client service) (calls w)
    (DocumentConversationRequest.file_id request) None = Ok signed_url →
  calls (snd (Main.query_document_conversation (Some service) str_of_exn request w))
  = (calls w ++ [
       FilesGetSignedUrl (DocumentConversationRequest.file_id request) None;
       ChatComplete (DocumentConversationRequest.model request)
         (history ++ [question_turn question (SignedUrl.url signed_url)])
     ])%list.
Proof.
  intros Hd Hurl.
  unfold Main.query_document_conversation, try_except.
  unfold mbind at 1, M_bind at 1, lift at 1. rewrite Hd.
  unfold mbind at 1, M_bind at 1.
  rewrite (query_document_run _ _ _ _ _ signed_url w Hurl), build_messages_history.
  destruct (Mistral.chat_complete _ _ _ _) as [chat_response|e];
    [|by destruct (is_HTTPException e)].
  unfold mbind, M_bind, lift, mret, M_ret.
  destruct (Main.first_answer chat_response) as [answer|e];
    [|by destruct (is_HTTPException e)].
  destruct (Main.usage_dict chat_response) as [usage|e];
    [done | by destruct (is_HTTPException e)].
Qed.

(** ** Router: uninitialised service *)

Lemma handle_uninitialized (settings : Settings.t) (str_of_exn : exn → string)
    (host : Host.t) (req : Main.Request) (w : World) :
  Main.handle settings None str_of_exn host req w = (uninitialized_outcome req, w).
Proof. destruct req; reflexivity. Qed.

Lemma serve_uninitialized (settings : Settings.t) (str_of_exn : exn → string)
    (host : Host.t) (reqs : list Main.Request) (w : World) :
  Main.serve settings None str_of_exn host reqs w
  = (List.map uninitialized_outcome reqs, w).
Proof.
  induction reqs as [|req reqs IH]; [reflexivity |].
  cbn [Main.serve List.map]. by rewrite handle_uninitialized, IH.
Qed.

Lemma startup_without_key (connect : string → Mistral.t) (environ_key : option string) :
  opt_str_truthy environ_key = false → Main.startup connect environ_key = None.
Proof. by destruct environ_key as [[|c k]|]. Qed.

(** C9, as the code has it.  When the construction of the adapter failed
    for want of a credential, the service stays uninitialised for every call
    the process serves: each call to a document, OCR or Q&A route fails with
    the same status 500 and detail, the root and health routes answer as
    usual, the health route reporting the service as not initialised, and
    the world is unchanged, so that no provider operation is invoked. *)
Theorem uninitialized_service (connect : string → Mistral.t)
    (environ_key : option string) (settings : Settings.t)
    (str_of_exn : exn → string) (host : Host.t)
    (reqs : list Main.Request) (w : World) :
  opt_str_truthy environ_key = false →
  Main.startup connect environ_key = None
  ∧ Main.serve settings (Main.startup connect environ_key) str_of_exn host reqs w
    = (List.map uninitialized_outcome reqs, w)
  ∧ (∀ req, needs_provider req = true →
       uninitialized_outcome req
       = Raise (HTTPException 500 "mistral service not initialized")).
Proof.
  intros Hkey. rewrite (startup_without_key _ _ Hkey).
  split; [reflexivity |]. split; [apply serve_uninitialized |].
  by intros [].
Qed.

(** ** Router: upload staging *)

Lemma stage_ok (host : Host.t) (content : list byte) (w w1 : World) (path : string) :
  HostIO.stage host content w = (Ok path, w1) →
  path = Host.tmp_path host ∧ fs w !! path = None
  ∧ w1 = HostIO.set_fs w (<[path := content]> (fs w)).
Proof.
  unfold HostIO.stage.
  destruct (Host.create_error host); [discriminate |].
  case_decide as Hfresh; [discriminate |].
  destruct (Host.write_error host); [discriminate |].
  intros [= <- <-]. repeat split; try done.
  by apply eq_None_not_Some.
Qed.

(** The [try ... finally] block of the upload, run on a world where the
    staged file exists: whatever reopening the file and the provider do, the
    block ends with the file removed. *)
Lemma staged_upload_cleanup (service : MistralService.t) (host : Host.t)
    (filename : option string) (path : string) (content : list byte) (w1 : World) :
  fs w1 !! path = Some content →
  fs (try_finally
        (HostIO.open_rb host path ≫= λ f,
           MistralService.upload_file service f filename)
        (HostIO.exists_ path ≫= λ present : bool,
           if present then HostIO.unlink path else mret tt) w1).2
  = delete path (fs w1).
Proof.
  intros Hfile.
  unfold try_finally, mbind, M_bind, HostIO.open_rb, HostIO.exists_,
    HostIO.unlink, MistralService.upload_file, invoke.
  destruct (Host.open_error host) as [e|]; simpl.
  - rewrite bool_decide_eq_true_2 by (by rewrite Hfile). reflexivity.
  - rewrite Hfile. simpl.
    rewrite bool_decide_eq_true_2 by (by rewrite Hfile).
    by destruct (Mistral.files_upload _ _ _ _ _).
Qed.

(** The steps of a handler after its last effect leave the world alone. *)
Lemma bind_lift_world {A B} (m : M A) (f : A → Res B) (w : World) :
  ((m ≫= λ a, lift (f a)) w).2 = (m w).2.
Proof. unfold mbind, M_bind, lift. by destruct (m w) as [[a|e] w']. Qed.

Lemma try_except_raise_world {A} (body : M A) (h : exn → exn) (w : World) :
  (try_except body (λ e, if is_HTTPException e then raise e else raise (h e)) w).2
  = (body w).2.
Proof.
  unfold try_except. destruct (body w) as [[a|e] w']; [done |].
  by destruct (is_HTTPException e).
Qed.

(** An upload call that staged the content in a temporary file ends with
    that file gone, on every path out of it: reopening the file fails, the
    provider upload fails, the mapping of the answer fails, or the call
    succeeds.  The file system is then as it was before the call. *)
Lemma staged_upload_released (settings : Settings.t)
    (service : MistralService.t) (str_of_exn : exn → string) (host : Host.t)
    (file : UploadFile.t) (w w1 : World) (path : string) :
  HostIO.stage host (UploadFile.body file) w = (Ok path, w1) →
  fs w1 !! path = Some (UploadFile.body file)
  ∧ fs (Main.upload_document settings (Some service) str_of_exn host file w).2 !! path
    = None
  ∧ fs (Main.upload_document settings (Some service) str_of_exn host file w).2
    = fs w.
Proof.
  intros Hstage.
  pose proof (stage_ok _ _ _ _ _ Hstage) as (-> & Hfresh & ->).
  assert (fs (HostIO.set_fs w (<[Host.tmp_path host := UploadFile.body file]> (fs w)))
            !! Host.tmp_path host = Some (UploadFile.body file)) as Hfile
    by apply lookup_insert_eq.
  split; [exact Hfile |].
  assert (fs (Main.upload_document settings (Some service) str_of_exn host file w).2
          = fs w) as Hfs; [|by rewrite Hfs].
  unfold Main.upload_document.
  destruct (FileValidator.validate_pdf _ _) as [[] msg]; [|reflexivity].
  cbn [negb]. unfold Main.wrap. rewrite try_except_raise_world.
  unfold HostIO.read, mbind at 1, M_bind at 1.
  destruct (Host.read_error host) as [e|]; [reflexivity |].
  cbn [mret M_ret].
  destruct (FileValidator.validate_file_size _ _) as [[] msg']; [|reflexivity].
  cbn [negb]. unfold mbind at 1, M_bind at 1. rewrite Hstage.
  rewrite bind_lift_world, (staged_upload_cleanup _ _ _ _ _ _ Hfile).
  cbn [fs HostIO.set_fs]. rewrite delete_insert_eq. by apply delete_id.
Qed.

(** The staging block on a host that can create the file: the content is
    staged when the write succeeds; when it fails, the block is left with
    the exception and the file that was created stays, empty. *)
Lemma stage_created (host : Host.t) (content : list byte) (w : World) :
  Host.create_error host = None →
  fs w !! Host.tmp_path host = None →
  HostIO.stage host content w
  = match Host.write_error host with
    | None =>
        (Ok (Host.tmp_path host),
         HostIO.set_fs w (<[Host.tmp_path host := content]> (fs w)))
    | Some e =>
        (Raise e, HostIO.set_fs w (<[Host.tmp_path host := []]> (fs w)))
    end.
Proof.
  intros Hcreate Hfresh. unfold HostIO.stage. rewrite Hcreate.
  rewrite decide_False by (rewrite Hfresh; by intros [? ?]).
  reflexivity.
Qed.

(** The world after an upload call whose write to the temporary file
    failed: no provider operation, and the created file on the host. *)
Lemma upload_write_failure_world (settings : Settings.t) (service : MistralService.t)
    (str_of_exn : exn → string) (host : Host.t) (file : UploadFile.t)
    (w : World) (e : exn) :
  FileValidator.validate_pdf file (Settings.max_file_size_mb settings) = accepted →
  Host.read_error host = None →
  FileValidator.validate_file_size (UploadFile.body file)
    (Settings.max_file_size_mb settings) = accepted →
  Host.create_error host = None →
  fs w !! Host.tmp_path host = None →
  Host.write_error host = Some e →
  (Main.upload_document settings (Some service) str_of_exn host file w).2
  = {| calls := calls w; fs := <[Host.tmp_path host := []]> (fs w) |}.
Proof.
  intros Hpdf Hread Hsize Hcreate Hfresh Hwrite.
  unfold Main.upload_document. rewrite Hpdf. cbn [accepted negb].
  unfold Main.wrap. rewrite try_except_raise_world.
  unfold HostIO.read. rewrite Hread.
  unfold mbind at 1, M_bind at 1. cbn [mret M_ret].
  rewrite Hsize. cbn [accepted negb].
  unfold mbind at 1, M_bind at 1.
  rewrite (stage_created _ _ _ Hcreate Hfresh), Hwrite. reflexivity.
Qed.

(** C8, as the code has it.  Take an upload call that passes the validation
    and creates its temporary file.  When the content is written to the
    file, the file is gone when the call ends, on every path out of it
    (reopening fails, the provider upload fails, the mapping of the answer
    fails, the call succeeds), and the file system is as before the call.
    When writing the content fails, the call ends with the temporary file
    still on the host and without having invoked the provider: the block
    that creates and writes the file lies before the [try ... finally] that
    removes it. *)
Theorem upload_staging_cleanup (settings : Settings.t)
    (service : MistralService.t) (str_of_exn : exn → string) (host : Host.t)
    (file : UploadFile.t) (w : World) :
  FileValidator.validate_pdf file (Settings.max_file_size_mb settings) = accepted →
  Host.read_error host = None →
  FileValidator.validate_file_size (UploadFile.body file)
    (Settings.max_file_size_mb settings) = accepted →
  Host.create_error host = None →
  fs w !! Host.tmp_path host = None →
  (Host.write_error host = None →
   fs (Main.upload_document settings (Some service) str_of_exn host file w).2 = fs w)
  ∧ (Host.write_error host ≠ None →
     fs (Main.upload_document settings (Some service) str_of_exn host file w).2
       !! Host.tmp_path host ≠ None
     ∧ calls (Main.upload_document settings (Some service) str_of_exn host file w).2
       = calls w
     ∧ ∃ e, (Main.upload_document settings (Some service) str_of_exn host file w).1
            = Raise e).
Proof.
  intros Hpdf Hread Hsize Hcreate Hfresh. split.
  - intros Hwrite.
    pose proof (stage_created host (UploadFile.body file) w Hcreate Hfresh) as Hstage.
    rewrite Hwrite in Hstage.
    exact (proj2 (proj2 (staged_upload_released settings service str_of_exn host file
                           w _ _ Hstage))).
  - intros Hwrite. destruct (Host.write_error host) as [e|] eqn:He; [|done].
    rewrite (upload_write_failure_world settings service str_of_exn host file w e)
      by done.
    cbn [fs calls]. split; [by rewrite lookup_insert_eq |]. split; [done |].
    unfold Main.upload_document. rewrite Hpdf. cbn [accepted negb].
    unfold Main.wrap, try_except, HostIO.read. rewrite Hread.
    unfold mbind at 1, M_bind at 1. cbn [mret M_ret].
    rewrite Hsize. cbn [accepted negb].
    unfold mbind at 1, M_bind at 1.
    rewrite (stage_created _ _ _ Hcreate Hfresh), He.
    destruct (is_HTTPException e); eexists; reflexivity.
Qed.

(** The failing call: the disk is full when the content is written.  On a
    host that can write, the same call leaves no file behind. *)
Lemma upload_staging_cleanup_witness :
  fs empty_world !! Host.tmp_path full_disk_host = None
  ∧ fs (Main.upload_document Settings.default (Some accepting_service) sample_str
          full_disk_host sample_upload empty_world).2
      !! Host.tmp_path full_disk_host
    ≠ None
  ∧ calls (Main.upload_document Settings.default (Some accepting_service) sample_str
             full_disk_host sample_upload empty_world).2
    = []
  ∧ fs (Main.upload_document Settings.default (Some accepting_service) sample_str
          sample_host sample_upload empty_world).2
    = ∅.
Proof.
  destruct (upload_staging_cleanup Settings.default accepting_service sample_str
              full_disk_host sample_upload empty_world
              eq_refl eq_refl eq_refl eq_refl eq_refl) as [_ Hleak].
  destruct (Hleak ltac:(discriminate)) as (Hfile & Hcalls & _).
  destruct (upload_staging_cleanup Settings.default accepting_service sample_str
              sample_host sample_upload empty_world
              eq_refl eq_refl eq_refl eq_refl eq_refl) as [Hclean _].
  split; [reflexivity |]. split; [exact Hfile |]. split; [exact Hcalls |].
  exact (Hclean eq_refl).
Defined.

(** The case the claim names: the provider refuses the upload.  The call
    fails with status 500 and the staged file is removed all the same. *)
Lemma upload_provider_failure (settings : Settings.t) (service : MistralService.t)
    (str_of_exn : exn → string) (host : Host.t) (file : UploadFile.t)
    (w w1 : World) (path : string) (e : exn) :
  FileValidator.validate_pdf file (Settings.max_file_size_mb settings) = accepted →
  Host.read_error host = None →
  FileValidator.validate_file_size (UploadFile.body file)
    (Settings.max_file_size_mb settings) = accepted →
  HostIO.stage host (UploadFile.body file) w = (Ok path, w1) →
  Host.open_error host = None →
  Mistral.files_upload (MistralService.client service) (calls w)
    (UploadFile.filename file) (UploadFile.body file) "ocr" = Raise e →
  is_HTTPException e = false →
  Main.upload_document settings (Some service) str_of_exn host file w
  = (Raise (HTTPException 500 ("failed to upload file: " +:+ str_of_exn e)),
     {| calls := calls w ++ [FilesUpload (UploadFile.filename file)
                               (UploadFile.body file) "ocr"];
        fs := fs w |}).
Proof.
  intros Hpdf Hread Hsize Hstage Hopen Hup He.
  pose proof (stage_ok _ _ _ _ _ Hstage) as (-> & Hfresh & ->).
  unfold Main.upload_document. rewrite Hpdf. cbn [accepted negb].
  unfold try_except, HostIO.read. rewrite Hread.
  unfold mbind at 1, M_bind at 1. cbn [mret M_ret].
  rewrite Hsize. cbn [accepted negb].
  unfold mbind at 1, M_bind at 1. rewrite Hstage.
  unfold mbind, M_bind, try_finally, HostIO.open_rb, HostIO.exists_,
    HostIO.unlink, MistralService.upload_file, invoke.
  rewrite Hopen. cbn [fs calls HostIO.set_fs].
  rewrite lookup_insert_eq. cbn [fs calls HostIO.set_fs fst snd]. rewrite Hup.
  cbn [fs calls HostIO.set_fs fst snd].
  rewrite bool_decide_eq_true_2 by (by rewrite lookup_insert_eq).
  cbn [fs calls HostIO.set_fs]. rewrite He. unfold raise, Main.wrap.
  by rewrite delete_insert_eq, (delete_id _ _ Hfresh).
Qed.

Lemma uninitialized_service_witness :
  Main.serve Settings.default (Main.startup (λ _, sample_client) None)
    sample_str sample_host
    [ Main.GetHealth;
      Main.PostDocumentsUpload sample_upload;
      Main.GetSignedUrl "file-0123456789" (Some 24);
      Main.PostQaConversation (conversation [message "user" "A"]) ]
    empty_world
  = ([ Ok (Main.RJson (VDict [("status", VStr "healthy");
                              ("mistral_service_initialized", VBool false)]));
       Raise (HTTPException 500 "mistral service not initialized");
       Raise (HTTPException 500 "mistral service not initialized");
       Raise (HTTPException 500 "mistral service not initialized") ],
     empty_world).
Proof.
  exact (proj1 (proj2 (uninitialized_service (λ _, sample_client) None
                         Settings.default sample_str sample_host
                         [ Main.GetHealth;
                           Main.PostDocumentsUpload sample_upload;
                           Main.GetSignedUrl "file-0123456789" (Some 24);
                           Main.PostQaConversation (conversation [message "user" "A"]) ]
                         empty_world eq_refl))).
Defined.

(** C9 as stated fails on the health route (and on the root route): with
    the service not initialised the call is answered, not refused. *)
Lemma uninitialized_health_counterexample :
  Main.handle Settings.default None sample_str sample_host Main.GetHealth empty_world
  = (Ok (Main.RJson (VDict [("status", VStr "healthy");
                            ("mistral_service_initialized", VBool false)])),
     empty_world)
  ∧ Main.handle Settings.default None sample_str sample_host Main.GetHealth empty_world
    ≠ (Raise (HTTPException 500 "mistral service not initialized"), empty_world).
Proof. split; [reflexivity | discriminate]. Qed.

Lemma get_signed_url_zero_is_absent_witness :
  calls (MistralService.get_signed_url sample_service "file-0123456789" (Some 0)
           empty_world).2
  = [FilesGetSignedUrl "file-0123456789" None]
  ∧ calls (MistralService.get_signed_url sample_service "file-0123456789" (Some 24)
             empty_world).2
    = [FilesGetSignedUrl "file-0123456789" (Some 24)].
Proof.
  destruct (get_signed_url_zero_is_absent sample_service "file-0123456789")
    as (Hzero & Hnone & Hsome).
  split.
  - rewrite Hzero, Hnone. reflexivity.
  - rewrite Hsome by discriminate. reflexivity.
Defined.

(** ** Router: the streaming conversation handler *)

(** X20.  The streaming twin of the conversation handler has no clause that lets
    an [HTTPException] through: a refused conversation is reported with
    status 500, the refusal in its detail, and again the provider is not
    asked. *)
Lemma conversation_stream_rejected (service : MistralService.t)
    (str_of_exn : exn → string) (request : DocumentConversationRequest.t)
    (e : exn) (w : World) :
  Main.derive_conversation (DocumentConversationRequest.messages request) = Raise e →
  Main.query_document_conversation_stream (Some service) str_of_exn request w
  = (Raise (HTTPException 500 ("failed to stream query: " +:+ str_of_exn e)), w).
Proof.
  intros H.
  unfold Main.query_document_conversation_stream, try_except, mbind, M_bind, lift.
  by rewrite H.
Qed.

(** * Further properties of the code *)

(** ** Validator, service construction, formatters and frames *)

(** X1.  Identifier validation accepts exactly the identifiers of at least
    ten characters; the empty identifier is refused as required, a shorter
    one as of invalid format. *)
Theorem validate_file_id_length (file_id : string) :
  (FileValidator.validate_file_id file_id = accepted
   ↔ (10 ≤ String.length file_id)%nat)
  ∧ (file_id = "" →
     FileValidator.validate_file_id file_id = (false, "file_id is required"))
  ∧ ((0 < String.length file_id < 10)%nat →
     FileValidator.validate_file_id file_id = rejected InvalidIdentifier).
Proof.
  unfold FileValidator.validate_file_id, PyStr.len.
  split; [|split].
  - destruct file_id as [|c s]; [simpl; split; [discriminate | lia] |].
    cbn [PyStr.truthy negb].
    destruct (Nat.ltb_spec (String.length (String c s)) 10); split;
      try done; try lia.
  - by intros ->.
  - intros [Hpos Hlt]. destruct file_id as [|c s]; [simpl in Hpos; lia |].
    cbn [PyStr.truthy negb].
    by destruct (Nat.ltb_spec (String.length (String c s)) 10); [|lia].
Qed.

Lemma validate_file_id_length_witness :
  FileValidator.validate_file_id "a1b2c3d4e5" = accepted
  ∧ FileValidator.validate_file_id "a1b2c3d4e" = rejected InvalidIdentifier
  ∧ FileValidator.validate_file_id "" = (false, "file_id is required").
Proof.
  split; [|split].
  - apply (proj1 (validate_file_id_length "a1b2c3d4e5")). simpl. lia.
  - apply (proj2 (proj2 (validate_file_id_length "a1b2c3d4e"))). simpl. lia.
  - apply (proj1 (proj2 (validate_file_id_length ""))). reflexivity.
Defined.

(** X2.  Construction of the service: a non-empty key given as argument is
    used, whatever the environment holds; without one (none, or the empty
    string) a non-empty key of the environment is used; without either the
    construction raises [ValueError]. *)
Theorem init_key_precedence (connect : string → Mistral.t)
    (environ_key api_key : option string) :
  (∀ k, api_key = Some k → k ≠ "" →
     MistralService.init connect environ_key api_key
     = Ok {| MistralService.api_key := k; MistralService.client := connect k |})
  ∧ (∀ k, opt_str_truthy api_key = false → environ_key = Some k → k ≠ "" →
       MistralService.init connect environ_key api_key
       = Ok {| MistralService.api_key := k; MistralService.client := connect k |})
  ∧ (opt_str_truthy api_key = false → opt_str_truthy environ_key = false →
     MistralService.init connect environ_key api_key
     = Raise (ValueError "mistral_api_key not found in environment variables")).
Proof.
  unfold MistralService.init. split; [|split].
  - intros k -> Hk. by destruct k.
  - intros k -> -> Hk. by destruct k.
  - intros -> Henv. by destruct environ_key as [[|c k]|].
Qed.

Lemma init_key_precedence_witness :
  MistralService.api_key
    <$> (match MistralService.init (λ _, sample_client) (Some "env_key") (Some "test_key")
         with Ok service => Some service | Raise _ => None end)
  = Some "test_key"
  ∧ MistralService.api_key
      <$> (match MistralService.init (λ _, sample_client) (Some "env_key") (Some "")
           with Ok service => Some service | Raise _ => None end)
    = Some "env_key"
  ∧ MistralService.init (λ _, sample_client) (Some "") None
    = Raise (ValueError "mistral_api_key not found in environment variables").
Proof.
  destruct (init_key_precedence (λ _, sample_client) (Some "env_key") (Some "test_key"))
    as (Harg & _ & _).
  destruct (init_key_precedence (λ _, sample_client) (Some "env_key") (Some ""))
    as (_ & Henv & _).
  destruct (init_key_precedence (λ _, sample_client) (Some "") None)
    as (_ & _ & Hnone).
  split; [|split].
  - by rewrite (Harg "test_key" eq_refl ltac:(discriminate)).
  - by rewrite (Henv "env_key" eq_refl eq_refl ltac:(discriminate)).
  - exact (Hnone eq_refl eq_refl).
Defined.

(** X3.  The frames on the wire.  The frames of a streaming response
    follow each other without a separator.  For every stream, whether it is
    exhausted or fails, a client that cuts what it receives into server-sent
    events and reads the data of each as JSON finds one content event for
    each increment relayed, with the code units of its text and in order,
    then the completion event when the stream was exhausted, and nothing
    else: whatever the text holds, it neither ends its frame early nor
    starts another event. *)
Theorem frames_on_the_wire (stream : Stream.t) :
  forallb PyText.valid (omap increment_text (Stream.chunks stream)) = true →
  List.map read_payload
    (Sse.events (wire (StreamingResponse.body (Main.generate stream))))
  = (List.map (λ text, Some (Content (Utf16.encode text)))
       (omap increment_text (Stream.chunks stream))
     ++ match Stream.failure stream with
        | None => [Some Done]
        | Some _ => []
        end)%list
  ∧ length (Sse.events (wire (StreamingResponse.body (Main.generate stream))))
    = length (StreamingResponse.body (Main.generate stream)).
Proof.
  intros Hvalid.
  assert (∃ payloads,
             StreamingResponse.body (Main.generate stream) = List.map Main.sse payloads
             ∧ Forall (λ payload, printable (Json.dumps payload) = true) payloads
             ∧ List.map read_payload (List.map Json.dumps payloads)
               = (List.map (λ text, Some (Content (Utf16.encode text)))
                    (omap increment_text (Stream.chunks stream))
                  ++ match Stream.failure stream with
                     | None => [Some Done]
                     | Some _ => []
                     end)%list) as (payloads & -> & Hprintable & Hread).
  { rewrite forallb_forall in Hvalid.
    assert (Forall (λ payload, printable (Json.dumps payload) = true)
              (List.map (λ text, VDict [("content", VText text)])
                 (omap increment_text (Stream.chunks stream)))) as Hcontent.
    { apply List.Forall_forall. intros payload (text & <- & Hin)%in_map_iff.
      by apply printable_content_payload, Hvalid. }
    assert (List.map read_payload
              (List.map Json.dumps
                 (List.map (λ text, VDict [("content", VText text)])
                    (omap increment_text (Stream.chunks stream))))
            = List.map (λ text, Some (Content (Utf16.encode text)))
                (omap increment_text (Stream.chunks stream))) as Hevents.
    { rewrite !List.map_map. apply List.map_ext_in.
      intros text Hin. by apply read_content_payload, Hvalid. }
    unfold Main.generate. rewrite generate_loop_texts.
    destruct (Stream.failure stream) as [e|]; cbn [StreamingResponse.body].
    - exists (List.map (λ text, VDict [("content", VText text)])
                (omap increment_text (Stream.chunks stream))).
      split; [by rewrite List.map_map |]. split; [done |].
      by rewrite Hevents, app_nil_r.
    - exists (List.map (λ text, VDict [("content", VText text)])
                (omap increment_text (Stream.chunks stream))
              ++ [VDict [("done", VBool true)]])%list.
      split; [by rewrite List.map_app, List.map_map |].
      split; [apply Forall_app; split; [done | by repeat constructor] |].
      by rewrite !List.map_app, Hevents. }
  rewrite events_wire by done.
  split; [exact Hread | by rewrite !length_map].
Qed.

Lemma frames_on_the_wire_witness :
  List.map read_payload
    (Sse.events
       (wire (StreamingResponse.body
                (Main.generate
                   {| Stream.chunks :=
                        List.map text_increment
                          [PyText.of_str "Hi"; [10; 10; 128512]%N; PyText.of_str "data: x"];
                      Stream.failure := Some (SDKError "connection lost") |}))))
  = [ Some (Content (PyText.of_str "Hi"));
      Some (Content [10; 10; 55357; 56832]%N);
      Some (Content (PyText.of_str "data: x")) ].
Proof.
  exact (proj1 (frames_on_the_wire
                  {| Stream.chunks :=
                       List.map text_increment
                         [PyText.of_str "Hi"; [10; 10; 128512]%N; PyText.of_str "data: x"];
                     Stream.failure := Some (SDKError "connection lost") |} eq_refl)).
Defined.

(** X4.  The optional keys of the two envelope formatters: the error record
    always has its error and status code and has the detail exactly for a
    non-empty detail; the success record always has its flag and message and
    has the data exactly for a dictionary that is not empty. *)
Theorem format_optional_keys (error message : string) (detail : option string)
    (status_code : Z) (data : option (list (string * PyVal))) :
  (∃ d, ResponseFormatter.format_error error detail status_code = VDict d
        ∧ PyDict.get d "error" = Some (VStr error)
        ∧ PyDict.get d "status_code" = Some (VInt status_code)
        ∧ (∀ s, detail = Some s → s ≠ "" → PyDict.get d "detail" = Some (VStr s))
        ∧ (opt_str_truthy detail = false → PyDict.mem d "detail" = false))
  ∧ (∃ d, ResponseFormatter.format_success message data = VDict d
          ∧ PyDict.get d "success" = Some (VBool true)
          ∧ PyDict.get d "message" = Some (VStr message)
          ∧ (∀ entries, data = Some entries → entries ≠ [] →
               PyDict.get d "data" = Some (VDict entries))
          ∧ (opt_list_truthy data = false → PyDict.mem d "data" = false)).
Proof.
  split.
  - unfold ResponseFormatter.format_error.
    destruct detail as [[|c s]|]; simpl; eexists;
      (split; [reflexivity |]); (split; [reflexivity |]);
      (split; [reflexivity |]); split; try done.
    + by intros ? [= <-].
    + by intros ? [= <-].
  - unfold ResponseFormatter.format_success.
    destruct data as [[|kv entries]|]; simpl; eexists;
      (split; [reflexivity |]); (split; [reflexivity |]);
      (split; [reflexivity |]); split; try done.
    + by intros ? [= <-].
    + by intros ? [= <-].
Qed.



(** X6.  The health route after start-up: it always answers, with status
    healthy, reports the service as initialised exactly when the environment
    held a non-empty key, and changes nothing. *)
Theorem health_reports_startup (connect : string → Mistral.t)
    (environ_key : option string) (w : World) :
  Main.health_check (Main.startup connect environ_key) w
  = (Ok (VDict [("status", VStr "healthy");
                ("mistral_service_initialized", VBool (opt_str_truthy environ_key))]),
     w).
Proof. by destruct environ_key as [[|c k]|]. Qed.

(** X7.  When the upstream stream fails, the relay has sent one content
    frame for each increment delivered before, no completion frame is among
    its frames, and it ends with the exception of the stream. *)
Theorem stream_failure_no_done (chunks : list Chunk.t) (e : exn) :
  StreamingResponse.body
    (Main.generate {| Stream.chunks := chunks; Stream.failure := Some e |})
  = List.map content_event (omap increment_text chunks)
  ∧ (done_event ∉ StreamingResponse.body
        (Main.generate {| Stream.chunks := chunks; Stream.failure := Some e |}))
  ∧ StreamingResponse.error
      (Main.generate {| Stream.chunks := chunks; Stream.failure := Some e |})
    = Some e.
Proof.
  simpl. rewrite generate_loop_texts. split; [done |]. split; [|done].
  intros Hin. apply list_elem_of_fmap in Hin as (text & Heq & _).
  by apply (content_event_not_done text).
Qed.

(** ** Effects of the handlers *)

Section Effects.
Context {A B : Type}.

Lemma invokes_weaken (n n' : nat) (m : M A) :
  (n ≤ n')%nat → invokes_at_most n m → invokes_at_most n' m.
Proof. intros Hle H w. destruct (H w) as (cs & ? & ?). exists cs. split; [done | lia]. Qed.

Lemma invokes_ret (a : A) : invokes_at_most 0 (mret a : M A).
Proof. intros w. exists []. by rewrite app_nil_r. Qed.

Lemma invokes_raise (e : exn) : invokes_at_most 0 (raise e : M A).
Proof. intros w. exists []. by rewrite app_nil_r. Qed.

Lemma invokes_lift (r : Res A) : invokes_at_most 0 (lift r).
Proof. intros w. exists []. by rewrite app_nil_r. Qed.

Lemma invokes_invoke (c : ProviderCall) (answer : list ProviderCall → Res A) :
  invokes_at_most 1 (invoke c answer).
Proof. intros w. by exists [c]. Qed.

Lemma invokes_bind (n1 n2 : nat) (m : M A) (k : A → M B) :
  invokes_at_most n1 m → (∀ a, invokes_at_most n2 (k a)) →
  invokes_at_most (n1 + n2) (m ≫= k).
Proof.
  intros Hm Hk w. unfold mbind, M_bind.
  destruct (Hm w) as (cs1 & H1 & Hl1). destruct (m w) as [[a|e] w1]; simpl in *.
  - destruct (Hk a w1) as (cs2 & H2 & Hl2). exists (cs1 ++ cs2)%list.
    rewrite H2, H1, app_assoc, length_app. split; [done | lia].
  - exists cs1. split; [done | lia].
Qed.

Lemma invokes_try_except (n : nat) (body : M A) (handler : exn → M A) :
  invokes_at_most n body → (∀ e, invokes_at_most 0 (handler e)) →
  invokes_at_most n (try_except body handler).
Proof.
  intros Hb Hh w. unfold try_except.
  destruct (Hb w) as (cs1 & H1 & Hl1). destruct (body w) as [[a|e] w1]; simpl in *.
  - by exists cs1.
  - destruct (Hh e w1) as (cs2 & H2 & Hl2). destruct cs2; [|simpl in Hl2; lia].
    exists cs1. rewrite H2, app_nil_r. done.
Qed.

Lemma invokes_try_finally (n : nat) (body : M A) (final : M unit) :
  invokes_at_most n body → invokes_at_most 0 final →
  invokes_at_most n (try_finally body final).
Proof.
  intros Hb Hf w. unfold try_finally.
  destruct (Hb w) as (cs1 & H1 & Hl1). destruct (body w) as [r w1]; simpl in *.
  destruct (Hf w1) as (cs2 & H2 & Hl2). destruct cs2; [|simpl in Hl2; lia].
  rewrite app_nil_r in H2.
  destruct (final w1) as [[u|e] w2]; simpl in *; exists cs1; by rewrite H2.
Qed.

Lemma invokes_fmap (n : nat) (f : A → B) (m : M A) :
  invokes_at_most n m → invokes_at_most n (f <$> m).
Proof.
  intros Hm w. unfold fmap, M_fmap. destruct (Hm w) as (cs & H & Hl).
  destruct (m w) as [[a|e] w1]; by exists cs.
Qed.

Lemma keeps_ret (a : A) : keeps_files (mret a : M A).
Proof. done. Qed.

Lemma keeps_raise (e : exn) : keeps_files (raise e : M A).
Proof. done. Qed.

Lemma keeps_lift (r : Res A) : keeps_files (lift r).
Proof. done. Qed.

Lemma keeps_invoke (c : ProviderCall) (answer : list ProviderCall → Res A) :
  keeps_files (invoke c answer).
Proof. done. Qed.

Lemma keeps_bind (m : M A) (k : A → M B) :
  keeps_files m → (∀ a, keeps_files (k a)) → keeps_files (m ≫= k).
Proof.
  intros Hm Hk w. unfold mbind, M_bind. specialize (Hm w).
  destruct (m w) as [[a|e] w1]; simpl in *; [|done]. by rewrite Hk.
Qed.

Lemma keeps_try_except (body : M A) (handler : exn → M A) :
  keeps_files body → (∀ e, keeps_files (handler e)) →
  keeps_files (try_except body handler).
Proof.
  intros Hb Hh w. unfold try_except. specialize (Hb w).
  destruct (body w) as [[a|e] w1]; simpl in *; [done |]. by rewrite Hh.
Qed.

Lemma keeps_fmap (f : A → B) (m : M A) : keeps_files m → keeps_files (f <$> m).
Proof.
  intros Hm w. unfold fmap, M_fmap. specialize (Hm w).
  by destruct (m w) as [[a|e] w1].
Qed.

End Effects.

Lemma invokes_reraise {A} (h : exn → exn) (e : exn) :
  invokes_at_most 0 (if is_HTTPException e then raise e else raise (h e) : M A).
Proof. destruct (is_HTTPException e); apply invokes_raise. Qed.

Lemma keeps_reraise {A} (h : exn → exn) (e : exn) :
  keeps_files (if is_HTTPException e then raise e else raise (h e) : M A).
Proof. by destruct (is_HTTPException e). Qed.

Lemma invokes_get_signed_url (service : MistralService.t) (file_id : string)
    (expiry_hours : option Z) :
  invokes_at_most 1 (MistralService.get_signed_url service file_id expiry_hours).
Proof.
  unfold MistralService.get_signed_url.
  destruct (opt_int_truthy expiry_hours); apply invokes_invoke.
Qed.

Lemma keeps_get_signed_url (service : MistralService.t) (file_id : string)
    (expiry_hours : option Z) :
  keeps_files (MistralService.get_signed_url service file_id expiry_hours).
Proof.
  unfold MistralService.get_signed_url. by destruct (opt_int_truthy expiry_hours).
Qed.

Lemma invokes_query_document (service : MistralService.t)
    (file_id question model : string) (history : option (list PyVal)) :
  invokes_at_most 2 (MistralService.query_document service file_id question model history).
Proof.
  apply (invokes_bind 1 1); [apply invokes_get_signed_url |].
  intros su. apply invokes_invoke.
Qed.

Lemma invokes_query_document_streaming (service : MistralService.t)
    (file_id question model : string) (history : option (list PyVal)) :
  invokes_at_most 2
    (MistralService.query_document_streaming service file_id question model history).
Proof.
  apply (invokes_bind 1 1); [apply invokes_get_signed_url |].
  intros su. apply invokes_invoke.
Qed.

Lemma keeps_query_document (service : MistralService.t)
    (file_id question model : string) (history : option (list PyVal)) :
  keeps_files (MistralService.query_document service file_id question model history).
Proof. apply keeps_bind; [apply keeps_get_signed_url | done]. Qed.

Lemma keeps_query_document_streaming (service : MistralService.t)
    (file_id question model : string) (history : option (list PyVal)) :
  keeps_files
    (MistralService.query_document_streaming service file_id question model history).
Proof. apply keeps_bind; [apply keeps_get_signed_url | done]. Qed.

Ltac effects :=
  repeat first
    [ progress intros
    | apply invokes_ret | apply invokes_raise | apply invokes_lift
    | apply invokes_reraise
    | apply invokes_fmap
    | apply invokes_try_except
    | apply invokes_try_finally
    | apply keeps_ret | apply keeps_raise | apply keeps_lift
    | apply keeps_invoke | apply keeps_reraise | apply keeps_fmap
    | apply keeps_try_except | apply keeps_bind
    | apply keeps_get_signed_url | apply keeps_query_document
    | apply keeps_query_document_streaming
    | match goal with |- keeps_files (let '(_, _) := ?p in _) => destruct p end
    | match goal with |- invokes_at_most _ (let '(_, _) := ?p in _) => destruct p end
    | match goal with |- keeps_files (match ?x with _ => _ end) => destruct x end
    | match goal with |- invokes_at_most _ (match ?x with _ => _ end) => destruct x end ].


Lemma invokes_host_read (host : Host.t) (file : UploadFile.t) :
  invokes_at_most 0 (HostIO.read host file).
Proof.
  unfold HostIO.read. destruct (Host.read_error host);
    [apply invokes_raise | apply invokes_ret].
Qed.

Lemma invokes_host_stage (host : Host.t) (content : list byte) :
  invokes_at_most 0 (HostIO.stage host content).
Proof.
  intros w. exists []. rewrite app_nil_r. unfold HostIO.stage.
  destruct (Host.create_error host); [done |].
  case_decide; [done |]. by destruct (Host.write_error host).
Qed.

Lemma invokes_host_open (host : Host.t) (path : string) :
  invokes_at_most 0 (HostIO.open_rb host path).
Proof.
  intros w. exists []. rewrite app_nil_r. unfold HostIO.open_rb.
  destruct (Host.open_error host); [done |]. by destruct (fs w !! path).
Qed.

Lemma invokes_host_exists (path : string) : invokes_at_most 0 (HostIO.exists_ path).
Proof. intros w. exists []. by rewrite app_nil_r. Qed.

Lemma invokes_host_unlink (path : string) : invokes_at_most 0 (HostIO.unlink path).
Proof. intros w. exists []. by rewrite app_nil_r. Qed.

Ltac count_calls :=
  intros;
  lazymatch goal with
  | |- invokes_at_most _ (try_except _ _) =>
      apply invokes_try_except; [count_calls | intros; count_calls]
  | |- invokes_at_most _ (try_finally _ _) =>
      apply invokes_try_finally; [count_calls | count_calls]
  | |- invokes_at_most _ (fmap _ _) => apply invokes_fmap; count_calls
  | |- invokes_at_most _ (let '(_, _) := ?p in _) => destruct p; count_calls
  | |- invokes_at_most _ (match ?x with _ => _ end) => destruct x; count_calls
  | |- invokes_at_most 2 (mbind _ _) =>
      first [ apply (invokes_bind 0 2); [solve [count_calls] | solve [count_calls]]
            | apply (invokes_bind 1 1); [solve [count_calls] | solve [count_calls]]
            | apply (invokes_bind 2 0); [solve [count_calls] | solve [count_calls]] ]
  | |- invokes_at_most 1 (mbind _ _) =>
      first [ apply (invokes_bind 0 1); [solve [count_calls] | solve [count_calls]]
            | apply (invokes_bind 1 0); [solve [count_calls] | solve [count_calls]] ]
  | |- invokes_at_most 0 (mbind _ _) =>
      apply (invokes_bind 0 0); [solve [count_calls] | solve [count_calls]]
  | |- invokes_at_most ?n _ =>
      first
        [ apply (invokes_weaken 0 n); [lia |];
          first [ apply invokes_ret | apply invokes_raise | apply invokes_lift
                | apply invokes_reraise | apply invokes_host_read
                | apply invokes_host_stage | apply invokes_host_open
                | apply invokes_host_exists | apply invokes_host_unlink ]
        | apply (invokes_weaken 1 n); [lia |];
          first [ apply invokes_invoke | apply invokes_get_signed_url ]
        | apply (invokes_weaken 2 n); [lia |];
          first [ apply invokes_query_document
                | apply invokes_query_document_streaming ] ]
  end.

(** X8.  A call only adds to the record of provider operations, and by at
    most the number its route allows: none for the root and health routes,
    one for a document route, two (signed URL, then OCR or chat) for an OCR
    or Q&A route; whether it succeeds or fails. *)
Theorem handlers_invoke_within_budget (settings : Settings.t)
    (mistral_service : option MistralService.t) (str_of_exn : exn → string)
    (host : Host.t) (req : Main.Request) (w : World) :
  ∃ cs,
    calls (Main.handle settings mistral_service str_of_exn host req w).2
    = (calls w ++ cs)%list
    ∧ (length cs ≤ provider_budget req)%nat.
Proof.
  revert w.
  change (invokes_at_most (provider_budget req)
            (Main.handle settings mistral_service str_of_exn host req)).
  destruct req; unfold Main.handle, provider_budget;
    unfold Main.root, Main.upload_document, Main.list_documents,
      Main.retrieve_document, Main.delete_document, Main.get_signed_url,
      Main.query_ocr, Main.query_document, Main.query_document_conversation,
      Main.query_document_stream, Main.query_document_conversation_stream,
      Main.health_check, MistralService.upload_file, MistralService.list_files,
      MistralService.retrieve_file, MistralService.delete_file,
      MistralService.process_ocr;
    count_calls.
Qed.

(** X9.  No route but the upload touches the files of the host, whatever the
    provider answers. *)
Theorem handlers_keep_files (settings : Settings.t)
    (mistral_service : option MistralService.t) (str_of_exn : exn → string)
    (host : Host.t) (req : Main.Request) (w : World) :
  is_upload req = false →
  fs (Main.handle settings mistral_service str_of_exn host req w).2 = fs w.
Proof.
  intros Hreq. revert w. change (keeps_files (Main.handle settings mistral_service str_of_exn host req)).
  destruct req; try discriminate Hreq; unfold Main.handle;
    unfold Main.root, Main.list_documents, Main.retrieve_document,
      Main.delete_document, Main.get_signed_url, Main.query_ocr,
      Main.query_document, Main.query_document_conversation,
      Main.query_document_stream, Main.query_document_conversation_stream,
      Main.health_check, MistralService.list_files, MistralService.retrieve_file,
      MistralService.delete_file, MistralService.process_ocr;
    effects.
Qed.

Lemma handlers_keep_files_witness :
  fs (Main.handle Settings.default (Some accepting_service) sample_str sample_host
        (Main.PostQaQuery
           {| DocumentQARequest.file_id := "file-0123456789";
              DocumentQARequest.question := "what is this?";
              DocumentQARequest.model := "mistral-small-latest";
              DocumentQARequest.conversation_history := None |})
        {| calls := []; fs := {[ "/tmp/other.pdf" := [x25] ]} |}).2
  = {[ "/tmp/other.pdf" := [x25] ]}.
Proof.
  exact (handlers_keep_files Settings.default (Some accepting_service) sample_str
           sample_host
           (Main.PostQaQuery
              {| DocumentQARequest.file_id := "file-0123456789";
                 DocumentQARequest.question := "what is this?";
                 DocumentQARequest.model := "mistral-small-latest";
                 DocumentQARequest.conversation_history := None |})
           {| calls := []; fs := {[ "/tmp/other.pdf" := [x25] ]} |} eq_refl).
Defined.

(** ** Adapter: composition of the document queries *)

Lemma build_messages_order (history : option (list PyVal)) (question url : string) :
  MistralService.build_messages history question url
  = (getattr history [] ++ [question_turn question url])%list.
Proof. by destruct history as [[|m ms]|]. Qed.

(** X10.  Both document queries of the adapter, once the signed URL is
    obtained: the provider is asked for the URL without an expiry and then
    for a completion (a stream) with the given model and the history, in
    order, followed by one user turn holding the question and that URL; no
    history and an empty history give the same messages. *)
Theorem adapter_query_composes (service : MistralService.t)
    (file_id question model : string) (history : option (list PyVal))
    (signed_url : SignedUrl.t) (w : World) :
  Mistral.files_get_signed_url (MistralService.client service) (calls w) file_id None
  = Ok signed_url →
  let messages :=
    (getattr history [] ++ [question_turn question (SignedUrl.url signed_url)])%list in
  MistralService.query_document service file_id question model history w
  = (Mistral.chat_complete (MistralService.client service)
       (calls w ++ [FilesGetSignedUrl file_id None]) model messages,
     {| calls := calls w ++ [FilesGetSignedUrl file_id None; ChatComplete model messages];
        fs := fs w |})
  ∧ MistralService.query_document_streaming service file_id question model history w
    = (Mistral.chat_stream (MistralService.client service)
         (calls w ++ [FilesGetSignedUrl file_id None]) model messages,
       {| calls := calls w ++ [FilesGetSignedUrl file_id None; ChatStream model messages];
          fs := fs w |}).
Proof.
  intros Hurl messages. subst messages. rewrite <- build_messages_order.
  split; [by apply query_document_run | by apply query_document_streaming_run].
Qed.

Lemma adapter_query_composes_witness :
  calls (MistralService.query_document accepting_service "file-0123456789"
           "what is this?" "mistral-small-latest"
           (Some [Main.turn "user" "A"; Main.turn "assistant" "B"]) empty_world).2
  = [ FilesGetSignedUrl "file-0123456789" None;
      ChatComplete "mistral-small-latest"
        [ Main.turn "user" "A"; Main.turn "assistant" "B";
          question_turn "what is this?" "https://example.com/doc.pdf" ] ].
Proof.
  rewrite (proj1 (adapter_query_composes accepting_service "file-0123456789"
                    "what is this?" "mistral-small-latest"
                    (Some [Main.turn "user" "A"; Main.turn "assistant" "B"])
                    {| SignedUrl.url := "https://example.com/doc.pdf" |}
                    empty_world eq_refl)).
  reflexivity.
Defined.

(** X11.  When the signed URL cannot be obtained, both document queries of
    the adapter raise the provider's exception unchanged and the chat
    operation is never invoked. *)
Theorem adapter_query_stops_without_url (service : MistralService.t)
    (file_id question model : string) (history : option (list PyVal))
    (e : exn) (w : World) :
  Mistral.files_get_signed_url (MistralService.client service) (calls w) file_id None
  = Raise e →
  MistralService.query_document service file_id question model history w
  = (Raise e, {| calls := calls w ++ [FilesGetSignedUrl file_id None]; fs := fs w |})
  ∧ MistralService.query_document_streaming service file_id question model history w
    = (Raise e, {| calls := calls w ++ [FilesGetSignedUrl file_id None]; fs := fs w |}).
Proof.
  intros Hurl.
  unfold MistralService.query_document, MistralService.query_document_streaming,
    MistralService.get_signed_url, invoke, mbind, M_bind.
  cbn [opt_int_truthy]. cbv beta iota. by rewrite Hurl.
Qed.

Lemma adapter_query_stops_without_url_witness :
  MistralService.query_document unreachable_service "file-0123456789"
    "what is this?" "mistral-small-latest" None empty_world
  = (Raise (SDKError "connection refused"),
     {| calls := [FilesGetSignedUrl "file-0123456789" None]; fs := ∅ |}).
Proof.
  exact (proj1 (adapter_query_stops_without_url unreachable_service
                  "file-0123456789" "what is this?" "mistral-small-latest" None
                  (SDKError "connection refused") empty_world eq_refl)).
Defined.

(** ** Router: OCR *)

(** X12.  The OCR route asks for the signed URL without an expiry and then
    for OCR of that URL with the model mistral-ocr-latest and the image flag
    of the request; its pages are those of the provider in order; a failure
    of either operation is status 500, and after a failed URL retrieval OCR
    is not invoked. *)
Theorem query_ocr_composes (service : MistralService.t) (str_of_exn : exn → string)
    (request : OCRQueryRequest.t) (w : World) :
  let file_id := OCRQueryRequest.file_id request in
  let ask_url := FilesGetSignedUrl file_id None in
  (∀ e,
     Mistral.files_get_signed_url (MistralService.client service) (calls w) file_id None
     = Raise e →
     Main.query_ocr (Some service) str_of_exn request w
     = (Raise (HTTPException 500 ("failed to process ocr: " +:+ str_of_exn e)),
        {| calls := calls w ++ [ask_url]; fs := fs w |}))
  ∧ (∀ signed_url,
       Mistral.files_get_signed_url (MistralService.client service) (calls w) file_id None
       = Ok signed_url →
       let document :=
         VDict [("type", VStr "document_url");
                ("document_url", VStr (SignedUrl.url signed_url))] in
       let ask_ocr :=
         OcrProcess "mistral-ocr-latest" document
           (OCRQueryRequest.include_image_base64 request) in
       Main.query_ocr (Some service) str_of_exn request w
       = (match Mistral.ocr_process (MistralService.client service)
                  (calls w ++ [ask_url]) "mistral-ocr-latest" document
                  (OCRQueryRequest.include_image_base64 request) with
          | Ok ocr_response =>
              Ok {| OCRProcessResponse.pages :=
                      List.map Main.ocr_page (OcrResponse.pages ocr_response) |}
          | Raise e =>
              Raise (HTTPException 500 ("failed to process ocr: " +:+ str_of_exn e))
          end,
          {| calls := calls w ++ [ask_url; ask_ocr]; fs := fs w |})).
Proof.
  intros file_id ask_url. subst file_id ask_url.
  unfold Main.query_ocr, try_except, MistralService.process_ocr,
    MistralService.get_signed_url, invoke, mbind, M_bind, Main.wrap, raise.
  cbn [opt_int_truthy]. cbv beta iota. split.
  - intros e ->. reflexivity.
  - intros signed_url ->. cbn [calls fs].
    destruct (Mistral.ocr_process _ _ _ _ _) as [ocr_response|e];
      cbn [mret M_ret]; rewrite <- app_assoc; [|reflexivity].
    by rewrite ocr_loop_map.
Qed.

Lemma query_ocr_composes_witness :
  Main.query_ocr (Some accepting_service) sample_str
    {| OCRQueryRequest.file_id := "file-0123456789";
       OCRQueryRequest.include_image_base64 := false |} empty_world
  = (Ok {| OCRProcessResponse.pages :=
             [ {| OCRPage.index := 0; OCRPage.markdown := "# title";
                  OCRPage.image_base64 := None |} ] |},
     {| calls :=
          [ FilesGetSignedUrl "file-0123456789" None;
            OcrProcess "mistral-ocr-latest"
              (VDict [("type", VStr "document_url");
                      ("document_url", VStr "https://example.com/doc.pdf")])
              false ];
        fs := ∅ |}).
Proof.
  exact (proj2 (query_ocr_composes accepting_service sample_str
                  {| OCRQueryRequest.file_id := "file-0123456789";
                     OCRQueryRequest.include_image_base64 := false |} empty_world)
               {| SignedUrl.url := "https://example.com/doc.pdf" |} eq_refl).
Defined.

(** ** Router: upload *)

(** X13.  An upload refused by the filename check or by the size check fails
    with status 400 and the validator's message, unwrapped, before anything
    is done: no provider operation, no temporary file. *)
Theorem upload_rejected_before_effects (settings : Settings.t)
    (service : MistralService.t) (str_of_exn : exn → string) (host : Host.t)
    (file : UploadFile.t) (w : World) :
  (∀ msg,
     FileValidator.validate_pdf file (Settings.max_file_size_mb settings)
     = (false, msg) →
     Main.upload_document settings (Some service) str_of_exn host file w
     = (Raise (HTTPException 400 msg), w))
  ∧ (∀ msg,
       FileValidator.validate_pdf file (Settings.max_file_size_mb settings)
       = accepted →
       Host.read_error host = None →
       FileValidator.validate_file_size (UploadFile.body file)
         (Settings.max_file_size_mb settings) = (false, msg) →
       Main.upload_document settings (Some service) str_of_exn host file w
       = (Raise (HTTPException 400 msg), w)).
Proof.
  unfold Main.upload_document. split.
  - intros msg ->. reflexivity.
  - intros msg -> Hread Hsize. cbn [accepted negb].
    unfold try_except, HostIO.read. rewrite Hread.
    unfold mbind at 1, M_bind at 1. cbn [mret M_ret]. by rewrite Hsize.
Qed.

Lemma upload_rejected_before_effects_witness :
  Main.upload_document Settings.default (Some accepting_service) sample_str
    sample_host
    {| UploadFile.filename := Some "notes.txt"; UploadFile.body := [x25] |}
    empty_world
  = (Raise (HTTPException 400 "only pdf files are supported"), empty_world)
  ∧ Main.upload_document Settings.default (Some accepting_service) sample_str
      sample_host
      {| UploadFile.filename := Some "report.pdf"; UploadFile.body := [] |}
      empty_world
    = (Raise (HTTPException 400 "file is empty"), empty_world).
Proof.
  split.
  - exact (proj1 (upload_rejected_before_effects Settings.default accepting_service
                    sample_str sample_host
                    {| UploadFile.filename := Some "notes.txt"; UploadFile.body := [x25] |}
                    empty_world) _ eq_refl).
  - exact (proj2 (upload_rejected_before_effects Settings.default accepting_service
                    sample_str sample_host
                    {| UploadFile.filename := Some "report.pdf"; UploadFile.body := [] |}
                    empty_world) _ eq_refl eq_refl eq_refl).
Defined.

Lemma upload_response_raises (uploaded : FileObj.t) (content : list byte) (e : exn) :
  Main.upload_response uploaded content = Raise e → is_HTTPException e = false.
Proof.
  unfold Main.upload_response.
  destruct (FileObj.id uploaded), (FileObj.object uploaded),
    (FileObj.created_at uploaded), (FileObj.filename uploaded),
    (FileObj.purpose uploaded); simpl; intros [=]; by subst.
Qed.

(** X14.  A valid upload on a sound host: the provider receives, in one
    operation, the filename and exactly the bytes of the request with
    purpose ocr; the response is the mapped file object, or status 500 when
    a required attribute is missing from the provider's answer; the
    temporary file is gone. *)
Theorem upload_end_to_end (settings : Settings.t) (service : MistralService.t)
    (str_of_exn : exn → string) (host : Host.t) (file : UploadFile.t)
    (uploaded : FileObj.t) (w : World) :
  FileValidator.validate_pdf file (Settings.max_file_size_mb settings) = accepted →
  Host.read_error host = None →
  FileValidator.validate_file_size (UploadFile.body file)
    (Settings.max_file_size_mb settings) = accepted →
  Host.create_error host = None →
  fs w !! Host.tmp_path host = None →
  Host.write_error host = None →
  Host.open_error host = None →
  Mistral.files_upload (MistralService.client service) (calls w)
    (UploadFile.filename file) (UploadFile.body file) "ocr" = Ok uploaded →
  Main.upload_document settings (Some service) str_of_exn host file w
  = (match Main.upload_response uploaded (UploadFile.body file) with
     | Ok response => Ok response
     | Raise e => Raise (HTTPException 500 ("failed to upload file: " +:+ str_of_exn e))
     end,
     {| calls := calls w ++ [FilesUpload (UploadFile.filename file)
                               (UploadFile.body file) "ocr"];
        fs := fs w |}).
Proof.
  intros Hpdf Hread Hsize Hcreate Hfresh Hwrite Hopen Hup.
  unfold Main.upload_document. rewrite Hpdf. cbn [accepted negb].
  unfold try_except, HostIO.read. rewrite Hread.
  unfold mbind at 1, M_bind at 1. cbn [mret M_ret].
  rewrite Hsize. cbn [accepted negb].
  unfold mbind, M_bind, try_finally, HostIO.stage, HostIO.open_rb, HostIO.exists_,
    HostIO.unlink, MistralService.upload_file, invoke, lift.
  rewrite Hcreate, Hwrite, Hopen.
  rewrite decide_False by (rewrite Hfresh; by intros [? ?]).
  cbn [fs calls HostIO.set_fs fst snd].
  rewrite lookup_insert_eq. cbn [fs calls HostIO.set_fs fst snd]. rewrite Hup.
  cbn [fs calls HostIO.set_fs fst snd].
  rewrite bool_decide_eq_true_2 by (by rewrite lookup_insert_eq).
  cbn [fs calls HostIO.set_fs].
  rewrite delete_insert_eq, (delete_id _ _ Hfresh).
  destruct (Main.upload_response uploaded (UploadFile.body file)) as [r|e] eqn:Hmap;
    [reflexivity |].
  by rewrite (upload_response_raises _ _ _ Hmap).
Qed.

Lemma upload_end_to_end_witness :
  Main.upload_document Settings.default (Some accepting_service) sample_str
    sample_host sample_upload empty_world
  = (Ok {| FileUploadResponse.id := "file-0123456789";
           FileUploadResponse.object := "file";
           FileUploadResponse.bytes := 4;
           FileUploadResponse.created_at := 1234567890;
           FileUploadResponse.filename := "report.pdf";
           FileUploadResponse.purpose := "ocr";
           FileUploadResponse.sample_type := "ocr_input";
           FileUploadResponse.num_lines := 0;
           FileUploadResponse.mimetype := "application/pdf";
           FileUploadResponse.source := "upload";
           FileUploadResponse.signature := "abc123" |},
     {| calls := [FilesUpload (Some "report.pdf") [x25; x50; x44; x46] "ocr"];
        fs := ∅ |}).
Proof.
  exact (upload_end_to_end Settings.default accepting_service sample_str sample_host
           sample_upload sample_file empty_world
           eq_refl eq_refl eq_refl eq_refl eq_refl eq_refl eq_refl eq_refl).
Defined.

(** X15.  When writing the temporary file fails after its creation, the
    upload fails with status 500 without asking the provider, and the
    created file is left on the host: the clean-up clause covers the upload
    step only. *)
Theorem upload_write_failure_leaks (settings : Settings.t)
    (service : MistralService.t) (str_of_exn : exn → string) (host : Host.t)
    (file : UploadFile.t) (w : World) (e : exn) :
  FileValidator.validate_pdf file (Settings.max_file_size_mb settings) = accepted →
  Host.read_error host = None →
  FileValidator.validate_file_size (UploadFile.body file)
    (Settings.max_file_size_mb settings) = accepted →
  Host.create_error host = None →
  fs w !! Host.tmp_path host = None →
  Host.write_error host = Some e →
  is_HTTPException e = false →
  Main.upload_document settings (Some service) str_of_exn host file w
  = (Raise (HTTPException 500 ("failed to upload file: " +:+ str_of_exn e)),
     {| calls := calls w; fs := <[Host.tmp_path host := []]> (fs w) |}).
Proof.
  intros Hpdf Hread Hsize Hcreate Hfresh Hwrite He.
  unfold Main.upload_document. rewrite Hpdf. cbn [accepted negb].
  unfold try_except, HostIO.read. rewrite Hread.
  unfold mbind at 1, M_bind at 1. cbn [mret M_ret].
  rewrite Hsize. cbn [accepted negb].
  unfold mbind at 1, M_bind at 1, HostIO.stage.
  rewrite Hcreate, Hwrite.
  rewrite decide_False by (rewrite Hfresh; by intros [? ?]).
  by rewrite He.
Qed.

Lemma upload_write_failure_leaks_witness :
  Main.upload_document Settings.default (Some accepting_service) sample_str
    full_disk_host sample_upload empty_world
  = (Raise (HTTPException 500 "failed to upload file: [Errno 28] No space left on device"),
     {| calls := []; fs := {[ "/tmp/tmpab12cd34.pdf" := [] ]} |}).
Proof.
  exact (upload_write_failure_leaks Settings.default accepting_service sample_str
           full_disk_host sample_upload empty_world
           (OSError "[Errno 28] No space left on device")
           eq_refl eq_refl eq_refl eq_refl eq_refl eq_refl eq_refl).
Defined.

(** ** Router: listing and retrieval *)

Lemma list_loop_ok (data : list FileObj.t) (rs acc : list FileRetrieveResponse.t) :
  Forall2 (λ f r, Main.retrieve_response f = Ok r) data rs →
  Main.list_loop data acc = Ok (acc ++ rs)%list.
Proof.
  intros H. revert acc. induction H as [|f r data rs Hf _ IH]; intros acc; simpl.
  - by rewrite app_nil_r.
  - rewrite Hf. simpl. by rewrite IH, <- app_assoc.
Qed.

Lemma list_loop_raises (data : list FileObj.t) (acc : list FileRetrieveResponse.t) :
  Exists (λ f, ∃ e, Main.retrieve_response f = Raise e) data →
  ∃ e, Main.list_loop data acc = Raise e.
Proof.
  intros H. revert acc. induction H as [f data [e He]|f data _ IH]; intros acc; simpl.
  - rewrite He. by exists e.
  - destruct (Main.retrieve_response f) as [r|e]; simpl; [apply IH | by exists e].
Qed.

(** X16.  Listing invokes one provider operation.  Without a data attribute
    the list is empty with total 0; when every file maps, the response holds
    the mapped files in order and their number as total; when one file lacks
    a required attribute the whole listing fails with status 500. *)
Theorem list_documents_all_or_nothing (service : MistralService.t)
    (str_of_exn : exn → string) (files : FileList.t) (w : World) :
  Mistral.files_list (MistralService.client service) (calls w) = Ok files →
  (Main.list_documents (Some service) str_of_exn w).2
  = {| calls := calls w ++ [FilesList]; fs := fs w |}
  ∧ (FileList.data files = None →
     (Main.list_documents (Some service) str_of_exn w).1
     = Ok {| FileListResponse.files := []; FileListResponse.total := 0 |})
  ∧ (∀ data rs,
       FileList.data files = Some data →
       Forall2 (λ f r, Main.retrieve_response f = Ok r) data rs →
       (Main.list_documents (Some service) str_of_exn w).1
       = Ok {| FileListResponse.files := rs;
               FileListResponse.total := Z.of_nat (length data) |})
  ∧ (∀ data,
       FileList.data files = Some data →
       Exists (λ f, ∃ e, Main.retrieve_response f = Raise e) data →
       ∃ e, (Main.list_documents (Some service) str_of_exn w).1
            = Raise (HTTPException 500 ("failed to list files: " +:+ str_of_exn e))).
Proof.
  intros Hlist.
  unfold Main.list_documents, try_except, MistralService.list_files, invoke,
    mbind, M_bind, lift, Main.wrap, raise.
  rewrite Hlist. cbn [fst snd].
  split; [|split; [|split]].
  - destruct (FileList.data files) as [data|]; [|reflexivity].
    by destruct (Main.list_loop data []).
  - intros ->. reflexivity.
  - intros data rs -> Hall. rewrite (list_loop_ok _ _ [] Hall). cbn [fst app].
    by rewrite (Forall2_length _ _ _ Hall).
  - intros data -> Hbad. destruct (list_loop_raises _ [] Hbad) as [e ->].
    by exists e.
Qed.

Lemma list_documents_all_or_nothing_witness :
  (Main.list_documents (Some accepting_service) sample_str empty_world).2
  = {| calls := [FilesList]; fs := ∅ |}
  ∧ FileListResponse.total
      <$> (match (Main.list_documents (Some accepting_service) sample_str empty_world).1
           with Ok r => Some r | Raise _ => None end)
    = Some 2.
Proof.
  destruct (list_documents_all_or_nothing accepting_service sample_str
              {| FileList.data := Some [sample_file; sample_file] |} empty_world eq_refl)
    as (Hworld & _ & Hall & _).
  split; [exact Hworld |].
  erewrite (Hall [sample_file; sample_file] _ eq_refl);
    [reflexivity |].
  repeat constructor.
Defined.

(** X17.  Retrieval invokes one provider operation and reports every
    failure with status 404, that of the provider as well as a required
    attribute missing from the file object it returned. *)
Theorem retrieve_failures_are_404 (service : MistralService.t)
    (str_of_exn : exn → string) (file_id : string) (w : World) :
  Main.retrieve_document (Some service) str_of_exn file_id w
  = (match Mistral.files_retrieve (MistralService.client service) (calls w) file_id with
     | Ok retrieved =>
         match Main.retrieve_response retrieved with
         | Ok response => Ok response
         | Raise e => Raise (HTTPException 404 ("file not found: " +:+ str_of_exn e))
         end
     | Raise e => Raise (HTTPException 404 ("file not found: " +:+ str_of_exn e))
     end,
     {| calls := calls w ++ [FilesRetrieve file_id]; fs := fs w |}).
Proof.
  unfold Main.retrieve_document, try_except, MistralService.retrieve_file, invoke,
    mbind, M_bind, lift, Main.wrap, raise.
  destruct (Mistral.files_retrieve _ _ _) as [retrieved|e]; cbn [fst snd];
    [|reflexivity].
  by destruct (Main.retrieve_response retrieved).
Qed.

(** ** Router: errors are HTTP errors *)

Lemma try_except_wraps {A} (body : M A) (handler : exn → M A) (w : World) (e : exn) :
  (∀ e0 w0, is_HTTPException e0 = false →
            ∃ e1, handler e0 w0 = (Raise e1, w0) ∧ is_HTTPException e1 = true) →
  (∀ e0 w0, is_HTTPException e0 = true →
            ∃ e1, handler e0 w0 = (Raise e1, w0) ∧ is_HTTPException e1 = true) →
  (try_except body handler w).1 = Raise e → is_HTTPException e = true.
Proof.
  intros Hother Hhttp. unfold try_except.
  destruct (body w) as [[a|e0] w0]; [discriminate |].
  destruct (is_HTTPException e0) eqn:He0.
  - destruct (Hhttp e0 w0 He0) as (e1 & -> & He1). by intros [= <-].
  - destruct (Hother e0 w0 He0) as (e1 & -> & He1). by intros [= <-].
Qed.

Lemma fmap_outcome {A B} (f : A → B) (m : M A) (w : World) (e : exn) :
  ((f <$> m) w).1 = Raise e → (m w).1 = Raise e.
Proof.
  unfold fmap, M_fmap. destruct (m w) as [[a|e0] w0]; simpl; [discriminate | by intros [= ->]].
Qed.

Ltac http_handler :=
  intros; unfold Main.wrap, raise;
  repeat match goal with
         | H : is_HTTPException _ = _ |- _ => rewrite H
         end;
  eexists; split; [reflexivity | done].

(** X18.  Whatever the provider and the host do, a handler that fails fails
    with an [HTTPException]: no other exception leaves a handler. *)
Theorem handlers_raise_http_only (settings : Settings.t)
    (mistral_service : option MistralService.t) (str_of_exn : exn → string)
    (host : Host.t) (req : Main.Request) (w : World) (e : exn) :
  (Main.handle settings mistral_service str_of_exn host req w).1 = Raise e →
  is_HTTPException e = true.
Proof.
  destruct req; unfold Main.handle; intros H; apply fmap_outcome in H; revert H;
    unfold Main.root, Main.upload_document, Main.list_documents,
      Main.retrieve_document, Main.delete_document, Main.get_signed_url,
      Main.query_ocr, Main.query_document, Main.query_document_conversation,
      Main.query_document_stream, Main.query_document_conversation_stream,
      Main.health_check;
    try discriminate;
    (destruct mistral_service as [service|]; [|by intros [= <-]]).
  - destruct (FileValidator.validate_pdf _ _) as [[] msg]; cbn [negb];
      [|by intros [= <-]].
    apply try_except_wraps; http_handler.
  - apply try_except_wraps; http_handler.
  - apply try_except_wraps; http_handler.
  - apply try_except_wraps; http_handler.
  - apply try_except_wraps; http_handler.
  - apply try_except_wraps; http_handler.
  - apply try_except_wraps; http_handler.
  - apply try_except_wraps; http_handler.
  - apply try_except_wraps; http_handler.
  - apply try_except_wraps; http_handler.
Qed.

Lemma handlers_raise_http_only_witness :
  (Main.handle Settings.default (Some unreachable_service) sample_str sample_host
     Main.GetDocuments empty_world).1
  = Raise (HTTPException 500 "failed to list files: connection refused")
  ∧ is_HTTPException (HTTPException 500 "failed to list files: connection refused")
    = true.
Proof.
  split; [reflexivity |].
  exact (handlers_raise_http_only Settings.default (Some unreachable_service)
           sample_str sample_host Main.GetDocuments empty_world _ eq_refl).
Defined.

(** ** Router: conversation, end to end *)

(** X19.  The conversation route, end to end: after a successful derivation
    the provider is asked for the signed URL and for a completion of the
    history followed by the question; the response holds the first choice's
    text, the usage counters as given, and as conversation length the number
    of messages of the request, the last one included. *)
Theorem conversation_end_to_end (service : MistralService.t)
    (str_of_exn : exn → string) (request : DocumentConversationRequest.t)
    (history : list PyVal) (question : string) (signed_url : SignedUrl.t)
    (chat_response : ChatResponse.t) (choice0 : ChatResponse.choice)
    (rest : list ChatResponse.choice) (u : Usage.t) (w : World) :
  let file_id := DocumentConversationRequest.file_id request in
  let model := DocumentConversationRequest.model request in
  let messages :=
    (history ++ [question_turn question (SignedUrl.url signed_url)])%list in
  Main.derive_conversation (DocumentConversationRequest.messages request)
  = Ok (history, question) →
  Mistral.files_get_signed_url (MistralService.client service) (calls w) file_id None
  = Ok signed_url →
  Mistral.chat_complete (MistralService.client service)
    (calls w ++ [FilesGetSignedUrl file_id None]) model messages
  = Ok chat_response →
  ChatResponse.choices chat_response = choice0 :: rest →
  ChatResponse.usage chat_response = Some u →
  Main.query_document_conversation (Some service) str_of_exn request w
  = (Ok {| DocumentConversationResponse.answer :=
             ChatResponse.content (ChatResponse.message_of choice0);
           DocumentConversationResponse.model := ChatResponse.model chat_response;
           DocumentConversationResponse.usage :=
             [("prompt_tokens", Usage.prompt_tokens u);
              ("completion_tokens", Usage.completion_tokens u);
              ("total_tokens", Usage.total_tokens u)];
           DocumentConversationResponse.file_id := file_id;
           DocumentConversationResponse.conversation_length :=
             Z.of_nat (length (DocumentConversationRequest.messages request)) |},
     {| calls := calls w ++ [FilesGetSignedUrl file_id None; ChatComplete model messages];
        fs := fs w |}).
Proof.
  intros file_id model messages Hd Hurl Hchat Hchoices Husage.
  subst file_id model messages.
  unfold Main.query_document_conversation, try_except.
  unfold mbind at 1, M_bind at 1, lift at 1. rewrite Hd.
  unfold mbind at 1, M_bind at 1.
  rewrite (query_document_run _ _ _ _ _ signed_url w Hurl), build_messages_history.
  rewrite Hchat.
  unfold mbind, M_bind, lift, mret, M_ret, Main.first_answer.
  rewrite Hchoices, (usage_dict_verbatim _ _ Husage). reflexivity.
Qed.

Lemma conversation_end_to_end_witness :
  Main.query_document_conversation (Some accepting_service) sample_str
    (conversation [message "user" "A"; message "assistant" "B"; message "user" "C"])
    empty_world
  = (Ok {| DocumentConversationResponse.answer := "an answer";
           DocumentConversationResponse.model := "mistral-small-latest";
           DocumentConversationResponse.usage :=
             [("prompt_tokens", 100); ("completion_tokens", 50); ("total_tokens", 150)];
           DocumentConversationResponse.file_id := "file-0123456789";
           DocumentConversationResponse.conversation_length := 3 |},
     {| calls :=
          [ FilesGetSignedUrl "file-0123456789" None;
            ChatComplete "mistral-small-latest"
              [ Main.turn "user" "A"; Main.turn "assistant" "B";
                question_turn "C" "https://example.com/doc.pdf" ] ];
        fs := ∅ |}).
Proof.
  exact (conversation_end_to_end accepting_service sample_str
           (conversation [message "user" "A"; message "assistant" "B"; message "user" "C"])
           [Main.turn "user" "A"; Main.turn "assistant" "B"] "C"
           {| SignedUrl.url := "https://example.com/doc.pdf" |}
           sample_answer _ _ _ empty_world eq_refl eq_refl eq_refl eq_refl eq_refl).
Defined.


Lemma conversation_stream_rejected_witness :
  Main.query_document_conversation_stream (Some accepting_service) sample_str
    (conversation [message "user" "A"; message "assistant" "B"]) empty_world
  = (Raise (HTTPException 500 "failed to stream query: 400: last message must be from user"),
     empty_world).
Proof.
  exact (conversation_stream_rejected accepting_service sample_str
           (conversation [message "user" "A"; message "assistant" "B"])
           (HTTPException 400 "last message must be from user") empty_world eq_refl).
Defined.

Lemma resume_drain_witness :
  Main.drain 5
    (Main.Streaming
       (List.map text_increment [PyText.of_str "Hi"; []; PyText.of_str " there"]) None)
  = Some ([ content_event (PyText.of_str "Hi"); content_event (PyText.of_str " there");
            done_event ], None).
Proof.
  exact (resume_drain
           (List.map text_increment [PyText.of_str "Hi"; []; PyText.of_str " there"])
           None 5 ltac:(simpl; lia)).
Defined.
